(** * ML_log_analysis: vectorization, baseline cleaning and outlier scoring

    A shallow embedding of [esconstants.py], [esanalyze.py],
    [esvectorize.py] and the query builder of [esquery.py], and the
    properties of the pipeline proved over it.

    Numeric conventions.  numpy's [float64] is modelled by exact arithmetic:
    rationals ([Q]) for the stored arrays, which the code only adds, divides
    and interpolates, and reals ([R]) for the spectra.  Rounding is not
    modelled; the values a division by zero produces (infinities and NaN)
    are, because the code compares them with its thresholds.  A spectral
    component that is zero in exact arithmetic can be a tiny non-zero number
    in [float64]: what depends on a magnitude being zero is therefore stated
    on the spectrum that the division receives, or for constant vectors,
    and not for every vector whose exact transform vanishes. *)

From Stdlib Require Import Reals Psatz Lia ZArith QArith Qround List String Ascii Sorted Permutation
  DecimalString DecimalZ.
From stdpp Require Import gmap strings.

Set Default Proof Using "Type".

(** ** Exceptions *)

Inductive exn : Type :=
| KeyError
| IndexError
| TypeError
| ValueError
| AttributeError.

Inductive result (A : Type) : Type :=
| Ok (a : A)
| Raise (e : exn).
Arguments Ok {A} a.
Arguments Raise {A} e.

Definition bind {A B : Type} (m : result A) (k : A -> result B) : result B :=
  match m with
  | Ok a => k a
  | Raise e => Raise e
  end.

#[global] Instance result_ret : MRet result := @Ok.
#[global] Instance result_bind : MBind result := fun A B k m => bind m k.

(** ** esconstants.py *)

Module esconstants.
Definition TEST_DAY : Z := 1.
Definition NUM_DAYS : nat := 31.
Definition NUM_BUCKETS : nat := 25.
Definition LOW_PC : Q := 1.
Definition HIGH_PC : Q := 99.
Definition FFT_ANALYSIS_DEPTH : nat := 5.
Definition FFT_COMPONENT_WEIGHT : R := 2.
Definition FFT_TEST_DIFF_THRESHOLD : R := 5 / 10.
Definition FFT_POINT_DIFF_THRESHOLD : R := 25 / 100.
Definition KEY_ES_SOURCE : string := "_source".
Definition KEY_ES_TYPE : string := "type".
Definition KEY_ES_TIMESTAMP : string := "@timestamp".
Definition KEY_OSSEC_TYPE : string := "ossec".
Definition KEY_OSSEC_RULE : string := "rule_number".
Definition KEY_SYSLOG_TYPE : string := "syslog".
Definition KEY_SYSLOG_SEV : string := "syslog_severity_code".
Definition KEY_SURICATA_TYPE : string := "suricata".
Definition KEY_SURICATA_EVENTS : string := "event_type".
Definition KEY_SURICATA_ALERT : string := "alert".
Definition KEY_SURICATA_SIG : string := "signature_id".
End esconstants.

(** ** Numbers *)

(** A [float64] value: a real, or one of the specials. *)
Inductive npfloat : Type :=
| Fin (x : R)
| PInf
| NInf
| NaN.

Definition Rltb (x y : R) : bool := if Rlt_dec x y then true else false.
Definition Reqb (x y : R) : bool := if Req_dec_T x y then true else false.

(** [x / y] on finite operands; a zero divisor is the positive zero that
    [abs] and the sums of this program produce.  The divisor is tested on
    its exact value. *)
Definition fin_div (x y : R) : npfloat :=
  if Reqb y 0 then
    if Rltb 0 x then PInf else if Rltb x 0 then NInf else NaN
  else Fin (x / y).

Definition np_div (a b : npfloat) : npfloat :=
  match a, b with
  | NaN, _ | _, NaN => NaN
  | Fin x, Fin y => fin_div x y
  | Fin _, (PInf | NInf) => Fin 0
  | (PInf | NInf), (PInf | NInf) => NaN
  | PInf, Fin y => if Rltb y 0 then NInf else PInf
  | NInf, Fin y => if Rltb y 0 then PInf else NInf
  end.

Definition np_sub (a b : npfloat) : npfloat :=
  match a, b with
  | NaN, _ | _, NaN => NaN
  | Fin x, Fin y => Fin (x - y)
  | PInf, PInf | NInf, NInf => NaN
  | PInf, _ | _, NInf => PInf
  | NInf, _ | _, PInf => NInf
  end.

(** [a < b]; every comparison with NaN is false. *)
Definition np_lt (a b : npfloat) : bool :=
  match a, b with
  | NaN, _ | _, NaN => false
  | Fin x, Fin y => Rltb x y
  | NInf, (Fin _ | PInf) => true
  | Fin _, PInf => true
  | _, _ => false
  end.

Definition np_gt (a b : npfloat) : bool := np_lt b a.

(** [complex128]: real and imaginary part. *)
Definition complex : Type := R * R.

Definition cadd (z w : complex) : complex := (fst z + fst w, snd z + snd w)%R.
Definition cmul (z w : complex) : complex :=
  (fst z * fst w - snd z * snd w, fst z * snd w + snd z * fst w)%R.
Definition cmulr (z : complex) (r : R) : complex := (fst z * r, snd z * r)%R.
Definition cdivr (z : complex) (r : R) : complex := (fst z / r, snd z / r)%R.
Definition cexp (z : complex) : complex :=
  (exp (fst z) * cos (snd z), exp (fst z) * sin (snd z))%R.
Definition of_real (x : R) : complex := (x, 0%R).
(** [abs] of a complex number. *)
Definition cabs (z : complex) : R := sqrt (fst z * fst z + snd z * snd z).
Definition csum (l : list complex) : complex := fold_right cadd (0%R, 0%R) l.

(** ** Arrays *)

(** A one-dimensional numpy array, by its dtype: the hourly counts are
    [int] arrays, their averages are [float64] arrays. *)
Inductive ndarray : Type :=
| IntArr (l : list Z)
| FloatArr (l : list Q).

Definition len (a : ndarray) : nat :=
  match a with
  | IntArr l => length l
  | FloatArr l => length l
  end.

(** [a.astype(numpy.float64)], as exact values. *)
Definition astype_float (a : ndarray) : list Q :=
  match a with
  | IntArr l => map inject_Z l
  | FloatArr l => l
  end.

(** The values of an array as reals, the input of the transform. *)
Definition values (a : ndarray) : list R := map Q2R (astype_float a).

(** ** The discrete Fourier transform *)

Definition arange (N : nat) : list R := map INR (seq 0 N).

(** [numpy.dot(M, x)] for a complex matrix, given by its rows, and a real
    vector: each row's sum of products, accumulated from the left. *)
Definition dot_row (row : list complex) (x : list R) : complex :=
  fold_left (fun acc mx => cadd acc (cmul (fst mx) (of_real (snd mx))))
            (combine row x) (0%R, 0%R).

Definition dot (M : list (list complex)) (x : list R) : list complex :=
  map (fun row => dot_row row x) M.

(** [ESAnalyze._fft_slow]: the matrix [M = exp(-2j * pi * k * n / N)], one
    row per [k], applied to [x]. *)
Definition _fft_slow (x : list R) : list complex :=
  let N := length x in
  let n := arange N in
  let M :=
    map (fun k =>
           map (fun n' =>
                  cexp (cdivr (cmulr (cmulr (cmulr (0, -2)%R PI) k) n') (INR N)))
               n)
        n in
  dot M x.

(** [scipy.fftpack.fft] is library code; its value on an array with data
    points is taken by the formula of its documentation,
    [y(j) = (x * exp(-2*pi*sqrt(-1)*j*arange(n)/n)).sum()], in exact
    arithmetic. *)
Definition fft (x : list R) : list complex :=
  let n := length x in
  map (fun j =>
         csum (map (fun k =>
                      cmul (of_real (nth k x 0%R))
                           (cos (- (2 * PI * INR j * INR k / INR n)),
                            sin (- (2 * PI * INR j * INR k / INR n)))%R)
                   (seq 0 n)))
      (seq 0 n).

(** The call [fftpack.fft(x)]: on an array without data points it raises
    [ValueError], any other array is transformed. *)
Definition fftpack_fft (x : list R) : result (list complex) :=
  match x with
  | [] => Raise ValueError
  | _ :: _ => Ok (fft x)
  end.

(** ** esanalyze.py *)

(** Python's [l[i]]: [IndexError] out of range. *)
Definition getitem {A : Type} (l : list A) (i : nat) : result A :=
  match nth_error l i with
  | Some a => Ok a
  | None => Raise IndexError
  end.

(** The body of the loop of [_fft_amplitude_diff], on the pair
    [(freq_diffs, curr_weight)]. *)
Definition amplitude_step (test train : list complex)
    (acc : result (list R * R)) (i : nat) : result (list R * R) :=
  '(freq_diffs, curr_weight) ← acc;
  t ← getitem test i;
  b ← getitem train i;
  Ok (freq_diffs ++ [(Rabs (cabs t - cabs b) / curr_weight)%R],
      (curr_weight * esconstants.FFT_COMPONENT_WEIGHT)%R).

(** Python's [sum]. *)
Definition sum (l : list R) : R := fold_left Rplus l 0%R.

(** [ESAnalyze._fft_amplitude_diff]; after the loop [i] is its last value,
    [FFT_ANALYSIS_DEPTH - 1]. *)
Definition _fft_amplitude_diff (test train : list complex) : result npfloat :=
  '(freq_diffs, _) ←
    fold_left (amplitude_step test train)
              (seq 0 esconstants.FFT_ANALYSIS_DEPTH) (Ok ([], 1%R));
  let i := (esconstants.FFT_ANALYSIS_DEPTH - 1)%nat in
  b ← getitem train i;
  Ok (fin_div (sum freq_diffs / INR esconstants.FFT_ANALYSIS_DEPTH) (cabs b)).

(** Python's [l[i] = a]: [IndexError] out of range. *)
Definition setitem {A : Type} (l : list A) (i : nat) (a : A) : result (list A) :=
  if decide (i < length l)%nat then Ok (<[i:=a]> l) else Raise IndexError.

(** The attributes of an [ESAnalyze] object.  [test_date] is a calendar
    day, as its proleptic Gregorian ordinal. *)
Record ESAnalyze : Type := mkESAnalyze {
  test_date : option Z;
  outliers_flag : bool;
  outliers : gmap string (gmap string (list nat));
  test_data : gmap string (gmap string ndarray);
  _train_data : gmap Z (gmap string (gmap string ndarray));
  _shape_flag : bool;
  _amplitude_diff : npfloat;
  _plot_flag : bool
}.

(** [ESAnalyze.__init__]. *)
Definition __init__ (testset : gmap string (gmap string ndarray))
    (trainset : gmap Z (gmap string (gmap string ndarray)))
    (plot : bool) : ESAnalyze :=
  {| test_date := None;
     outliers_flag := false;
     outliers := ∅;
     test_data := testset;
     _train_data := trainset;
     _shape_flag := false;
     _amplitude_diff := Fin 0;
     _plot_flag := plot |}.

Definition set_outliers_flag (b : bool) (self : ESAnalyze) : ESAnalyze :=
  mkESAnalyze (test_date self) b (outliers self) (test_data self)
              (_train_data self) (_shape_flag self) (_amplitude_diff self)
              (_plot_flag self).

Definition set_outliers (o : gmap string (gmap string (list nat)))
    (self : ESAnalyze) : ESAnalyze :=
  mkESAnalyze (test_date self) (outliers_flag self) o (test_data self)
              (_train_data self) (_shape_flag self) (_amplitude_diff self)
              (_plot_flag self).

Definition set_amplitude_diff (d : npfloat) (self : ESAnalyze) : ESAnalyze :=
  mkESAnalyze (test_date self) (outliers_flag self) (outliers self)
              (test_data self) (_train_data self) (_shape_flag self) d
              (_plot_flag self).

(** [datetime.weekday()]: Monday is 0; day 1 of the calendar is a Monday. *)
Definition weekday (ordinal : Z) : Z := ((ordinal + 6) mod 7)%Z.

(** [ESAnalyze._store_outlier_alerts]. *)
Definition _store_outlier_alerts (outlier_positions : list nat)
    (type_key subtype : string) (self : ESAnalyze) : ESAnalyze :=
  let o := outliers self in
  let o := match o !! type_key with
           | None => <[type_key := ∅]> o
           | Some _ => o
           end in
  let inner := default ∅ (o !! type_key) in
  set_outliers (<[type_key := <[subtype := outlier_positions]> inner]> o) self.

(** [train[day][type_key][subtype]]: [KeyError] when a key is missing. *)
Definition train_lookup (train : gmap Z (gmap string (gmap string ndarray)))
    (day : Z) (type_key subtype : string) : result ndarray :=
  match train !! day with
  | None => Raise KeyError
  | Some by_type =>
      match by_type !! type_key with
      | None => Raise KeyError
      | Some by_subtype =>
          match by_subtype !! subtype with
          | None => Raise KeyError
          | Some v => Ok v
          end
      end
  end.

(** Outliers check 2, one hour: put the training value in place of the
    observation and compare the change of the metric with the threshold. *)
Definition attribution_step (tv bv : ndarray) (trainfft : list complex)
    (D : npfloat) (acc : result (list nat)) (i : nat) : result (list nat) :=
  outlier_positions ← acc;
  let test_tmp := astype_float tv in
  b ← getitem (astype_float bv) i;
  test_tmp ← setitem test_tmp i b;
  outlierfft ← fftpack_fft (map Q2R test_tmp);
  difference ← _fft_amplitude_diff outlierfft trainfft;
  if np_gt (np_div (np_sub D difference) D)
           (Fin esconstants.FFT_POINT_DIFF_THRESHOLD)
  then Ok (outlier_positions ++ [i])
  else Ok outlier_positions.

(** The [try] block for one subtype.  [None] is its [continue]; otherwise
    the block ends with the positions found. *)
Definition try_block (day : Z) (type_key subtype : string) (tv : ndarray)
    (self : ESAnalyze) : result (ESAnalyze * option (list nat)) :=
  testfft ← fftpack_fft (values tv);
  bv ← train_lookup (_train_data self) day type_key subtype;
  trainfft ← fftpack_fft (values bv);
  d ← _fft_amplitude_diff testfft trainfft;
  let self := set_amplitude_diff d self in
  if np_lt (_amplitude_diff self) (Fin esconstants.FFT_TEST_DIFF_THRESHOLD)
  then Ok (self, None)
  else
    outlier_positions ←
      fold_left (attribution_step tv bv trainfft (_amplitude_diff self))
                (seq 0 (esconstants.NUM_BUCKETS - 1)) (Ok []);
    Ok (self, Some outlier_positions).

(** [test[i] >= 1]. *)
Definition ge_one (tv : ndarray) (i : nat) : bool :=
  match tv with
  | IntArr l => (1 <=? nth i l 0)%Z
  | FloatArr l => Qle_bool 1 (nth i l 0%Q)
  end.

(** The [except KeyError] block: the hours with hits. *)
Definition except_block (type_key subtype : string) (tv : ndarray)
    (self : ESAnalyze) : ESAnalyze :=
  let self := set_outliers_flag true self in
  let outlier_positions :=
    fold_left (fun acc i => if ge_one tv i then acc ++ [i] else acc)
              (seq 0 (len tv)) [] in
  _store_outlier_alerts outlier_positions type_key subtype self.

(** The body of the loop over the subtypes of a type. *)
Definition subtype_body (day : Z) (type_key subtype : string) (tv : ndarray)
    (self : ESAnalyze) : result ESAnalyze :=
  match try_block day type_key subtype tv self with
  | Raise KeyError => Ok (except_block type_key subtype tv self)
  | Raise e => Raise e
  | Ok (self, None) => Ok self
  | Ok (self, Some outlier_positions) =>
      match outlier_positions with
      | [] => Ok self
      | _ :: _ =>
          let self := set_outliers_flag true self in
          Ok (_store_outlier_alerts outlier_positions type_key subtype self)
      end
  end.

(** [ESAnalyze.outlier_detection].  [now] is the reading of the clock, the
    local calendar day of the call.  Printing and plotting are left out. *)
Definition outlier_detection (now : Z) (self : ESAnalyze) : result ESAnalyze :=
  let test_date := (now - esconstants.TEST_DAY)%Z in
  let day := weekday test_date in
  let self :=
    mkESAnalyze (Some test_date) false ∅ (test_data self) (_train_data self)
                false (_amplitude_diff self) (_plot_flag self) in
  map_fold
    (fun type_key subtypes acc =>
       map_fold
         (fun subtype tv acc =>
            self ← acc; subtype_body day type_key subtype tv self)
         acc subtypes)
    (Ok self) (test_data self).

(** *** data_clean *)

(** The loop [for k in m: out[k] = f(k, m[k])] over a dictionary, started
    from [init]: from the empty dictionary when [out] is new, from [m]
    itself when the entries are rewritten in place. *)
Definition for_each {K : Type} `{Countable K} {A B : Type}
    (f : K -> A -> result B) (init : gmap K B) (m : gmap K A)
    : result (gmap K B) :=
  map_fold (fun k v acc => out ← acc; b ← f k v; Ok (<[k := b]> out))
           (Ok init) m.

(** An entry of [agg_data]: the empty dictionary it is created as, one
    vector, or the matrix [numpy.vstack] built, by its rows. *)
Inductive stacked : Type :=
| Empty
| Row (a : ndarray)
| Rows (m : list (list Q)).

(** [len] of an entry: the slots of a vector, the rows of a matrix. *)
Definition len_stacked (a : stacked) : nat :=
  match a with
  | Empty => 0
  | Row v => len v
  | Rows m => length m
  end.

(** [numpy.vstack((arr, vector))]: the rows must be as long as [vector]. *)
Definition vstack (arr : stacked) (vector : ndarray) : result stacked :=
  match arr with
  | Empty => Raise ValueError
  | Row v =>
      if Nat.eqb (len v) (len vector)
      then Ok (Rows [astype_float v; astype_float vector])
      else Raise ValueError
  | Rows m =>
      if forallb (fun r => Nat.eqb (length r) (len vector)) m
      then Ok (Rows (m ++ [astype_float vector]))
      else Raise ValueError
  end.

Definition Qsum (l : list Q) : Q := fold_right Qplus 0%Q l.

(** [numpy.average(m, axis=0)]: the mean of every column. *)
Definition average (m : list (list Q)) : list Q :=
  map (fun j => (Qsum (map (fun r => nth j r 0%Q) m)
                   / inject_Z (Z.of_nat (length m)))%Q)
      (seq 0 (length (hd [] m))).

Fixpoint insert_sorted (x : Q) (l : list Q) : list Q :=
  match l with
  | [] => [x]
  | y :: l' => if Qle_bool x y then x :: l else y :: insert_sorted x l'
  end.

Definition sort (l : list Q) : list Q := fold_right insert_sorted [] l.

(** One percentile of [numpy.percentile], by linear interpolation between
    the two closest ranks of the sorted values. *)
Definition percentile_of_sorted (s : list Q) (q : Q) : Q :=
  let idx := (q / 100 * inject_Z (Z.of_nat (length s - 1)))%Q in
  let lo := Z.to_nat (Qfloor idx) in
  let g := (idx - inject_Z (Qfloor idx))%Q in
  let a := nth lo s 0%Q in
  let b := nth (Nat.min (lo + 1) (length s - 1)) s 0%Q in
  (a + (b - a) * g)%Q.

(** [numpy.percentile(a, [LOW_PC, HIGH_PC])]; an empty array has none. *)
Definition percentile (a : list Q) : result (Q * Q) :=
  match a with
  | [] => Raise IndexError
  | _ :: _ =>
      let s := sort a in
      Ok (percentile_of_sorted s esconstants.LOW_PC,
          percentile_of_sorted s esconstants.HIGH_PC)
  end.

(** First loop of [data_clean], the body for one subtype. *)
Definition aggregate_subtype (type_key subtype : string) (vector : ndarray)
    (acc : result (gmap string (gmap string stacked)))
    : result (gmap string (gmap string stacked)) :=
  agg_data ← acc;
  let by_subtype := default ∅ (agg_data !! type_key) in
  let by_subtype := match by_subtype !! subtype with
                    | None => <[subtype := Empty]> by_subtype
                    | Some _ => by_subtype
                    end in
  let arr := default Empty (by_subtype !! subtype) in
  if Nat.eqb (len_stacked arr) 0
  then Ok (<[type_key := <[subtype := Row vector]> by_subtype]> agg_data)
  else
    new ← vstack arr vector;
    Ok (<[type_key := <[subtype := new]> by_subtype]> agg_data).

(** The body for one type of one day. *)
Definition aggregate_type (type_key : string) (subtypes : gmap string ndarray)
    (acc : result (gmap string (gmap string stacked)))
    : result (gmap string (gmap string stacked)) :=
  agg_data ← acc;
  let agg_data := match agg_data !! type_key with
                  | None => <[type_key := ∅]> agg_data
                  | Some _ => agg_data
                  end in
  map_fold (aggregate_subtype type_key) (Ok agg_data) subtypes.

Definition aggregate (train : gmap Z (gmap string (gmap string ndarray)))
    : result (gmap string (gmap string stacked)) :=
  map_fold (fun _ by_type acc => map_fold aggregate_type acc by_type)
           (Ok ∅) train.

(** Second loop: a single line is taken as it is, a matrix is averaged;
    then the percentiles. *)
Definition averaged (a : stacked) : result (list Q) :=
  match a with
  | Empty => Raise AttributeError
  | Row v => Ok (astype_float v)
  | Rows m => Ok (average m)
  end.

Definition trim (agg_data : gmap string (gmap string stacked))
    : result (gmap string (gmap string (Q * Q))) :=
  for_each (fun _ by_subtype =>
              for_each (fun _ a => v ← averaged a; percentile v) ∅ by_subtype)
           ∅ agg_data.

Definition Qlt_bool (x y : Q) : bool := negb (Qle_bool y x).

(** A [float64] stored into an [int] array is cut towards zero. *)
Definition truncate (q : Q) : Z :=
  if Qle_bool 0 q then Qfloor q else Qceiling q.

(** Third loop, one slot: a value outside the band is replaced by the
    band's nearer end; the array keeps its dtype. *)
Definition clip_slot (low high : Q) (v : ndarray) (i : nat) : ndarray :=
  match v with
  | IntArr l =>
      let x := inject_Z (nth i l 0%Z) in
      if Qlt_bool x low then IntArr (<[i := truncate low]> l)
      else if Qlt_bool high x then IntArr (<[i := truncate high]> l)
      else v
  | FloatArr l =>
      let x := nth i l 0%Q in
      if Qlt_bool x low then FloatArr (<[i := low]> l)
      else if Qlt_bool high x then FloatArr (<[i := high]> l)
      else v
  end.

Definition clip (band : Q * Q) (v : ndarray) : ndarray :=
  fold_left (clip_slot (fst band) (snd band)) (seq 0 (len v)) v.

(** [trim_data[type_key][subtype]]. *)
Definition trim_lookup (trim_data : gmap string (gmap string (Q * Q)))
    (type_key subtype : string) : result (Q * Q) :=
  match trim_data !! type_key with
  | None => Raise KeyError
  | Some t =>
      match t !! subtype with
      | None => Raise KeyError
      | Some band => Ok band
      end
  end.

(** The last pass: every vector of the training data is clipped where it
    is stored. *)
Definition haircut (trim_data : gmap string (gmap string (Q * Q)))
    (train : gmap Z (gmap string (gmap string ndarray)))
    : result (gmap Z (gmap string (gmap string ndarray))) :=
  for_each (fun _ by_type =>
     for_each (fun type_key by_subtype =>
        for_each (fun subtype v =>
                    band ← trim_lookup trim_data type_key subtype;
                    Ok (clip band v))
                 by_subtype by_subtype)
        by_type by_type)
     train train.

(** [ESAnalyze.data_clean]. *)
Definition data_clean (self : ESAnalyze) : result ESAnalyze :=
  agg_data ← aggregate (_train_data self);
  trim_data ← trim agg_data;
  train ← haircut trim_data (_train_data self);
  Ok (mkESAnalyze (test_date self) (outliers_flag self) (outliers self)
        (test_data self) train (_shape_flag self) (_amplitude_diff self)
        (_plot_flag self)).

(** ** esvectorize.py *)

(** The JSON values of a search result. *)
#[local] Unset Elimination Schemes.
Inductive json : Type :=
| JNull
| JNum (z : Z)
| JStr (s : string)
| JList (l : list json)
| JObj (fields : list (string * json)).
#[local] Set Elimination Schemes.

(** A Python [dict] with string keys, in insertion order. *)
Definition dict : Type := list (string * json).

Fixpoint dict_get (d : dict) (k : string) : option json :=
  match d with
  | [] => None
  | (k', v) :: d' => if String.eqb k' k then Some v else dict_get d' k
  end.

(** [d[k]]. *)
Definition dict_getitem (d : dict) (k : string) : result json :=
  match dict_get d k with
  | Some v => Ok v
  | None => Raise KeyError
  end.

(** [d[k] = v]. *)
Fixpoint dict_set (d : dict) (k : string) (v : json) : dict :=
  match d with
  | [] => [(k, v)]
  | (k', v') :: d' =>
      if String.eqb k' k then (k, v) :: d' else (k', v') :: dict_set d' k v
  end.

(** The values that can be the key of a dictionary. *)
Inductive hkey : Type :=
| KNone
| KInt (z : Z)
| KStr (s : string).

Definition hkey_eqb (a b : hkey) : bool :=
  match a, b with
  | KNone, KNone => true
  | KInt x, KInt y => Z.eqb x y
  | KStr x, KStr y => String.eqb x y
  | _, _ => false
  end.

(** Lists and objects are unhashable. *)
Definition hashable (v : json) : result hkey :=
  match v with
  | JNull => Ok KNone
  | JNum z => Ok (KInt z)
  | JStr s => Ok (KStr s)
  | JList _ | JObj _ => Raise TypeError
  end.

(** Indexing by a key needs an object. *)
Definition as_dict (v : json) : result dict :=
  match v with
  | JObj d => Ok d
  | _ => Raise TypeError
  end.

(** A dictionary of hits by key, in insertion order. *)
Definition groups : Type := list (hkey * list dict).

Fixpoint groups_get (g : groups) (k : hkey) : option (list dict) :=
  match g with
  | [] => None
  | (k', hits) :: g' => if hkey_eqb k' k then Some hits else groups_get g' k
  end.

(** [g[k].append(hit)] when [k in g], else [g[k] = [hit]]. *)
Fixpoint groups_add (g : groups) (k : hkey) (hit : dict) : groups :=
  match g with
  | [] => [(k, [hit])]
  | (k', hits) :: g' =>
      if hkey_eqb k' k then (k', hits ++ [hit]) :: g'
      else (k', hits) :: groups_add g' k hit
  end.

(** The fields of a hit, taken out of its [_source] key when it has one. *)
Definition unwrap (hit : dict) : result dict :=
  match dict_get hit esconstants.KEY_ES_SOURCE with
  | Some source => as_dict source
  | None => Ok hit
  end.

(** The body of the loop of [_hits_by_key]. *)
Definition hits_by_key_body (key : string) (acc : result groups) (hit : dict)
    : result groups :=
  hits_by_key ← acc;
  hit ← unwrap hit;
  hit ← (if String.eqb key esconstants.KEY_SURICATA_SIG then
           let timestamp :=
             default JNull (dict_get hit esconstants.KEY_ES_TIMESTAMP) in
           alert ← dict_getitem hit esconstants.KEY_SURICATA_ALERT;
           alert ← as_dict alert;
           Ok (dict_set alert esconstants.KEY_ES_TIMESTAMP timestamp)
         else Ok hit);
  v ← dict_getitem hit key;
  k ← hashable v;
  Ok (groups_add hits_by_key k hit).

(** [ESVectorize._hits_by_key]. *)
Definition _hits_by_key (source_list : list dict) (key : string)
    : result groups :=
  fold_left (hits_by_key_body key) source_list (Ok []).

Section Vectorize.

(** [dateutil.parser.parse(s).time().hour] and [int(s)] are library
    functions; the model is given for any two of them. *)
Variable parse_hour : string -> result nat.
Variable int_of_str : string -> result Z.

(** [int(atype)]. *)
Definition int_of_hkey (atype : hkey) : result Z :=
  match atype with
  | KNone => Raise TypeError
  | KInt z => Ok z
  | KStr s => int_of_str s
  end.

(** The inner loop of [_hourly_counts]: one hit, counted in its hour. *)
Definition count_hit (acc : result (list Z)) (hit : dict)
    : result (list Z) :=
  row ← acc;
  t ← dict_getitem hit esconstants.KEY_ES_TIMESTAMP;
  hour ← match t with
         | JStr s => parse_hour s
         | _ => Raise TypeError
         end;
  n ← getitem row hour;
  setitem row hour (n + 1)%Z.

(** The outer loop: the row of one subtype, with the subtype's number
    in the last column. *)
Definition count_row (acc : result (list (list Z)))
    (entry : hkey * list dict) : result (list (list Z)) :=
  hit_vecs ← acc;
  row ← fold_left count_hit (snd entry)
                  (Ok (repeat 0%Z esconstants.NUM_BUCKETS));
  n ← int_of_hkey (fst entry);
  row ← setitem row (esconstants.NUM_BUCKETS - 1) n;
  Ok (hit_vecs ++ [row]).

(** [ESVectorize._hourly_counts]. *)
Definition _hourly_counts (hits_type : groups) : result (list (list Z)) :=
  fold_left count_row hits_type (Ok []).

(** [hits[k]] on the hits by log type. *)
Definition groups_getitem (hits : groups) (k : string)
    : result (list dict) :=
  match groups_get hits (KStr k) with
  | Some l => Ok l
  | None => Raise KeyError
  end.

(** [ESVectorize._munge_ossec]. *)
Definition _munge_ossec (hits : groups) : result (option (list (list Z))) :=
  source ← groups_getitem hits esconstants.KEY_OSSEC_TYPE;
  hits_rule ← _hits_by_key source esconstants.KEY_OSSEC_RULE;
  hit_vecs ← _hourly_counts hits_rule;
  Ok (Some hit_vecs).

(** [ESVectorize._munge_syslog]. *)
Definition _munge_syslog (hits : groups) : result (option (list (list Z))) :=
  source ← groups_getitem hits esconstants.KEY_SYSLOG_TYPE;
  hits_sev ← _hits_by_key source esconstants.KEY_SYSLOG_SEV;
  hit_vecs ← _hourly_counts hits_sev;
  Ok (Some hit_vecs).

(** [KEY_SURICATA_EVENTS in hit and hit[KEY_SURICATA_EVENTS] == 'alert']. *)
Definition is_alert (hit : dict) : bool :=
  match dict_get hit esconstants.KEY_SURICATA_EVENTS with
  | Some (JStr s) => String.eqb s "alert"
  | _ => false
  end.

(** The first loop of [_munge_suricata]; [None] is its [return None],
    which is inside the loop. *)
Fixpoint collect_alerts (source : list dict) (alert_hits : list dict)
    : option (list dict) :=
  match source with
  | [] => Some alert_hits
  | hit :: source' =>
      let alert_hits :=
        if is_alert hit then alert_hits ++ [hit] else alert_hits in
      if Nat.eqb (length alert_hits) 0 then None
      else collect_alerts source' alert_hits
  end.

(** [ESVectorize._munge_suricata]. *)
Definition _munge_suricata (hits : groups)
    : result (option (list (list Z))) :=
  source ← groups_getitem hits esconstants.KEY_SURICATA_TYPE;
  match collect_alerts source [] with
  | None => Ok None
  | Some alert_hits =>
      hits_sev ← _hits_by_key alert_hits esconstants.KEY_SURICATA_SIG;
      hit_vecs ← _hourly_counts hits_sev;
      Ok (Some hit_vecs)
  end.

(** The dispatch table [_LOGTYPE_MUNGE]. *)
Definition _LOGTYPE_MUNGE (logtype : hkey)
    : option (groups -> result (option (list (list Z)))) :=
  match logtype with
  | KStr s =>
      if String.eqb s "ossec" then Some _munge_ossec
      else if String.eqb s "syslog" then Some _munge_syslog
      else if String.eqb s "suricata" then Some _munge_suricata
      else None
  | _ => None
  end.

(** [result_data['hits']['hits']]: the list of the hits, each an object. *)
Definition search_hits (result_data : dict) : result (list dict) :=
  outer ← dict_getitem result_data "hits";
  outer ← as_dict outer;
  inner ← dict_getitem outer "hits";
  match inner with
  | JList l =>
      fold_right (fun h acc => l' ← acc; d ← as_dict h; Ok (d :: l'))
                 (Ok []) l
  | _ => Raise TypeError
  end.

(** The body of the loop of [_count_day] over the log types. *)
Definition count_day_body (hits_day : groups)
    (acc : result (list (hkey * list (list Z)))) (entry : hkey * list dict)
    : result (list (hkey * list (list Z))) :=
  counts_day ← acc;
  let logtype := fst entry in
  match _LOGTYPE_MUNGE logtype with
  | None => Ok counts_day
  | Some munge =>
      hits_vec ← munge hits_day;
      match hits_vec with
      | None => Ok counts_day
      | Some m => Ok (counts_day ++ [(logtype, m)])
      end
  end.

(** [ESVectorize._count_day]: the value left in [_result_vectors]. *)
Definition _count_day (result_data : dict)
    : result (list (hkey * list (list Z))) :=
  source ← search_hits result_data;
  hits_day ← _hits_by_key source esconstants.KEY_ES_TYPE;
  fold_left (count_day_body hits_day) hits_day (Ok []).

End Vectorize.

(** ** The notions of the properties *)

Definition c0 : complex := (0%R, 0%R).

(** The weighted sum of the distance metric: over the components
    [k = 0 .. K-1], the absolute difference of the magnitudes, weighted by
    [1 / w^k]. *)
Definition weighted_sum (K : nat) (w : R) (T B : list complex) : R :=
  fold_right Rplus 0%R
    (map (fun k => (Rabs (cabs (nth k T c0) - cabs (nth k B c0)) / w ^ k)%R)
         (seq 0 K)).

(** The distance metric: the weighted sum, divided by [K] and by the
    magnitude of the baseline's component [K-1]. *)
Definition distance (K : nat) (w : R) (T B : list complex) : npfloat :=
  fin_div (weighted_sum K w T B / INR K) (cabs (nth (K - 1) B c0)).

(** The metric [D] of a test vector against a baseline vector. *)
Definition D (tv bv : list R) : npfloat := distance 5 2 (fft tv) (fft bv).

(** The test vector with the baseline's value in slot [i]. *)
Definition substituted (tv bv : ndarray) (i : nat) : list R :=
  map Q2R (<[i := nth i (astype_float bv) 0%Q]> (astype_float tv)).

(** Hour [i] is implicated: the substitution improves the metric by more
    than the point threshold. *)
Definition implicated (tv bv : ndarray) (i : nat) : bool :=
  let d := D (values tv) (values bv) in
  np_gt (np_div (np_sub d (D (substituted tv bv i) (values bv))) d)
        (Fin esconstants.FFT_POINT_DIFF_THRESHOLD).

(** The hours of a vector with a count of at least one. *)
Definition hit_hours (tv : ndarray) : list nat :=
  List.filter (ge_one tv) (seq 0 (len tv)).

(** The hours of a vector of counts whose count is not zero. *)
Definition nonzero_hours (l : list Z) : list nat :=
  List.filter (fun i => negb (nth i l 0 =? 0)%Z) (seq 0 (length l)).

(** What the scoring of one pair leaves in the outlier record, if anything. *)
Definition verdict (train : gmap Z (gmap string (gmap string ndarray)))
    (day : Z) (type_key subtype : string) (tv : ndarray)
    : option (list nat) :=
  match train_lookup train day type_key subtype with
  | Raise _ => Some (hit_hours tv)
  | Ok bv =>
      if np_lt (D (values tv) (values bv))
               (Fin esconstants.FFT_TEST_DIFF_THRESHOLD)
      then None
      else match List.filter (implicated tv bv) (seq 0 24) with
           | [] => None
           | ps => Some ps
           end
  end.

(** [d[type_key][subtype]], when both keys are there. *)
Definition lookup2 {A : Type} (d : gmap string (gmap string A))
    (type_key subtype : string) : option A :=
  d !! type_key ≫= fun by_subtype => by_subtype !! subtype.

(** The vectors the scoring of one pair reads have 24 slots. *)
Definition wf_pair (train : gmap Z (gmap string (gmap string ndarray)))
    (day : Z) (type_key subtype : string) (tv : ndarray) : Prop :=
  len tv = 24%nat /\
  forall bv, train_lookup train day type_key subtype = Ok bv -> len bv = 24%nat.

(** Every vector the scoring of weekday [day] reads has 24 slots. *)
Definition hourly (self : ESAnalyze) (day : Z) : Prop :=
  forall type_key subtype tv,
    lookup2 (test_data self) type_key subtype = Some tv ->
    wf_pair (_train_data self) day type_key subtype tv.

(** What a run of the detection reports: the outlier record and the flag. *)
Definition report (r : result ESAnalyze)
    : result (gmap string (gmap string (list nat)) * bool) :=
  self ← r; Ok (outliers self, outliers_flag self).

(** Two objects hold the same inputs and the same report. *)
Definition agree (s1 s2 : ESAnalyze) : Prop :=
  outliers s1 = outliers s2 /\
  outliers_flag s1 = outliers_flag s2 /\
  test_data s1 = test_data s2 /\
  _train_data s1 = _train_data s2.

Definition result_agree (r1 r2 : result ESAnalyze) : Prop :=
  match r1, r2 with
  | Ok s1, Ok s2 => agree s1 s2
  | Raise e1, Raise e2 => e1 = e2
  | _, _ => False
  end.

(** [tv'] is [tv] with the value of hour [h] raised, all else the same. *)
Definition raised (tv tv' : ndarray) (h : nat) : Prop :=
  len tv' = len tv /\
  (nth h (values tv) 0 <= nth h (values tv') 0)%R /\
  forall i, i <> h -> nth i (values tv') 0%R = nth i (values tv) 0%R.

(** The number of events of a vector. *)
Definition total (x : list R) : R := fold_right Rplus 0%R x.

(** A list in ascending order. *)
Definition ascending (s : list Q) : Prop :=
  forall i j, (i <= j)%nat -> (j < length s)%nat ->
              (nth i s 0 <= nth j s 0)%Q.

(** A value within a band. *)
Definition in_band (band : Q * Q) (x : Q) : Prop :=
  (fst band <= x)%Q /\ (x <= snd band)%Q.

(** A value brought into the band, as a [float64] and as it is stored in
    an [int] array. *)
Definition clamp_float (low high x : Q) : Q :=
  if Qlt_bool x low then low else if Qlt_bool high x then high else x.

Definition clamp_int (low high : Q) (z : Z) : Z :=
  if Qlt_bool (inject_Z z) low then truncate low
  else if Qlt_bool high (inject_Z z) then truncate high else z.

(** ** Example data *)

(** The vector [[0]*9 + [2] + [0]*14]. *)
Definition spike9 : list Z := (repeat 0 9 ++ [2] ++ repeat 0 14)%Z.

(** The vector of 24 ones. *)
Definition ones24 : ndarray := IntArr (repeat 1%Z 24).

(** A baseline and a test day with hits in hours 0 and 3; the test day has
    none in hour 0. *)
Definition base03 : ndarray := IntArr (3 :: 0 :: 0 :: 2 :: repeat 0 20)%Z.
Definition test03 : ndarray := IntArr (0 :: 0 :: 0 :: 2 :: repeat 0 20)%Z.

(** A baseline and two test days with hits in hour 0 only. *)
Definition base0 : ndarray := IntArr (1 :: repeat 0 23)%Z.
Definition test0 : ndarray := IntArr (6 :: repeat 0 23)%Z.
Definition test0' : ndarray := IntArr (7 :: repeat 0 23)%Z.

(** The hour of an ISO 8601 timestamp, [YYYY-MM-DDTHH:MM:SS...], and the
    number of a string of decimal digits: what [dateutil.parser.parse] and
    [int] give for the timestamps and the rule numbers of the examples. *)
Definition digit (c : ascii) : option nat :=
  let n := nat_of_ascii c in
  if ((48 <=? n) && (n <=? 57))%nat then Some (n - 48)%nat else None.

Fixpoint skip (n : nat) (s : string) : string :=
  match n, s with
  | S n', String _ s' => skip n' s'
  | _, _ => s
  end.

Definition iso_hour (s : string) : result nat :=
  match skip 11 s with
  | String a (String b _) =>
      match digit a, digit b with
      | Some x, Some y => Ok (10 * x + y)%nat
      | _, _ => Raise ValueError
      end
  | _ => Raise ValueError
  end.

Fixpoint decimal_digits (s : string) (acc : Z) : result Z :=
  match s with
  | EmptyString => Ok acc
  | String c s' =>
      match digit c with
      | Some d => decimal_digits s' (10 * acc + Z.of_nat d)%Z
      | None => Raise ValueError
      end
  end.

Definition decimal (s : string) : result Z :=
  match s with
  | EmptyString => Raise ValueError
  | _ => decimal_digits s 0%Z
  end.

(** A hit of the search, with its fields under [_source]. *)
Definition es_hit (id : string) (fields : dict) : json :=
  JObj [("_id", JStr id); ("_source", JObj fields)].

Definition search_result (hits : list json) : dict :=
  [("hits", JObj [("total", JNum (Z.of_nat (length hits)));
                  ("hits", JList hits)])].

(** A suricata flow record followed by an alert record. *)
Definition flow_then_alert : dict :=
  search_result
    [es_hit "1" [("type", JStr "suricata");
                 ("@timestamp", JStr "2015-03-24T09:15:02.000Z");
                 ("event_type", JStr "flow")];
     es_hit "2" [("type", JStr "suricata");
                 ("@timestamp", JStr "2015-03-24T09:15:03.000Z");
                 ("event_type", JStr "alert");
                 ("alert", JObj [("signature_id", JNum 2010935)])]].

(** The same two records, the alert first. *)
Definition alert_then_flow : dict :=
  search_result
    [es_hit "2" [("type", JStr "suricata");
                 ("@timestamp", JStr "2015-03-24T09:15:03.000Z");
                 ("event_type", JStr "alert");
                 ("alert", JObj [("signature_id", JNum 2010935)])];
     es_hit "1" [("type", JStr "suricata");
                 ("@timestamp", JStr "2015-03-24T09:15:02.000Z");
                 ("event_type", JStr "flow")]].

(** Two ossec records; the second has no rule number. *)
Definition ossec_good : dict :=
  [("type", JStr "ossec");
   ("@timestamp", JStr "2015-03-24T09:15:02.000Z");
   ("rule_number", JStr "5501")].

Definition ossec_no_rule : dict :=
  [("type", JStr "ossec");
   ("@timestamp", JStr "2015-03-24T10:20:00.000Z")].

Definition ossec_no_timestamp : dict :=
  [("type", JStr "ossec"); ("rule_number", JStr "5501")].

Definition day_without_rule : dict :=
  search_result [es_hit "1" ossec_good; es_hit "2" ossec_no_rule].

Definition day_without_timestamp : dict :=
  search_result [es_hit "1" ossec_good; es_hit "2" ossec_no_timestamp].

Definition day_well_formed : dict :=
  search_result [es_hit "1" ossec_good].

(** A single historical day for a pair, without a hit in hour 0 and with
    one hit in every other hour. *)
Definition single_day : gmap Z (gmap string (gmap string ndarray)) :=
  {[ 0%Z := {[ "ossec" := {[ "5501" := IntArr (0 :: repeat 1 23)%Z ]} ]} ]}.

(** The same day, and a weekday whose vector is an average. *)
Definition two_days : gmap Z (gmap string (gmap string ndarray)) :=
  {[ 0%Z := {[ "ossec" := {[ "5501" := IntArr (0 :: repeat 1 23)%Z ]} ]};
     1%Z := {[ "ossec" :=
                 {[ "5501" := FloatArr (0 :: repeat (5 # 2) 23)%Q ]} ]} ]}.

(** ** Further example data *)

(** The vector of 24 ones with a 6 in hour 10. *)
Definition spike_at_10 : ndarray :=
  IntArr (repeat 1 10 ++ [6] ++ repeat 1 13)%Z.

(** An analysis of a Friday's data day: one pair, against the baseline of
    24 ones. *)
Definition friday_run : ESAnalyze :=
  __init__ {[ "ossec" := {[ "5501" := IntArr spike9 ]} ]}
           {[ 4%Z := {[ "ossec" := {[ "5501" := ones24 ]} ]} ]} false.

(** ** Further notions *)

(** A complex number scaled by a real. *)
Definition cscale (c : R) (z : complex) : complex := (c * fst z, c * snd z)%R.

(** An entry of [agg_data] built from vectors of [n] slots. *)
Definition good_entry (n : nat) (a : stacked) : Prop :=
  match a with
  | Empty => False
  | Row v => len v = n
  | Rows m => m <> [] /\ List.Forall (fun r => length r = n) m
  end.

(** Every vector of the training data has [n] slots. *)
Definition uniform (train : gmap Z (gmap string (gmap string ndarray)))
    (n : nat) : Prop :=
  forall day type_key subtype v,
    train_lookup train day type_key subtype = Ok v -> len v = n.

(** The dtype of an array. *)
Definition is_int (v : ndarray) : bool :=
  match v with
  | IntArr _ => true
  | FloatArr _ => false
  end.

(** The training data of [two_days] after [data_clean]. *)
Definition two_days_cleaned : ESAnalyze :=
  match data_clean (__init__ ∅ two_days false) with
  | Ok self => self
  | Raise _ => __init__ ∅ ∅ false
  end.

(** The entries of [agg_data] are built from vectors of [n] slots. *)
Definition agg_inv (n : nat) (agg : gmap string (gmap string stacked))
    : Prop :=
  forall tk st a, lookup2 agg tk st = Some a -> good_entry n a.

(** A value between two integers. *)
Definition bounded (m M : Z) (x : Q) : Prop :=
  (inject_Z m <= x)%Q /\ (x <= inject_Z M)%Q.

(** An entry of [agg_data] whose values are between [m] and [M], the rows
    of a matrix being of one length. *)
Definition entry_bounded (m M : Z) (a : stacked) : Prop :=
  match a with
  | Empty => True
  | Row v => List.Forall (bounded m M) (astype_float v)
  | Rows rows =>
      exists n, List.Forall
                  (fun r => length r = n /\ List.Forall (bounded m M) r) rows
  end.

(** The entry of one pair is between [m] and [M]. *)
Definition range_inv (tk0 st0 : string) (m M : Z)
    (agg : gmap string (gmap string stacked)) : Prop :=
  forall a, lookup2 agg tk0 st0 = Some a -> entry_bounded m M a.

(** ** The notions of the vectorizer's properties *)

(** What the loop of [_hits_by_key] makes of one hit: the key under which
    it is filed and the fields that are filed. *)
Definition keyed (key : string) (hit : dict) : result (hkey * dict) :=
  hit ← unwrap hit;
  hit ← (if String.eqb key esconstants.KEY_SURICATA_SIG then
           let timestamp :=
             default JNull (dict_get hit esconstants.KEY_ES_TIMESTAMP) in
           alert ← dict_getitem hit esconstants.KEY_SURICATA_ALERT;
           alert ← as_dict alert;
           Ok (dict_set alert esconstants.KEY_ES_TIMESTAMP timestamp)
         else Ok hit);
  v ← dict_getitem hit key;
  k ← hashable v;
  Ok (k, hit).

(** The filed hits with key [k], in their order. *)
Definition filed_under (k : hkey) (recs : list (hkey * dict)) : list dict :=
  map snd (List.filter (fun r => hkey_eqb (fst r) k) recs).

(** The hour [_hourly_counts] reads from one hit. *)
Definition hit_hour (parse_hour : string -> result nat) (hit : dict)
    : result nat :=
  t ← dict_getitem hit esconstants.KEY_ES_TIMESTAMP;
  match t with
  | JStr s => parse_hour s
  | _ => Raise TypeError
  end.

(** The hits of a list that fall in hour [h]. *)
Definition in_hour (parse_hour : string -> result nat) (h : nat)
    (hits : list dict) : list dict :=
  List.filter (fun hit => match hit_hour parse_hour hit with
                          | Ok h' => Nat.eqb h' h
                          | Raise _ => false
                          end) hits.

(** The sum of a list of integers. *)
Definition Zsum (l : list Z) : Z := fold_right Z.add 0%Z l.

(** ** esvectorize.py: the vectors by type and subtype *)

#[global] Instance hkey_eq_dec : EqDecision hkey.
Proof. solve_decision. Defined.

#[global] Instance hkey_countable : Countable hkey.
Proof.
  refine (inj_countable'
            (fun k => match k with
                      | KNone => inl ()
                      | KInt z => inr (inl z)
                      | KStr s => inr (inr s)
                      end)
            (fun x => match x with
                      | inl _ => KNone
                      | inr (inl z) => KInt z
                      | inr (inr s) => KStr s
                      end) _).
  now intros [].
Defined.

(** [str(n)] of an integer: its decimal digits, with the sign. *)
Definition str (n : Z) : string := NilZero.string_of_int (Z.to_int n).

(** [ESVectorize._get_subtypes]: the last column of every row, as a
    string. *)
Definition _get_subtypes (vectors : list (list Z)) : result (list string) :=
  fold_left (fun acc vector =>
               subtype_list ← acc;
               n ← getitem vector 24;
               Ok (subtype_list ++ [str n]))
            vectors (Ok []).

(** [numpy.delete(a, i)] on a vector. *)
Definition delete (a : list Z) (i : nat) : result (list Z) :=
  if decide (i < length a)%nat then Ok (firstn i a ++ skipn (S i) a)
  else Raise IndexError.

(** [ESVectorize._get_vector]: the counts of the first row with the
    subtype; [None] when the loop ends without one. *)
Fixpoint _get_vector (vectors : list (list Z)) (subtype : string)
    : result (option (list Z)) :=
  match vectors with
  | [] => Ok None
  | vector :: vectors' =>
      n ← getitem vector 24;
      if String.eqb (str n) subtype then
        counts_scalar ← delete vector (esconstants.NUM_BUCKETS - 1);
        Ok (Some counts_scalar)
      else _get_vector vectors' subtype
  end.

(** What [_organize_vectors] keeps under a subtype: the value of
    [_get_vector], or the matrix [numpy.vstack] built from such values. *)
Inductive organized : Type :=
| NoVector
| Vector (v : list Z)
| Matrix (m : list (list Z)).

Definition of_vector (vector : option (list Z)) : organized :=
  match vector with
  | None => NoVector
  | Some v => Vector v
  end.

(** [numpy.vstack((arr, vector))] on vectors of counts: the rows must be
    as long as [vector].  [_get_vector] finds every subtype that
    [_get_subtypes] lists, so that no [None] is stacked by
    [_organize_vectors]; a stack with [None] is given the [ValueError] of
    rows of different lengths. *)
Definition vstack_counts (arr : organized) (vector : option (list Z))
    : result organized :=
  match arr, vector with
  | Vector v, Some w =>
      if Nat.eqb (length v) (length w) then Ok (Matrix [v; w])
      else Raise ValueError
  | Matrix m, Some w =>
      if forallb (fun r => Nat.eqb (length r) (length w)) m
      then Ok (Matrix (m ++ [w]))
      else Raise ValueError
  | _, _ => Raise ValueError
  end.

(** The inner loop of [_organize_vectors], for one subtype. *)
Definition organize_subtype (daytype_vectors : list (list Z))
    (acc : result (gmap string organized)) (subtype : string)
    : result (gmap string organized) :=
  by_subtype ← acc;
  vector ← _get_vector daytype_vectors subtype;
  match by_subtype !! subtype with
  | None => Ok (<[subtype := of_vector vector]> by_subtype)
  | Some arr =>
      new ← vstack_counts arr vector;
      Ok (<[subtype := new]> by_subtype)
  end.

(** The outer loop, for one type. *)
Definition organize_type (acc : result (gmap hkey (gmap string organized)))
    (entry : hkey * list (list Z))
    : result (gmap hkey (gmap string organized)) :=
  outdict ← acc;
  let type_key := fst entry in
  let outdict := match outdict !! type_key with
                 | None => <[type_key := ∅]> outdict
                 | Some _ => outdict
                 end in
  let daytype_vectors := snd entry in
  alert_subtypes ← _get_subtypes daytype_vectors;
  by_subtype ← fold_left (organize_subtype daytype_vectors) alert_subtypes
                         (Ok (default ∅ (outdict !! type_key)));
  Ok (<[type_key := by_subtype]> outdict).

(** [ESVectorize._organize_vectors]. *)
Definition _organize_vectors (invecs : list (hkey * list (list Z)))
    (outdict : gmap hkey (gmap string organized))
    : result (gmap hkey (gmap string organized)) :=
  fold_left organize_type invecs (Ok outdict).

(** The last loop of [get_avg_vectors], one entry: a single line is kept,
    a matrix is averaged by column. *)
Definition averaged_counts (a : organized) : result ndarray :=
  match a with
  | NoVector => Raise AttributeError
  | Vector v => Ok (IntArr v)
  | Matrix m => Ok (FloatArr (average (map (map inject_Z) m)))
  end.

(** [result['hits']['total'] == 0]. *)
Definition total_is_zero (result_data : dict) : result bool :=
  outer ← dict_getitem result_data "hits";
  outer ← as_dict outer;
  total ← dict_getitem outer "total";
  match total with
  | JNum 0 => Ok true
  | _ => Ok false
  end.

Section Month.

Variable parse_hour : string -> result nat.
Variable int_of_str : string -> result Z.

(** [ESVectorize.get_day_vectors]: the value left in [day_vecs]. *)
Definition get_day_vectors (_day_data : dict)
    : result (gmap hkey (gmap string organized)) :=
  _result_vectors ← _count_day parse_hour int_of_str _day_data;
  _organize_vectors _result_vectors ∅.

(** The answer of the search for the logs of one day, the day given by
    its ordinal. *)
Variable post : Z -> result dict.

(** The loop of [get_avg_vectors] over the dates, on the pair
    [(month_vecs, dayofweek)]. *)
Definition fetch_day
    (acc : result (list (Z * list (hkey * list (list Z))) * Z)) (adate : Z)
    : result (list (Z * list (hkey * list (list Z))) * Z) :=
  '(month_vecs, dayofweek) ← acc;
  result_data ← post adate;
  empty ← total_is_zero result_data;
  if (empty : bool) then Ok (month_vecs, ((dayofweek - 1) mod 7)%Z)
  else
    _result_vectors ← _count_day parse_hour int_of_str result_data;
    Ok (month_vecs ++ [(dayofweek, _result_vectors)],
        ((dayofweek - 1) mod 7)%Z).

(** The dates of the history: [NUM_DAYS] days back from the day before
    the test day.  [now] is the day of the first reading of the clock. *)
Definition dates (now : Z) : list Z :=
  map (fun i => (now - (esconstants.TEST_DAY + 1) - Z.of_nat i)%Z)
      (seq 0 esconstants.NUM_DAYS).

(** [month_vecs], by pairs of a weekday and the vectors of a day.  [now']
    is the day of the second reading of the clock. *)
Definition month_vecs (now now' : Z)
    : result (list (Z * list (hkey * list (list Z)))) :=
  '(month_vecs, _) ←
    fold_left fetch_day (dates now)
              (Ok ([], weekday (now' - (esconstants.TEST_DAY + 1))));
  Ok month_vecs.

(** The grouping loop, for one pair of [month_vecs]. *)
Definition group_day
    (acc : result (gmap Z (gmap hkey (gmap string organized))))
    (entry : Z * list (hkey * list (list Z)))
    : result (gmap Z (gmap hkey (gmap string organized))) :=
  grouped_vecs ← acc;
  let day := fst entry in
  let grouped_vecs := match grouped_vecs !! day with
                      | None => <[day := ∅]> grouped_vecs
                      | Some _ => grouped_vecs
                      end in
  by_type ← _organize_vectors (snd entry) (default ∅ (grouped_vecs !! day));
  Ok (<[day := by_type]> grouped_vecs).

(** [ESVectorize.get_avg_vectors]: the value left in [grouped_vecs]. *)
Definition get_avg_vectors (now now' : Z)
    : result (gmap Z (gmap hkey (gmap string ndarray))) :=
  month ← month_vecs now now';
  grouped_vecs ← fold_left group_day month (Ok ∅);
  for_each (fun _ by_type =>
     for_each (fun _ by_subtype =>
        for_each (fun _ a => averaged_counts a) ∅ by_subtype)
        ∅ by_type)
     ∅ grouped_vecs.

End Month.

(** ** The notions of the properties of the day and month structures *)

(** A matrix of [_hourly_counts]: every row has [NUM_BUCKETS] entries. *)
Definition wide (m : list (list Z)) : Prop :=
  List.Forall (fun row => length row = esconstants.NUM_BUCKETS) m.

(** The subtype of a row: its last column, as a string. *)
Definition subtype_of (row : list Z) : string := str (nth 24 row 0%Z).

(** An entry of 24 hourly counts, or a matrix of two or more such rows. *)
Definition shaped (a : organized) : Prop :=
  match a with
  | NoVector => False
  | Vector v => length v = 24%nat
  | Matrix m => (2 <= length m)%nat /\ List.Forall (fun r => length r = 24%nat) m
  end.

(** [outdict[type_key][subtype]], when both keys are there. *)
Definition lookup_vector {A : Type} (d : gmap hkey (gmap string A))
    (type_key : hkey) (subtype : string) : option A :=
  d !! type_key ≫= fun by_subtype => by_subtype !! subtype.

(** The rows an entry holds. *)
Definition rows_of (a : option organized) : list (list Z) :=
  match a with
  | Some (Vector v) => [v]
  | Some (Matrix m) => m
  | _ => []
  end.

(** The first row of a matrix with a subtype. *)
Definition first_with (subtype : string) (vectors : list (list Z))
    : option (list Z) :=
  List.find (fun row => String.eqb (subtype_of row) subtype) vectors.

(** The entry that holds the given rows: none for no row, the vector for
    one, the matrix for more. *)
Definition entry_of_rows (rows : list (list Z)) : option organized :=
  match rows with
  | [] => None
  | [v] => Some (Vector v)
  | _ => Some (Matrix rows)
  end.

(** What the subtypes [l] of a matrix add to the entry of [subtype]: for
    each occurrence of [subtype], the counts of the first row with it. *)
Definition picked_by (vectors : list (list Z)) (l : list string)
    (subtype : string) : list (list Z) :=
  match first_with subtype vectors with
  | Some row => repeat (firstn 24 row) (count_occ string_dec l subtype)
  | None => []
  end.

Definition picked (vectors : list (list Z)) (subtype : string)
    : list (list Z) :=
  picked_by vectors (map subtype_of vectors) subtype.

(** What the vectors of a day add to the entry of a type and subtype. *)
Definition contributed (invecs : list (hkey * list (list Z)))
    (type_key : hkey) (subtype : string) : list (list Z) :=
  flat_map (fun entry => if decide (fst entry = type_key)
                         then picked (snd entry) subtype else [])
           invecs.

(** [grouped_vecs[day][type_key][subtype]], when the keys are there. *)
Definition lookup_day {A : Type} (d : gmap Z (gmap hkey (gmap string A)))
    (day : Z) (type_key : hkey) (subtype : string) : option A :=
  d !! day ≫= fun by_type => lookup_vector by_type type_key subtype.

(** The rows the days of [month_vecs] with weekday [day] add to the entry
    of a type and subtype, in the order of [month_vecs]. *)
Definition month_rows (month : list (Z * list (hkey * list (list Z))))
    (day : Z) (type_key : hkey) (subtype : string) : list (list Z) :=
  flat_map (fun entry => if decide (fst entry = day)
                         then contributed (snd entry) type_key subtype
                         else [])
           month.

(** The vector [get_avg_vectors] leaves for the given rows: none for no
    row, the row itself for one, the mean by column for more. *)
Definition vector_of_rows (rows : list (list Z)) : option ndarray :=
  match rows with
  | [] => None
  | [v] => Some (IntArr v)
  | _ => Some (FloatArr (average (map (map inject_Z) rows)))
  end.

(** A search that finds the well-formed day on 2015-03-24 (a Tuesday,
    day 735681) and a week later, and nothing on any other day. *)
Definition two_tuesdays (adate : Z) : result dict :=
  if (Z.eqb adate 735681 || Z.eqb adate 735688)%bool
  then Ok day_well_formed
  else Ok (search_result []).

(** What the search and the counting give for a day: nothing for a day
    without hits, else the vectors of the day. *)
Definition day_of_history (parse_hour : string -> result nat)
    (int_of_str : string -> result Z) (post : Z -> result dict) (adate : Z)
    (vectors : option (list (hkey * list (list Z)))) : Prop :=
  exists result_data,
    post adate = Ok result_data /\
    match vectors with
    | None => total_is_zero result_data = Ok true
    | Some v => total_is_zero result_data = Ok false /\
                _count_day parse_hour int_of_str result_data = Ok v
    end.

(** ** esquery.py *)

(** The exceptions of [_build_query]: those of the other modules, a local
    variable read before its assignment, and [sys.exit]. *)
Inductive query_exn : Type :=
| Exn (e : exn)
| UnboundLocalError
| SystemExit (code : Z).

Inductive outcome (A : Type) : Type :=
| Returns (a : A)
| Raises (e : query_exn).
Arguments Returns {A} a.
Arguments Raises {A} e.

Definition outcome_bind {A B : Type} (x : outcome A) (f : A -> outcome B)
    : outcome B :=
  match x with
  | Returns a => f a
  | Raises e => Raises e
  end.

#[global] Instance outcome_ret : MRet outcome := fun _ a => Returns a.
#[global] Instance outcome_mbind : MBind outcome :=
  fun _ _ f x => outcome_bind x f.

Definition of_result {A : Type} (r : result A) : outcome A :=
  match r with
  | Ok a => Returns a
  | Raise e => Raises (Exn e)
  end.

(** The arguments of a query, as [argparse] leaves them. *)
Record Namespace : Type := mkNamespace {
  host : string;
  index : string;
  action : option string;
  size : option json;
  terms : option (list string);
  range : option (list string);
  fields : option (list string);
  query : option string;
  count : bool
}.

(** [s.find(':') != -1]. *)
Fixpoint has_colon (s : string) : bool :=
  match s with
  | EmptyString => false
  | String c s' => if Ascii.eqb c ":" then true else has_colon s'
  end.

(** [s.split(':')]. *)
Fixpoint split_colon (s : string) : list string :=
  match s with
  | EmptyString => [EmptyString]
  | String c s' =>
      if Ascii.eqb c ":" then EmptyString :: split_colon s'
      else match split_colon s' with
           | h :: t => String c h :: t
           | [] => [String c EmptyString]
           end
  end.

(** [terms[0]]: [terms] is a list, or [None]. *)
Definition first_term (terms : option (list string)) : outcome string :=
  match terms with
  | None => Raises (Exn TypeError)
  | Some l => of_result (getitem l 0)
  end.

(** [d.update(d')]. *)
Definition dict_update (d d' : dict) : dict :=
  fold_left (fun d kv => dict_set d (fst kv) (snd kv)) d' d.

(** The stock query of an action; the inner [None] is a [dsl_query] that
    no branch has assigned.  The flag is [_agg]. *)
Definition stock_query (action : string) (terms : option (list string))
    : outcome (option dict * bool) :=
  if String.eqb action "stringquery" then
    t ← first_term terms;
    Returns (Some [("query",
                    JObj [("query_string", JObj [("query", JStr t)])])],
             false)
  else if String.eqb action "termquery" then
    t ← first_term terms;
    if has_colon t then
      k ← of_result (getitem (split_colon t) 0);
      v ← of_result (getitem (split_colon t) 1);
      Returns (Some [("query", JObj [("term", JObj [(k, JStr v)])])], false)
    else Raises (SystemExit 1)
  else if String.eqb action "termsagg" then
    t ← first_term terms;
    Returns (Some [("aggs",
                    JObj [("types",
                           JObj [("terms", JObj [("field", JStr t)])])])],
             true)
  else Returns (None, false).

(** A local variable that must have been assigned. *)
Definition bound {A : Type} (x : option A) : outcome A :=
  match x with
  | Some a => Returns a
  | None => Raises UnboundLocalError
  end.

Section Query.

(** [json.loads]. *)
Variable json_loads : string -> result json.

(** [ESQuery._build_query]: the URL, and the values left in [_query] and
    [_agg].  The port is [esconstants.ES_PORT]. *)
Definition _build_query (args : Namespace) : outcome (string * json * bool) :=
  let modifiers := if count args then "?search_type=count" else "" in
  '(_query, _agg) ←
    match query args with
    | Some q => j ← of_result (json_loads q); Returns (j, false)
    | None =>
        let action := default "stringquery" (action args) in
        '(dsl_query, _agg) ← stock_query action (terms args);
        dsl_final ←
          match range args with
          | Some arange =>
              a0 ← of_result (getitem arange 0);
              a1 ← of_result (getitem arange 1);
              a2 ← of_result (getitem arange 2);
              let dsl_filter :=
                [("filter",
                  JObj [("range",
                         JObj [(a0, JObj [("gte", JStr a1);
                                          ("lte", JStr a2)])])])] in
              dsl_query ← bound dsl_query;
              let dsl_query := dict_update dsl_query dsl_filter in
              Returns [("query", JObj [("filtered", JObj dsl_query)])]
          | None => bound dsl_query
          end;
        let dsl_final :=
          match fields args with
          | Some f =>
              dict_update dsl_final
                [("_source", JObj [("include", JList (map JStr f))])]
          | None => dsl_final
          end in
        let dsl_final :=
          match size args with
          | Some s => dict_update dsl_final [("size", s)]
          | None => dsl_final
          end in
        Returns (JObj dsl_final, _agg)
    end;
  Returns (("http://" ++ host args ++ ":" ++ "9200" ++ "/" ++ index args
            ++ "/" ++ "_search" ++ modifiers)%string, _query, _agg).

End Query.

(** A string without a colon. *)
Definition colon_free (s : string) : Prop := has_colon s = false.

(** The arguments with other terms. *)
Definition with_terms (args : Namespace) (ts : option (list string))
    : Namespace :=
  mkNamespace (host args) (index args) (action args) (size args) ts
              (range args) (fields args) (query args) (count args).

(** The three actions that have a stock query. *)
Definition stock (a : string) : Prop :=
  a = "stringquery" \/ a = "termquery" \/ a = "termsagg".

(** The arguments of the command line's [--action count]. *)
Definition count_args : Namespace :=
  mkNamespace "127.0.0.1" "logstash*" (Some "count") None (Some ["*"])
              None None None false.

(** A term query for a time of day. *)
Definition time_args : Namespace :=
  mkNamespace "127.0.0.1" "logstash*" (Some "termquery") None
              (Some ["time:09:15:02"]) None None None false.

(** ** The driver: from the vectors to the analysis *)

(** The test data of an analysis are the vectors of [day_vecs], every
    entry a single vector. *)
Definition holds_day_vecs (test : gmap string (gmap string ndarray))
    (day_vecs : gmap hkey (gmap string organized)) : Prop :=
  forall type_key subtype tv,
    lookup2 test type_key subtype = Some tv ->
    exists v, lookup_vector day_vecs (KStr type_key) subtype
              = Some (Vector v) /\ tv = IntArr v.

(** The training data of an analysis are the vectors of [grouped_vecs]. *)
Definition holds_grouped_vecs
    (train : gmap Z (gmap string (gmap string ndarray)))
    (grouped_vecs : gmap Z (gmap hkey (gmap string ndarray))) : Prop :=
  forall day type_key subtype bv,
    train_lookup train day type_key subtype = Ok bv ->
    lookup_day grouped_vecs day (KStr type_key) subtype = Some bv.

(** The test data and the training data of the well-formed day and the
    two Tuesdays. *)
Definition tuesday_test : gmap string (gmap string ndarray) :=
  {[ "ossec" := {[ "5501" := IntArr (repeat 0 9 ++ [1] ++ repeat 0 14)%Z ]} ]}.

Definition tuesday_train : gmap Z (gmap string (gmap string ndarray)) :=
  {[ 1%Z := {[ "ossec" :=
       {[ "5501" :=
            FloatArr (repeat (0 # 2) 9 ++ [2 # 2] ++ repeat (0 # 2) 14)%Q ]} ]} ]}.

Definition tuesday_day_vecs : gmap hkey (gmap string organized) :=
  match get_day_vectors iso_hour decimal day_well_formed with
  | Ok d => d
  | Raise _ => ∅
  end.

Definition tuesday_grouped_vecs : gmap Z (gmap hkey (gmap string ndarray)) :=
  match get_avg_vectors iso_hour decimal two_tuesdays 735690 735690 with
  | Ok g => g
  | Raise _ => ∅
  end.

(** ** The notions of the malformed record *)

(** The key of the subtype of a log type, as the munge functions have
    it. *)
Definition subtype_key (logtype : string) : string :=
  if String.eqb logtype esconstants.KEY_OSSEC_TYPE
  then esconstants.KEY_OSSEC_RULE
  else if String.eqb logtype esconstants.KEY_SYSLOG_TYPE
       then esconstants.KEY_SYSLOG_SEV
       else esconstants.KEY_SURICATA_SIG.

(** The records of a log type that [_count_day] counts, among the records
    of the day filed by their type: every record of ossec and of syslog;
    of suricata the alerts, when its first record is one; none of any other
    type. *)
Definition counted (recs : list (hkey * dict)) (logtype : string)
    : list dict :=
  let group := filed_under (KStr logtype) recs in
  if (String.eqb logtype esconstants.KEY_OSSEC_TYPE
      || String.eqb logtype esconstants.KEY_SYSLOG_TYPE)%bool then group
  else if String.eqb logtype esconstants.KEY_SURICATA_TYPE then
    match group with
    | first :: _ => if is_alert first then List.filter is_alert group else []
    | [] => []
    end
  else [].

(** A record whose fields have no value under a key. *)
Definition lacks (hit : dict) (key : string) : Prop :=
  exists d, unwrap hit = Ok d /\ dict_get d key = None.

(** A record without its timestamp or without its subtype key; the
    subtype key of a suricata record is in its alert object. *)
Definition malformed (logtype : string) (hit : dict) : Prop :=
  lacks hit esconstants.KEY_ES_TIMESTAMP \/
  if String.eqb logtype esconstants.KEY_SURICATA_TYPE then
    lacks hit esconstants.KEY_SURICATA_ALERT \/
    exists d alert,
      unwrap hit = Ok d /\
      dict_get d esconstants.KEY_SURICATA_ALERT = Some (JObj alert) /\
      dict_get alert esconstants.KEY_SURICATA_SIG = None
  else lacks hit (subtype_key logtype).

(** A suricata alert without a signature id, after a well-formed one. *)
Definition alert_without_signature : dict :=
  search_result
    [es_hit "1" [("type", JStr "suricata");
                 ("@timestamp", JStr "2015-03-24T09:15:03.000Z");
                 ("event_type", JStr "alert");
                 ("alert", JObj [("signature_id", JNum 2010935)])];
     es_hit "2" [("type", JStr "suricata");
                 ("@timestamp", JStr "2015-03-24T09:16:00.000Z");
                 ("event_type", JStr "alert");
                 ("alert", JObj [("severity", JNum 1)])]].

(** An ossec record without its type, after a well-formed one. *)
Definition ossec_no_type : dict :=
  [("@timestamp", JStr "2015-03-24T10:20:00.000Z");
   ("rule_number", JStr "5501")].

Definition day_without_type : dict :=
  search_result [es_hit "1" ossec_good; es_hit "2" ossec_no_type].

(** Records that the day does not count, both without timestamp: a record
    of a type without munge function, and a suricata flow record after an
    alert. *)
Definition day_with_unlisted_type : dict :=
  search_result [es_hit "1" ossec_good;
                 es_hit "2" [("type", JStr "apache")]].

Definition day_with_flow_record : dict :=
  search_result
    [es_hit "1" [("type", JStr "suricata");
                 ("@timestamp", JStr "2015-03-24T09:15:03.000Z");
                 ("event_type", JStr "alert");
                 ("alert", JObj [("signature_id", JNum 2010935)])];
     es_hit "2" [("type", JStr "suricata");
                 ("event_type", JStr "flow")]].

(** * Properties *)

(** ** The transform *)

Lemma length_fft (x : list R) : length (fft x) = length x.
Proof. unfold fft. now rewrite length_map, length_seq. Qed.

Lemma length_values (v : ndarray) : length (values v) = len v.
Proof. unfold values. rewrite length_map. destruct v; simpl; now rewrite ?length_map. Qed.

Lemma fftpack_fft_ok (x : list R) :
  x <> [] -> fftpack_fft x = Ok (fft x).
Proof. destruct x; [congruence|reflexivity]. Qed.

Lemma fftpack_fft_values (v : ndarray) :
  len v = 24%nat -> fftpack_fft (values v) = Ok (fft (values v)).
Proof.
  intros H. apply fftpack_fft_ok. intros E.
  pose proof (length_values v) as L. rewrite E, H in L. discriminate L.
Qed.

Lemma cadd_comm (z w : complex) : cadd z w = cadd w z.
Proof. unfold cadd. f_equal; ring. Qed.

Lemma cadd_assoc (z w u : complex) : cadd z (cadd w u) = cadd (cadd z w) u.
Proof. unfold cadd. simpl. f_equal; ring. Qed.

Lemma cadd_0_l (z : complex) : cadd (0%R, 0%R) z = z.
Proof. destruct z. unfold cadd. simpl. f_equal; ring. Qed.

Lemma fold_left_cadd (l : list complex) (a : complex) :
  fold_left cadd l a = cadd a (csum l).
Proof.
  revert a. induction l as [|z l IH]; intros a; simpl.
  - destruct a. unfold cadd. simpl. f_equal; ring.
  - rewrite IH. now rewrite cadd_assoc.
Qed.

Lemma dot_row_csum (row : list complex) (x : list R) :
  dot_row row x =
  csum (map (fun mx => cmul (fst mx) (of_real (snd mx))) (combine row x)).
Proof.
  unfold dot_row.
  rewrite <- (cadd_0_l (csum _)), <- fold_left_cadd.
  generalize (0%R, 0%R). generalize (combine row x).
  intros l. induction l as [|mx l IH]; intros a; simpl; [reflexivity|apply IH].
Qed.

Lemma csum_combine_seq (e : nat -> complex) (x : list R) (s : nat) :
  csum (map (fun mx => cmul (fst mx) (of_real (snd mx)))
            (combine (map e (seq s (length x))) x)) =
  csum (map (fun k => cmul (e k) (of_real (nth (k - s) x 0%R)))
            (seq s (length x))).
Proof.
  revert s. induction x as [|a x IH]; intros s; simpl; [reflexivity|].
  rewrite Nat.sub_diag. f_equal. rewrite IH. f_equal.
  apply map_ext_in. intros k Hk. apply in_seq in Hk.
  replace (k - s)%nat with (S (k - S s)) by lia. reflexivity.
Qed.

Lemma slow_entry (j k : nat) (N a : R) :
  cmul (cexp (cdivr (cmulr (cmulr (cmulr (0, -2)%R PI) (INR j)) (INR k)) N))
       (of_real a) =
  cmul (of_real a)
       (cos (- (2 * PI * INR j * INR k / N)),
        sin (- (2 * PI * INR j * INR k / N)))%R.
Proof.
  unfold cexp, cdivr, cmulr, cmul, of_real. simpl.
  replace (0 * PI * INR j * INR k / N)%R with 0%R by (unfold Rdiv; ring).
  replace (-2 * PI * INR j * INR k / N)%R
    with (- (2 * PI * INR j * INR k / N))%R by (unfold Rdiv; ring).
  rewrite exp_0. f_equal; ring.
Qed.

(** C10, as amended.  On every real input array that is not empty, the
    naive transform [_fft_slow] computes the complex vector that the call
    of the scorer's [fftpack.fft] returns, the discrete Fourier transform of
    the array: the two agree on every such input, in exact arithmetic. *)
Theorem fft_slow_is_dft (x : list R) :
  x <> [] -> fftpack_fft x = Ok (_fft_slow x).
Proof.
  intros Hx. rewrite (fftpack_fft_ok x Hx). f_equal. symmetry.
  unfold _fft_slow, fft, dot, arange. rewrite !map_map.
  apply map_ext. intros j. rewrite dot_row_csum.
  rewrite (map_map INR (fun n' => cexp _)).
  rewrite (csum_combine_seq
             (fun k => cexp (cdivr (cmulr (cmulr (cmulr (0, -2)%R PI) (INR j))
                                          (INR k)) (INR (length x))))).
  f_equal. apply map_ext. intros k. rewrite Nat.sub_0_r. apply slow_entry.
Qed.

Lemma fft_slow_is_dft_witness :
  [1; 0]%R <> [] /\ fftpack_fft [1; 0]%R = Ok (_fft_slow [1; 0]%R).
Proof.
  assert (H : [1; 0]%R <> []) by (intros E; discriminate E).
  split; [exact H|exact (fft_slow_is_dft [1; 0]%R H)].
Defined.

(** C10 as stated fails on the array without data points: the call of
    [fftpack.fft] raises [ValueError], and [_fft_slow] returns the empty
    array. *)
Lemma fft_slow_on_empty_array :
  fftpack_fft [] = Raise ValueError /\ _fft_slow [] = [].
Proof. split; reflexivity. Qed.

(** ** The distance metric *)

Lemma amplitude_diff_distance (T B : list complex) :
  (5 <= length T)%nat -> (5 <= length B)%nat ->
  _fft_amplitude_diff T B = Ok (distance 5 2 T B).
Proof.
  intros HT HB.
  destruct T as [|t0 [|t1 [|t2 [|t3 [|t4 T]]]]]; simpl in HT; try lia.
  destruct B as [|b0 [|b1 [|b2 [|b3 [|b4 B]]]]]; simpl in HB; try lia.
  unfold _fft_amplitude_diff, distance, weighted_sum. simpl.
  unfold sum, esconstants.FFT_COMPONENT_WEIGHT. simpl.
  do 3 f_equal. field.
Qed.

Lemma fin_div_nonzero (x y : R) : y <> 0%R -> fin_div x y = Fin (x / y).
Proof.
  intros Hy. unfold fin_div, Reqb. destruct (Req_dec_T y 0); [contradiction|reflexivity].
Qed.

(** C1.  For 24-element test and baseline vectors the metric the scorer
    computes is the sum over the components [k = 0 .. 4] of the absolute
    difference of the magnitudes weighted by [1 / 2^k], divided by 5 and by
    the magnitude of the baseline's component 4; the quotient is a real
    number when that magnitude is not zero. *)
Theorem amplitude_diff_formula (test train : list R) :
  length test = 24%nat -> length train = 24%nat ->
  _fft_amplitude_diff (fft test) (fft train) =
    Ok (distance esconstants.FFT_ANALYSIS_DEPTH
                 esconstants.FFT_COMPONENT_WEIGHT (fft test) (fft train)) /\
  (cabs (nth 4 (fft train) c0) <> 0%R ->
   _fft_amplitude_diff (fft test) (fft train) =
     Ok (Fin (weighted_sum 5 2 (fft test) (fft train) / 5
              / cabs (nth 4 (fft train) c0)))).
Proof.
  intros Ht Hb.
  assert (H : _fft_amplitude_diff (fft test) (fft train) =
              Ok (distance 5 2 (fft test) (fft train))).
  { apply amplitude_diff_distance; rewrite length_fft; lia. }
  split; [exact H|].
  intros Hnz. rewrite H. unfold distance. simpl (5 - 1)%nat.
  rewrite fin_div_nonzero by exact Hnz.
  do 3 f_equal. simpl. lra.
Qed.

Lemma amplitude_diff_formula_witness :
  _fft_amplitude_diff (fft (repeat 0%R 24)) (fft (repeat 1%R 24)) =
    Ok (distance 5 2 (fft (repeat 0%R 24)) (fft (repeat 1%R 24))).
Proof.
  apply (amplitude_diff_formula (repeat 0%R 24) (repeat 1%R 24));
    reflexivity.
Defined.

(** ** The scoring of a day *)

Lemma getitem_nth {A : Type} (l : list A) (i : nat) (d : A) :
  (i < length l)%nat -> getitem l i = Ok (nth i l d).
Proof.
  intros Hi. unfold getitem.
  destruct (nth_error l i) as [a|] eqn:E.
  - now rewrite (nth_error_nth _ _ d E).
  - apply nth_error_None in E. lia.
Qed.

Lemma setitem_lt {A : Type} (l : list A) (i : nat) (a : A) :
  (i < length l)%nat -> setitem l i a = Ok (<[i := a]> l).
Proof. intros Hi. unfold setitem. now rewrite decide_True. Qed.

Lemma length_astype_float (v : ndarray) : length (astype_float v) = len v.
Proof. destruct v; simpl; now rewrite ?length_map. Qed.

Lemma attribution_step_ok (tv bv : ndarray) (d : npfloat) (acc : list nat) (i : nat) :
  len tv = 24%nat -> len bv = 24%nat -> (i < 24)%nat ->
  attribution_step tv bv (fft (values bv)) d (Ok acc) i =
  Ok (if np_gt (np_div (np_sub d (D (substituted tv bv i) (values bv))) d)
               (Fin esconstants.FFT_POINT_DIFF_THRESHOLD)
      then acc ++ [i] else acc).
Proof.
  intros Ht Hb Hi. unfold attribution_step. simpl.
  rewrite (getitem_nth _ _ 0%Q) by (rewrite length_astype_float; lia). simpl.
  rewrite setitem_lt by (rewrite length_astype_float; lia). simpl.
  rewrite fftpack_fft_ok.
  2: { intros E. apply (f_equal (@length R)) in E.
       rewrite length_map, length_insert, length_astype_float, Ht in E.
       discriminate E. }
  simpl. rewrite amplitude_diff_distance.
  - simpl. unfold D, substituted.
    match goal with |- (if ?c then _ else _) = _ => destruct c end; reflexivity.
  - rewrite length_fft, length_map, length_insert, length_astype_float. lia.
  - rewrite length_fft, length_values. lia.
Qed.

Lemma attribution_loop (tv bv : ndarray) (d : npfloat) (l : list nat) (acc : list nat) :
  len tv = 24%nat -> len bv = 24%nat -> Forall (fun i => i < 24)%nat l ->
  fold_left (attribution_step tv bv (fft (values bv)) d) l (Ok acc) =
  Ok (acc ++ List.filter (fun i =>
        np_gt (np_div (np_sub d (D (substituted tv bv i) (values bv))) d)
              (Fin esconstants.FFT_POINT_DIFF_THRESHOLD)) l).
Proof.
  intros Ht Hb Hl. revert acc.
  induction Hl as [|i l Hi Hl IH]; intros acc; cbn [fold_left List.filter].
  - now rewrite app_nil_r.
  - rewrite attribution_step_ok by assumption.
    rewrite IH.
    destruct (np_gt _ _); [now rewrite <- app_assoc|reflexivity].
Qed.

Lemma train_lookup_raise train day type_key subtype e :
  train_lookup train day type_key subtype = Raise e -> e = KeyError.
Proof.
  unfold train_lookup. intros H.
  repeat match type of H with
         | match ?x with _ => _ end = _ => destruct x
         end; congruence.
Qed.

Lemma try_block_baseline day type_key subtype tv bv self :
  train_lookup (_train_data self) day type_key subtype = Ok bv ->
  len tv = 24%nat -> len bv = 24%nat ->
  try_block day type_key subtype tv self =
  Ok (set_amplitude_diff (D (values tv) (values bv)) self,
      if np_lt (D (values tv) (values bv))
               (Fin esconstants.FFT_TEST_DIFF_THRESHOLD)
      then None
      else Some (List.filter (implicated tv bv) (seq 0 24))).
Proof.
  intros Hb Ht Hl. unfold try_block.
  rewrite (fftpack_fft_values tv Ht). cbn [mbind result_bind bind].
  rewrite Hb. cbn [mbind result_bind bind].
  rewrite (fftpack_fft_values bv Hl). cbn [mbind result_bind bind].
  rewrite amplitude_diff_distance by (rewrite length_fft, length_values; lia).
  cbn [mbind result_bind bind]. fold (D (values tv) (values bv)).
  cbn [_amplitude_diff set_amplitude_diff].
  destruct (np_lt _ _); [reflexivity|].
  rewrite attribution_loop; try assumption.
  - reflexivity.
  - apply List.Forall_forall. intros i Hi. apply in_seq in Hi.
    unfold esconstants.NUM_BUCKETS in Hi. lia.
Qed.

Lemma try_block_no_baseline day type_key subtype tv self e :
  len tv = 24%nat ->
  train_lookup (_train_data self) day type_key subtype = Raise e ->
  try_block day type_key subtype tv self = Raise KeyError.
Proof.
  intros Ht Hb. unfold try_block.
  rewrite (fftpack_fft_values tv Ht). cbn [mbind result_bind bind].
  rewrite Hb. apply train_lookup_raise in Hb. now subst.
Qed.

Lemma hit_hours_loop (tv : ndarray) (l : list nat) (acc : list nat) :
  fold_left (fun acc i => if ge_one tv i then acc ++ [i] else acc) l acc =
  acc ++ List.filter (ge_one tv) l.
Proof.
  revert acc. induction l as [|i l IH]; intros acc; cbn [fold_left List.filter].
  - now rewrite app_nil_r.
  - rewrite IH. destruct (ge_one tv i); [now rewrite <- app_assoc|reflexivity].
Qed.

(** The outlier record after [_store_outlier_alerts]. *)
Lemma store_lookup2 ps type_key subtype self tk st :
  lookup2 (outliers (_store_outlier_alerts ps type_key subtype self)) tk st =
  if decide (tk = type_key /\ st = subtype) then Some ps
  else lookup2 (outliers self) tk st.
Proof.
  unfold _store_outlier_alerts, lookup2. cbn [outliers set_outliers].
  destruct (decide (tk = type_key)) as [->|Hne].
  - rewrite lookup_insert_eq. cbn.
    destruct (decide (st = subtype)) as [->|Hne'].
    + rewrite lookup_insert_eq. now rewrite decide_True.
    + rewrite lookup_insert_ne by congruence.
      rewrite decide_False by tauto.
      destruct (outliers self !! type_key) eqn:E; cbn.
      * now rewrite E.
      * now rewrite lookup_insert_eq.
  - rewrite lookup_insert_ne by congruence.
    rewrite decide_False by tauto.
    destruct (outliers self !! type_key) eqn:E; [reflexivity|].
    now rewrite lookup_insert_ne by congruence.
Qed.

Lemma subtype_body_verdict day type_key subtype tv self :
  wf_pair (_train_data self) day type_key subtype tv ->
  exists self',
    subtype_body day type_key subtype tv self = Ok self' /\
    test_data self' = test_data self /\
    _train_data self' = _train_data self /\
    (outliers_flag self' = true <->
       outliers_flag self = true \/
       is_Some (verdict (_train_data self) day type_key subtype tv)) /\
    forall tk st,
      lookup2 (outliers self') tk st =
      match verdict (_train_data self) day type_key subtype tv with
      | Some ps =>
          if decide (tk = type_key /\ st = subtype) then Some ps
          else lookup2 (outliers self) tk st
      | None => lookup2 (outliers self) tk st
      end.
Proof.
  intros [Ht Hb]. unfold subtype_body, verdict.
  destruct (train_lookup (_train_data self) day type_key subtype)
    as [bv|e] eqn:E.
  - rewrite (try_block_baseline _ _ _ _ bv) by auto.
    destruct (np_lt _ _).
    + eexists; repeat split; try reflexivity; cbn; intros; try tauto.
      destruct H as [H|[x H]]; [assumption|discriminate].
    + destruct (List.filter _ _) as [|p ps] eqn:F.
      * eexists; repeat split; try reflexivity; cbn; intros; try tauto.
        destruct H as [H|[x H]]; [assumption|discriminate].
      * eexists; repeat split; try reflexivity; cbn; intros; eauto.
        apply store_lookup2.
  - rewrite (try_block_no_baseline _ _ _ _ _ e) by assumption.
    eexists; repeat split; try reflexivity; cbn; intros; eauto.
    unfold except_block. rewrite hit_hours_loop. apply store_lookup2.
Qed.

Lemma subtypes_loop day type_key s0 (m : gmap string ndarray) :
  (forall st tv, m !! st = Some tv ->
                 wf_pair (_train_data s0) day type_key st tv) ->
  exists s',
    map_fold (fun subtype tv acc =>
                self ← acc; subtype_body day type_key subtype tv self)
             (Ok s0) m = Ok s' /\
    test_data s' = test_data s0 /\
    _train_data s' = _train_data s0 /\
    (outliers_flag s' = true <->
       outliers_flag s0 = true \/
       exists st tv, m !! st = Some tv /\
         is_Some (verdict (_train_data s0) day type_key st tv)) /\
    forall tk st,
      lookup2 (outliers s') tk st =
      match (if decide (tk = type_key) then m !! st else None)
              ≫= verdict (_train_data s0) day type_key st with
      | Some ps => Some ps
      | None => lookup2 (outliers s0) tk st
      end.
Proof.
  revert m.
  apply (map_fold_weak_ind (fun r m =>
    (forall st tv, m !! st = Some tv ->
                   wf_pair (_train_data s0) day type_key st tv) ->
    exists s', r = Ok s' /\ test_data s' = test_data s0 /\
      _train_data s' = _train_data s0 /\
      (outliers_flag s' = true <->
         outliers_flag s0 = true \/
         exists st tv, m !! st = Some tv /\
           is_Some (verdict (_train_data s0) day type_key st tv)) /\
      forall tk st,
        lookup2 (outliers s') tk st =
        match (if decide (tk = type_key) then m !! st else None)
                ≫= verdict (_train_data s0) day type_key st with
        | Some ps => Some ps
        | None => lookup2 (outliers s0) tk st
        end)).
  - intros _. exists s0. repeat split; try tauto.
    + intros [H|(st & tv & H & _)]; [assumption|].
      rewrite lookup_empty in H. discriminate.
    + intros tk st. rewrite lookup_empty. now destruct (decide _).
  - intros i x m r Hi IH Hwf.
    destruct IH as (s & -> & Htest & Htrain & Hflag & Hout).
    { intros st tv Hst. apply Hwf. rewrite lookup_insert_ne; [assumption|].
      intros ->. congruence. }
    cbn [mbind result_bind bind].
    destruct (subtype_body_verdict day type_key i x s)
      as (s' & Hs' & Htest' & Htrain' & Hflag' & Hout').
    { rewrite Htrain. apply Hwf. apply lookup_insert_eq. }
    exists s'. rewrite Htrain in *.
    split; [assumption|]. split; [congruence|]. split; [congruence|]. split.
    + rewrite Hflag', Hflag. split.
      * intros [[H|(st & tv & Hst & Hv)]|H]; [tauto| |].
        -- right. exists st, tv. split; [|assumption].
           rewrite lookup_insert_ne; [assumption|]. intros ->. congruence.
        -- right. exists i, x. split; [apply lookup_insert_eq|assumption].
      * intros [H|(st & tv & Hst & Hv)]; [tauto|].
        destruct (decide (i = st)) as [->|Hne].
        -- rewrite lookup_insert_eq in Hst. injection Hst as ->. tauto.
        -- rewrite lookup_insert_ne in Hst by assumption. left. right. eauto.
    + intros tk st. rewrite Hout', Hout.
      destruct (decide (tk = type_key)) as [->|Hne].
      * destruct (decide (st = i)) as [->|Hne'].
        -- rewrite lookup_insert_eq, Hi. cbn.
           destruct (verdict _ _ _ _ _); [|reflexivity].
           now rewrite decide_True.
        -- rewrite lookup_insert_ne by congruence.
           destruct (verdict _ _ _ i x); [|reflexivity].
           now rewrite decide_False by tauto.
      * cbn. destruct (verdict _ _ _ i x); [|reflexivity].
        now rewrite decide_False by tauto.
Qed.

Lemma lookup2_insert {A : Type} (M : gmap string (gmap string A)) tk m tk' st :
  lookup2 (<[tk := m]> M) tk' st =
  if decide (tk' = tk) then m !! st else lookup2 M tk' st.
Proof.
  unfold lookup2. destruct (decide (tk' = tk)) as [->|Hne].
  - now rewrite lookup_insert_eq.
  - now rewrite lookup_insert_ne by congruence.
Qed.

Lemma types_loop day s0 (M : gmap string (gmap string ndarray)) :
  (forall tk st tv, lookup2 M tk st = Some tv ->
                    wf_pair (_train_data s0) day tk st tv) ->
  exists s',
    map_fold
      (fun type_key subtypes acc =>
         map_fold
           (fun subtype tv acc =>
              self ← acc; subtype_body day type_key subtype tv self)
           acc subtypes)
      (Ok s0) M = Ok s' /\
    test_data s' = test_data s0 /\
    _train_data s' = _train_data s0 /\
    (outliers_flag s' = true <->
       outliers_flag s0 = true \/
       exists tk st tv, lookup2 M tk st = Some tv /\
         is_Some (verdict (_train_data s0) day tk st tv)) /\
    forall tk st,
      lookup2 (outliers s') tk st =
      match lookup2 M tk st ≫= verdict (_train_data s0) day tk st with
      | Some ps => Some ps
      | None => lookup2 (outliers s0) tk st
      end.
Proof.
  revert M.
  apply (map_fold_weak_ind (fun r M =>
    (forall tk st tv, lookup2 M tk st = Some tv ->
                      wf_pair (_train_data s0) day tk st tv) ->
    exists s', r = Ok s' /\ test_data s' = test_data s0 /\
      _train_data s' = _train_data s0 /\
      (outliers_flag s' = true <->
         outliers_flag s0 = true \/
         exists tk st tv, lookup2 M tk st = Some tv /\
           is_Some (verdict (_train_data s0) day tk st tv)) /\
      forall tk st,
        lookup2 (outliers s') tk st =
        match lookup2 M tk st ≫= verdict (_train_data s0) day tk st with
        | Some ps => Some ps
        | None => lookup2 (outliers s0) tk st
        end)).
  - intros _. exists s0. repeat split; try tauto.
    intros [H|(tk & st & tv & H & _)]; [assumption|].
    unfold lookup2 in H. rewrite lookup_empty in H. discriminate.
  - intros i m M r Hi IH Hwf.
    assert (Hnone : forall st, lookup2 M i st = None).
    { intros st. unfold lookup2. now rewrite Hi. }
    destruct IH as (s & -> & Htest & Htrain & Hflag & Hout).
    { intros tk st tv Hst. apply Hwf. rewrite lookup2_insert.
      destruct (decide (tk = i)) as [->|]; [|assumption].
      rewrite Hnone in Hst. discriminate. }
    destruct (subtypes_loop day i s m)
      as (s' & Hs' & Htest' & Htrain' & Hflag' & Hout').
    { intros st tv Hst. rewrite Htrain. apply Hwf.
      rewrite lookup2_insert. now rewrite decide_True. }
    exists s'. rewrite Htrain in *.
    split; [assumption|]. split; [congruence|]. split; [congruence|]. split.
    + rewrite Hflag', Hflag. split.
      * intros [[H|(tk & st & tv & Hst & Hv)]|(st & tv & Hst & Hv)]; [tauto| |].
        -- right. exists tk, st, tv. split; [|assumption].
           rewrite lookup2_insert.
           destruct (decide (tk = i)) as [->|]; [|assumption].
           rewrite Hnone in Hst. discriminate.
        -- right. exists i, st, tv. split; [|assumption].
           rewrite lookup2_insert. now rewrite decide_True.
      * intros [H|(tk & st & tv & Hst & Hv)]; [tauto|].
        rewrite lookup2_insert in Hst.
        destruct (decide (tk = i)) as [->|Hne].
        -- right. eauto.
        -- left. right. eauto.
    + intros tk st. rewrite Hout', Hout, lookup2_insert.
      destruct (decide (tk = i)) as [->|Hne].
      * rewrite Hnone. cbn. reflexivity.
      * cbn. reflexivity.
Qed.

(** The report of a run, pair by pair. *)
Lemma outlier_detection_verdicts now self :
  hourly self (weekday (now - esconstants.TEST_DAY)) ->
  exists self',
    outlier_detection now self = Ok self' /\
    test_data self' = test_data self /\
    _train_data self' = _train_data self /\
    (outliers_flag self' = true <->
       exists tk st tv, lookup2 (test_data self) tk st = Some tv /\
         is_Some (verdict (_train_data self)
                          (weekday (now - esconstants.TEST_DAY)) tk st tv)) /\
    forall tk st,
      lookup2 (outliers self') tk st =
      lookup2 (test_data self) tk st
        ≫= verdict (_train_data self)
                    (weekday (now - esconstants.TEST_DAY)) tk st.
Proof.
  intros Hwf. unfold outlier_detection.
  set (day := weekday (now - esconstants.TEST_DAY)) in *.
  set (s0 := mkESAnalyze _ _ _ _ _ _ _ _).
  destruct (types_loop day s0 (test_data self))
    as (s' & Hs' & Htest' & Htrain' & Hflag' & Hout').
  { intros tk st tv Hst. exact (Hwf tk st tv Hst). }
  exists s'. cbn [test_data] in *. split; [exact Hs'|].
  split; [exact Htest'|]. split; [exact Htrain'|]. split.
  - rewrite Hflag'. cbn. split; [intros [H|H]; [discriminate|exact H]|tauto].
  - intros tk st. rewrite Hout'. cbn.
    destruct (_ ≫= _); [reflexivity|].
    unfold lookup2. now rewrite lookup_empty.
Qed.

(** ** The pair without a baseline *)

Lemma hit_hours_counts (l : list Z) :
  Forall (fun z => 0 <= z)%Z l -> hit_hours (IntArr l) = nonzero_hours l.
Proof.
  intros Hl. unfold hit_hours, nonzero_hours. cbn [len].
  apply filter_ext_in. intros i Hi. apply in_seq in Hi. cbn [ge_one].
  assert (H : (0 <= nth i l 0)%Z).
  { rewrite List.Forall_forall in Hl. apply Hl. apply nth_In. lia. }
  destruct (Z.leb_spec 1 (nth i l 0)%Z), (Z.eqb_spec (nth i l 0)%Z 0);
    cbn; try reflexivity; lia.
Qed.

Lemma verdict_no_baseline train day tk st tv e :
  train_lookup train day tk st = Raise e ->
  verdict train day tk st tv = Some (hit_hours tv).
Proof. intros H. unfold verdict. now rewrite H. Qed.

(** C2.  A pair of the test day that the baseline of the test weekday lacks
    is scored by the [except] block alone, which makes no comparison of
    spectra and leaves the metric as it was; after the run the pair's
    outlier list is exactly the hours whose count is not zero, and the flag
    of the day is set.  For the vector [[0]*9 + [2] + [0]*14] the list is
    [[9]]: see the instance below. *)
Theorem no_baseline_alert now self tk st l :
  hourly self (weekday (now - esconstants.TEST_DAY)) ->
  lookup2 (test_data self) tk st = Some (IntArr l) ->
  Forall (fun z => 0 <= z)%Z l ->
  train_lookup (_train_data self) (weekday (now - esconstants.TEST_DAY)) tk st
    = Raise KeyError ->
  (forall s, _train_data s = _train_data self ->
     subtype_body (weekday (now - esconstants.TEST_DAY)) tk st (IntArr l) s
       = Ok (except_block tk st (IntArr l) s) /\
     _amplitude_diff (except_block tk st (IntArr l) s) = _amplitude_diff s) /\
  exists self',
    outlier_detection now self = Ok self' /\
    lookup2 (outliers self') tk st = Some (nonzero_hours l) /\
    outliers_flag self' = true.
Proof.
  intros Hwf Htest Hl Habsent. split.
  - intros s Hs. split; [|reflexivity].
    unfold subtype_body.
    rewrite (try_block_no_baseline _ _ _ _ _ KeyError); [reflexivity| |].
    + exact (proj1 (Hwf tk st (IntArr l) Htest)).
    + now rewrite Hs.
  - destruct (outlier_detection_verdicts now self Hwf)
      as (self' & Hrun & _ & _ & Hflag & Hout).
    exists self'. split; [exact Hrun|]. split.
    + rewrite Hout, Htest. cbn.
      rewrite (verdict_no_baseline _ _ _ _ _ _ Habsent).
      now rewrite hit_hours_counts.
    + apply Hflag. exists tk, st, (IntArr l). split; [exact Htest|].
      rewrite (verdict_no_baseline _ _ _ _ _ _ Habsent). eauto.
Qed.

Lemma no_baseline_alert_witness :
  exists self',
    outlier_detection 735683
      (__init__ {[ "suricata" := {[ "2010935" := IntArr spike9 ]} ]} ∅ false)
      = Ok self' /\
    lookup2 (outliers self') "suricata" "2010935" = Some [9%nat] /\
    outliers_flag self' = true.
Proof.
  refine (proj2 (no_baseline_alert 735683
            (__init__ {[ "suricata" := {[ "2010935" := IntArr spike9 ]} ]}
                      ∅ false)
            "suricata" "2010935" spike9 _ _ _ _)).
  - intros tk st tv H. cbn [test_data __init__] in H.
    unfold lookup2 in H.
    destruct (decide (tk = "suricata")) as [->|Hne].
    + rewrite lookup_singleton_eq in H. cbn in H.
      destruct (decide (st = "2010935")) as [->|Hne'].
      * rewrite lookup_singleton_eq in H. injection H as <-.
        split; [reflexivity|]. intros bv Hbv. discriminate.
      * rewrite lookup_singleton_ne in H by congruence. discriminate.
    + rewrite lookup_singleton_ne in H by congruence. discriminate.
  - reflexivity.
  - unfold spike9. repeat constructor; lia.
  - reflexivity.
Defined.

(** ** Components of the transform *)

Lemma nth_fft (x : list R) (j : nat) :
  (j < length x)%nat ->
  nth j (fft x) c0 =
  csum (map (fun k =>
               cmul (of_real (nth k x 0%R))
                    (cos (- (2 * PI * INR j * INR k / INR (length x))),
                     sin (- (2 * PI * INR j * INR k / INR (length x))))%R)
            (seq 0 (length x))).
Proof.
  intros Hj. unfold fft.
  rewrite (nth_indep _ c0 ((fun j => csum (map (fun k =>
               cmul (of_real (nth k x 0%R))
                    (cos (- (2 * PI * INR j * INR k / INR (length x))),
                     sin (- (2 * PI * INR j * INR k / INR (length x))))%R)
            (seq 0 (length x)))) 0%nat)).
  - rewrite (map_nth (fun j => csum _)). now rewrite seq_nth.
  - now rewrite length_map, length_seq.
Qed.

Lemma csum_parts (l : list complex) :
  csum l = (fold_right Rplus 0%R (map fst l), fold_right Rplus 0%R (map snd l)).
Proof.
  induction l as [|z l IH]; [reflexivity|].
  cbn [csum fold_right map] in *. fold (csum l). rewrite IH. reflexivity.
Qed.

(** The angle of component 4 at hour [k]. *)
Lemma angle4_shift (k : nat) :
  (- (2 * PI * INR 4 * INR (k + 3) / INR 24) =
   - (2 * PI * INR 4 * INR k / INR 24) - PI)%R.
Proof. rewrite plus_INR. simpl (INR 3). simpl (INR 4). simpl (INR 24). field. Qed.

Lemma cos_angle4_shift (k : nat) :
  cos (- (2 * PI * INR 4 * INR (k + 3) / INR 24)) =
  (- cos (- (2 * PI * INR 4 * INR k / INR 24)))%R.
Proof. rewrite angle4_shift, cos_minus, cos_PI, sin_PI. ring. Qed.

Lemma sin_angle4_shift (k : nat) :
  sin (- (2 * PI * INR 4 * INR (k + 3) / INR 24)) =
  (- sin (- (2 * PI * INR 4 * INR k / INR 24)))%R.
Proof. rewrite angle4_shift, sin_minus, cos_PI, sin_PI. ring. Qed.

Ltac shift_angle4 k :=
  let k3 := eval compute in (k + 3)%nat in
  replace (cos (- (2 * PI * INR 4 * INR k3 / INR 24)))
    with (- cos (- (2 * PI * INR 4 * INR k / INR 24)))%R
    by (symmetry; apply (cos_angle4_shift k));
  replace (sin (- (2 * PI * INR 4 * INR k3 / INR 24)))
    with (- sin (- (2 * PI * INR 4 * INR k / INR 24)))%R
    by (symmetry; apply (sin_angle4_shift k)).

(** A constant vector has no component 4. *)
Lemma fft_constant_4 (c : R) : nth 4 (fft (repeat c 24)) c0 = c0.
Proof.
  rewrite nth_fft by (rewrite repeat_length; lia).
  rewrite repeat_length, csum_parts.
  cbn [seq map fold_right nth repeat fst snd cmul of_real].
  shift_angle4 0%nat; shift_angle4 1%nat; shift_angle4 2%nat;
  shift_angle4 6%nat; shift_angle4 7%nat; shift_angle4 8%nat;
  shift_angle4 12%nat; shift_angle4 13%nat; shift_angle4 14%nat;
  shift_angle4 18%nat; shift_angle4 19%nat; shift_angle4 20%nat.
  unfold c0. f_equal; ring.
Qed.

Lemma map_nth_seq_id (x : list R) :
  map (fun k => nth k x 0%R) (seq 0 (length x)) = x.
Proof.
  induction x as [|a x IH]; [reflexivity|].
  cbn [length seq map nth]. f_equal.
  rewrite <- seq_shift, map_map. exact IH.
Qed.

(** Component 0 is the sum of the values. *)
Lemma fft_dc (x : list R) :
  (0 < length x)%nat -> nth 0 (fft x) c0 = (total x, 0%R).
Proof.
  intros Hx. rewrite nth_fft by exact Hx. rewrite csum_parts.
  rewrite !map_map. cbn [fst snd cmul of_real].
  assert (E : forall k, (- (2 * PI * INR 0 * INR k / INR (length x)) = 0)%R).
  { intros k. simpl (INR 0). unfold Rdiv. ring. }
  f_equal.
  - transitivity (fold_right Rplus 0%R
                    (map (fun k => nth k x 0%R) (seq 0 (length x)))).
    + f_equal. apply map_ext. intros k. rewrite E, cos_0, sin_0. ring.
    + now rewrite map_nth_seq_id.
  - assert (Z : forall l : list nat,
               fold_right Rplus 0%R
                 (map (fun k =>
                    nth k x 0 * sin (- (2 * PI * INR 0 * INR k / INR (length x)))
                    + 0 * cos (- (2 * PI * INR 0 * INR k / INR (length x))))%R l)
               = 0%R).
    { induction l as [|k l IH]; [reflexivity|].
      cbn [map fold_right]. rewrite IH, E, sin_0. ring. }
    apply Z.
Qed.

Lemma cabs_real (t : R) : cabs (t, 0%R) = Rabs t.
Proof.
  unfold cabs. cbn [fst snd].
  replace (t * t + 0 * 0)%R with (Rsqr t) by (unfold Rsqr; ring).
  apply sqrt_Rsqr_abs.
Qed.

Lemma cabs_c0 : cabs c0 = 0%R.
Proof. unfold c0. rewrite cabs_real. apply Rabs_R0. Qed.

Lemma cabs_nonneg (z : complex) : (0 <= cabs z)%R.
Proof. apply sqrt_pos. Qed.

(** ** Identical vectors and the degenerate baseline *)

Lemma weighted_sum_same (K : nat) (w : R) (T : list complex) :
  weighted_sum K w T T = 0%R.
Proof.
  unfold weighted_sum. induction (seq 0 K) as [|k l IH]; [reflexivity|].
  cbn [map fold_right]. rewrite IH.
  unfold Rminus. rewrite Rplus_opp_r, Rabs_R0. unfold Rdiv. ring.
Qed.

Lemma weighted_sum_nonneg (K : nat) (T B : list complex) :
  (0 <= weighted_sum K 2 T B)%R.
Proof.
  unfold weighted_sum. induction (seq 0 K) as [|k l IH]; [cbn; lra|].
  cbn [map fold_right].
  assert (0 < 2 ^ k)%R by (apply pow_lt; lra).
  assert (0 <= Rabs (cabs (nth k T c0) - cabs (nth k B c0)) / 2 ^ k)%R.
  { apply Rmult_le_pos; [apply Rabs_pos|]. left. now apply Rinv_0_lt_compat. }
  lra.
Qed.

Lemma D_same (x : list R) :
  D x x = if Reqb (cabs (nth 4 (fft x) c0)) 0 then NaN else Fin 0.
Proof.
  unfold D, distance. rewrite weighted_sum_same. cbn [Nat.sub].
  unfold fin_div. destruct (Reqb _ 0).
  - unfold Rltb. destruct (Rlt_dec 0 (0 / INR 5)) as [H|H];
      [|destruct (Rlt_dec (0 / INR 5) 0) as [H'|H']];
      [exfalso|exfalso|reflexivity].
    + unfold Rdiv in H. rewrite Rmult_0_l in H. lra.
    + unfold Rdiv in H'. rewrite Rmult_0_l in H'. lra.
  - f_equal. unfold Rdiv. ring.
Qed.

(** With a zero normalizing component the metric is not a number. *)
Lemma D_degenerate (tv bv : list R) :
  cabs (nth 4 (fft bv) c0) = 0%R -> D tv bv = PInf \/ D tv bv = NaN.
Proof.
  intros Hz. unfold D, distance. cbn [Nat.sub]. rewrite Hz.
  unfold fin_div, Reqb. destruct (Req_dec_T 0 0) as [_|H]; [|congruence].
  destruct (Rltb 0 _) eqn:E1; [now left|].
  destruct (Rltb _ 0) eqn:E2; [|now right].
  exfalso. unfold Rltb in E2. destruct (Rlt_dec _ 0) as [H|H]; [|discriminate].
  pose proof (weighted_sum_nonneg 5 (fft tv) (fft bv)) as Hn.
  assert (0 <= weighted_sum 5 2 (fft tv) (fft bv) / INR 5)%R; [|lra].
  apply Rmult_le_pos; [exact Hn|]. simpl. lra.
Qed.

Lemma implicated_degenerate (tv bv : ndarray) (i : nat) :
  cabs (nth 4 (fft (values bv)) c0) = 0%R -> implicated tv bv i = false.
Proof.
  intros Hz. unfold implicated.
  destruct (D_degenerate (values tv) (values bv) Hz) as [-> | ->],
           (D_degenerate (substituted tv bv i) (values bv) Hz) as [-> | ->];
    reflexivity.
Qed.

Lemma filter_none {A : Type} (p : A -> bool) (l : list A) :
  (forall a, p a = false) -> List.filter p l = [].
Proof.
  intros Hp. induction l as [|a l IH]; [reflexivity|].
  cbn. now rewrite Hp.
Qed.

Lemma Q2R_zero : Q2R 0 = 0%R.
Proof. unfold Q2R. simpl. lra. Qed.

Lemma substituted_insert (tv bv : ndarray) (i : nat) :
  substituted tv bv i = <[i := nth i (values bv) 0%R]> (values tv).
Proof.
  unfold substituted, values.
  change (map Q2R (<[i:=nth i (astype_float bv) 0%Q]> (astype_float tv)))
    with (Q2R <$> <[i:=nth i (astype_float bv) 0%Q]> (astype_float tv)).
  rewrite list_fmap_insert. f_equal.
  rewrite <- Q2R_zero. symmetry. apply map_nth.
Qed.

Lemma insert_nth_same {A : Type} (l : list A) (i : nat) (d : A) :
  <[i := nth i l d]> l = l.
Proof.
  revert i. induction l as [|a l IH]; intros [|i]; cbn; try reflexivity.
  f_equal. apply IH.
Qed.

Lemma verdict_same train day tk st tv bv :
  train_lookup train day tk st = Ok bv ->
  values tv = values bv ->
  verdict train day tk st tv = None.
Proof.
  intros Hb Hv. unfold verdict. rewrite Hb.
  rewrite Hv at 1. rewrite D_same.
  destruct (Reqb _ 0) eqn:E.
  - cbn [np_lt]. rewrite filter_none; [reflexivity|].
    intros i. apply implicated_degenerate.
    unfold Reqb in E. now destruct (Req_dec_T _ 0).
  - cbn [np_lt]. unfold Rltb, esconstants.FFT_TEST_DIFF_THRESHOLD.
    destruct (Rlt_dec 0 (5 / 10)); [reflexivity|lra].
Qed.

Lemma amplitude_diff_same (tv bv : ndarray) :
  len tv = 24%nat -> len bv = 24%nat -> values tv = values bv ->
  _fft_amplitude_diff (fft (values tv)) (fft (values bv)) =
  Ok (if Reqb (cabs (nth 4 (fft (values bv)) c0)) 0 then NaN else Fin 0).
Proof.
  intros Ht Hl Hv.
  rewrite amplitude_diff_distance by (rewrite length_fft, length_values; lia).
  fold (D (values tv) (values bv)). rewrite Hv. now rewrite D_same.
Qed.

(** C9, as amended.  When the test vector of a pair equals its weekday
    baseline in all 24 slots, the metric is 0 if the baseline's component 4
    has a magnitude other than zero, and NaN if the vectors are constant,
    the same value in all 24 slots, for then that component is zero; in
    every case no hour of the pair is recorded as an outlier. *)
Theorem identical_vectors now self tk st tv bv :
  hourly self (weekday (now - esconstants.TEST_DAY)) ->
  lookup2 (test_data self) tk st = Some tv ->
  train_lookup (_train_data self) (weekday (now - esconstants.TEST_DAY)) tk st
    = Ok bv ->
  values tv = values bv ->
  (cabs (nth 4 (fft (values bv)) c0) <> 0%R ->
   _fft_amplitude_diff (fft (values tv)) (fft (values bv)) = Ok (Fin 0)) /\
  (forall c : R, values bv = repeat c 24 ->
   _fft_amplitude_diff (fft (values tv)) (fft (values bv)) = Ok NaN) /\
  exists self',
    outlier_detection now self = Ok self' /\
    lookup2 (outliers self') tk st = None.
Proof.
  intros Hwf Htest Hb Hv.
  destruct (Hwf tk st tv Htest) as [Ht Hl]. specialize (Hl bv Hb).
  pose proof (amplitude_diff_same tv bv Ht Hl Hv) as HD.
  split; [|split].
  - intros Hnz. rewrite HD. unfold Reqb.
    now destruct (Req_dec_T _ 0).
  - intros c Hc. rewrite HD, Hc, fft_constant_4, cabs_c0. unfold Reqb.
    now destruct (Req_dec_T 0 0).
  - destruct (outlier_detection_verdicts now self Hwf)
      as (self' & Hrun & _ & _ & _ & Hout).
    exists self'. split; [exact Hrun|].
    rewrite Hout, Htest. cbn. now apply (verdict_same _ _ _ _ _ bv).
Qed.

Lemma hourly_singleton tk st tv train plot day :
  wf_pair train day tk st tv ->
  hourly (__init__ {[ tk := {[ st := tv ]} ]} train plot) day.
Proof.
  intros Hwf tk' st' tv' H. cbn [test_data _train_data __init__] in *.
  unfold lookup2 in H.
  destruct (decide (tk' = tk)) as [->|Hne].
  - rewrite lookup_singleton_eq in H. cbn in H.
    destruct (decide (st' = st)) as [->|Hne'].
    + rewrite lookup_singleton_eq in H. injection H as <-. exact Hwf.
    + rewrite lookup_singleton_ne in H by congruence. discriminate.
  - rewrite lookup_singleton_ne in H by congruence. discriminate.
Qed.

Lemma identical_vectors_witness :
  exists self',
    outlier_detection 735685
      (__init__ {[ "ossec" := {[ "5501" := IntArr spike9 ]} ]}
                {[ 4%Z := {[ "ossec" := {[ "5501" := IntArr spike9 ]} ]} ]}
                false) = Ok self' /\
    lookup2 (outliers self') "ossec" "5501" = None.
Proof.
  refine (proj2 (proj2 (identical_vectors 735685 _ "ossec" "5501"
                          (IntArr spike9) (IntArr spike9) _ _ _ _))).
  - apply hourly_singleton. split; [reflexivity|].
    intros bv H. vm_compute in H. injection H as <-. reflexivity.
  - reflexivity.
  - reflexivity.
  - reflexivity.
Defined.

Lemma ones24_component_4 : cabs (nth 4 (fft (values ones24)) c0) = 0%R.
Proof.
  change (values ones24) with (repeat (Q2R (inject_Z 1)) 24).
  rewrite fft_constant_4. apply cabs_c0.
Qed.

(** C9 as stated fails: for the vector of 24 ones against itself the
    metric is NaN, not 0. *)
Lemma identical_vectors_nan :
  values ones24 = values ones24 /\
  _fft_amplitude_diff (fft (values ones24)) (fft (values ones24)) = Ok NaN /\
  NaN <> Fin 0.
Proof.
  split; [reflexivity|]. split; [|discriminate].
  rewrite amplitude_diff_same by reflexivity.
  rewrite ones24_component_4. unfold Reqb.
  now destruct (Req_dec_T 0 0).
Qed.

Lemma term_nonneg (a : R) (k : nat) : (0 <= Rabs a / 2 ^ k)%R.
Proof.
  apply Rmult_le_pos; [apply Rabs_pos|].
  left. apply Rinv_0_lt_compat. apply pow_lt. lra.
Qed.

Lemma weighted_sum_ge_dc (T B : list complex) :
  (Rabs (cabs (nth 0 T c0) - cabs (nth 0 B c0)) <= weighted_sum 5 2 T B)%R.
Proof.
  unfold weighted_sum. cbn [seq map fold_right].
  pose proof (term_nonneg (cabs (nth 1 T c0) - cabs (nth 1 B c0)) 1).
  pose proof (term_nonneg (cabs (nth 2 T c0) - cabs (nth 2 B c0)) 2).
  pose proof (term_nonneg (cabs (nth 3 T c0) - cabs (nth 3 B c0)) 3).
  pose proof (term_nonneg (cabs (nth 4 T c0) - cabs (nth 4 B c0)) 4).
  replace (Rabs (cabs (nth 0 T c0) - cabs (nth 0 B c0)) / 2 ^ 0)%R
    with (Rabs (cabs (nth 0 T c0) - cabs (nth 0 B c0))) by (simpl; field).
  lra.
Qed.

Lemma Q2R_inject_Z (z : Z) : Q2R (inject_Z z) = IZR z.
Proof. unfold Q2R. simpl. field. Qed.

Lemma values_int (l : list Z) : values (IntArr l) = map IZR l.
Proof.
  unfold values. cbn [astype_float]. rewrite map_map.
  apply map_ext. exact Q2R_inject_Z.
Qed.

(** The magnitude of component 0 of an array of counts. *)
Lemma dc_magnitude (l : list Z) :
  (0 < length l)%nat ->
  cabs (nth 0 (fft (values (IntArr l))) c0) = Rabs (total (map IZR l)).
Proof.
  intros Hl. rewrite values_int, fft_dc by (now rewrite length_map).
  apply cabs_real.
Qed.

Lemma distance_degenerate (T B : list complex) :
  cabs (nth 4 B c0) = 0%R ->
  distance 5 2 T B = PInf \/ distance 5 2 T B = NaN.
Proof.
  intros Hz. unfold distance. cbn [Nat.sub]. rewrite Hz.
  unfold fin_div, Reqb. destruct (Req_dec_T 0 0) as [_|H]; [|congruence].
  destruct (Rltb 0 _) eqn:E1; [now left|].
  destruct (Rltb _ 0) eqn:E2; [|now right].
  exfalso. unfold Rltb in E2. destruct (Rlt_dec _ 0) as [H|H]; [|discriminate].
  pose proof (weighted_sum_nonneg 5 T B) as Hn.
  assert (0 <= weighted_sum 5 2 T B / INR 5)%R; [|lra].
  apply Rmult_le_pos; [exact Hn|]. simpl. lra.
Qed.

Lemma degenerate_comparisons (d difference : npfloat) :
  d = PInf \/ d = NaN ->
  np_lt d (Fin esconstants.FFT_TEST_DIFF_THRESHOLD) = false /\
  np_gt (np_div (np_sub d difference) d)
        (Fin esconstants.FFT_POINT_DIFF_THRESHOLD) = false.
Proof. intros [-> | ->]; destruct difference; split; reflexivity. Qed.

(** C3, as amended.  When component 4 of the baseline's spectrum, the
    normalizing one, has zero magnitude, the distance computation raises
    nothing: it returns positive infinity or NaN, the comparison with the
    global threshold is false and the comparison of the attribution loop is
    false for every hour.  A baseline with the same value in all 24 slots
    is such a one: its pair goes through the attribution loop, and there no
    hour is implicated. *)
Theorem degenerate_metric_is_silent day tk st tv bv self (c : R)
    (T B : list complex) :
  ((5 <= length T)%nat -> (5 <= length B)%nat ->
   cabs (nth 4 B c0) = 0%R ->
   exists d,
     _fft_amplitude_diff T B = Ok d /\
     (d = PInf \/ d = NaN) /\
     np_lt d (Fin esconstants.FFT_TEST_DIFF_THRESHOLD) = false /\
     forall difference,
       np_gt (np_div (np_sub d difference) d)
             (Fin esconstants.FFT_POINT_DIFF_THRESHOLD) = false) /\
  (train_lookup (_train_data self) day tk st = Ok bv ->
   len tv = 24%nat -> values bv = repeat c 24 ->
   exists d,
     _fft_amplitude_diff (fft (values tv)) (fft (values bv)) = Ok d /\
     (d = PInf \/ d = NaN) /\
     np_lt d (Fin esconstants.FFT_TEST_DIFF_THRESHOLD) = false /\
     try_block day tk st tv self = Ok (set_amplitude_diff d self, Some [])).
Proof.
  split.
  - intros HT HB Hz. exists (distance 5 2 T B).
    pose proof (distance_degenerate T B Hz) as Hd.
    split; [now apply amplitude_diff_distance|]. split; [exact Hd|].
    split; [exact (proj1 (degenerate_comparisons _ NaN Hd))|].
    intros difference. exact (proj2 (degenerate_comparisons _ difference Hd)).
  - intros Hb Ht Hc.
    assert (Hl : len bv = 24%nat).
    { rewrite <- length_values, Hc. apply repeat_length. }
    assert (Hz : cabs (nth 4 (fft (values bv)) c0) = 0%R).
    { rewrite Hc, fft_constant_4. apply cabs_c0. }
    exists (D (values tv) (values bv)).
    assert (Hlt : np_lt (D (values tv) (values bv))
                        (Fin esconstants.FFT_TEST_DIFF_THRESHOLD) = false).
    { destruct (D_degenerate (values tv) (values bv) Hz) as [-> | ->];
        reflexivity. }
    split; [|split; [|split]].
    + apply amplitude_diff_distance; rewrite length_fft, length_values; lia.
    + now apply D_degenerate.
    + exact Hlt.
    + rewrite (try_block_baseline _ _ _ _ bv) by assumption.
      rewrite Hlt. rewrite filter_none; [reflexivity|].
      intros i. now apply implicated_degenerate.
Qed.

Lemma degenerate_metric_is_silent_witness :
  (exists d,
     _fft_amplitude_diff (fft (values (IntArr spike9))) (fft (values ones24))
       = Ok d /\
     (d = PInf \/ d = NaN) /\
     np_lt d (Fin esconstants.FFT_TEST_DIFF_THRESHOLD) = false /\
     forall difference,
       np_gt (np_div (np_sub d difference) d)
             (Fin esconstants.FFT_POINT_DIFF_THRESHOLD) = false) /\
  exists d,
    _fft_amplitude_diff (fft (values (IntArr spike9))) (fft (values ones24))
      = Ok d /\
    (d = PInf \/ d = NaN) /\
    np_lt d (Fin esconstants.FFT_TEST_DIFF_THRESHOLD) = false /\
    try_block 4 "ossec" "5501" (IntArr spike9)
      (__init__ {[ "ossec" := {[ "5501" := IntArr spike9 ]} ]}
                {[ 4%Z := {[ "ossec" := {[ "5501" := ones24 ]} ]} ]} false)
    = Ok (set_amplitude_diff d
            (__init__ {[ "ossec" := {[ "5501" := IntArr spike9 ]} ]}
                      {[ 4%Z := {[ "ossec" := {[ "5501" := ones24 ]} ]} ]}
                      false),
          Some []).
Proof.
  pose proof (degenerate_metric_is_silent 4 "ossec" "5501" (IntArr spike9)
                ones24
                (__init__ {[ "ossec" := {[ "5501" := IntArr spike9 ]} ]}
                          {[ 4%Z := {[ "ossec" := {[ "5501" := ones24 ]} ]} ]}
                          false)
                (Q2R (inject_Z 1))
                (fft (values (IntArr spike9))) (fft (values ones24)))
    as [H1 H2].
  split.
  - apply H1.
    + rewrite length_fft, length_values. cbn. lia.
    + rewrite length_fft, length_values. cbn. lia.
    + exact ones24_component_4.
  - apply H2; reflexivity.
Defined.

Lemma spike9_dc : cabs (nth 0 (fft (values (IntArr spike9))) c0) = 2%R.
Proof.
  rewrite dc_magnitude by (cbn; lia).
  unfold spike9. cbn [repeat app map total fold_right].
  rewrite Rabs_right; lra.
Qed.

Lemma ones24_dc : cabs (nth 0 (fft (values ones24)) c0) = 24%R.
Proof.
  unfold ones24. rewrite dc_magnitude by (cbn; lia).
  cbn [repeat app map total fold_right].
  rewrite Rabs_right; lra.
Qed.

(** C3 as stated fails: against the baseline of 24 ones, whose component 4
    is zero, the distance of [[0]*9 + [2] + [0]*14] is returned, and is
    infinite. *)
Lemma degenerate_metric_no_error :
  cabs (nth 4 (fft (values ones24)) c0) = 0%R /\
  _fft_amplitude_diff (fft (values (IntArr spike9))) (fft (values ones24))
    = Ok PInf.
Proof.
  split; [exact ones24_component_4|].
  rewrite amplitude_diff_distance
    by (rewrite length_fft, length_values; cbn; lia).
  unfold distance. cbn [Nat.sub]. rewrite ones24_component_4.
  unfold fin_div, Reqb. destruct (Req_dec_T 0 0) as [_|H]; [|congruence].
  unfold Rltb.
  destruct (Rlt_dec 0 _) as [_|H]; [reflexivity|]. exfalso. apply H.
  pose proof (weighted_sum_ge_dc (fft (values (IntArr spike9)))
                                 (fft (values ones24))) as Hdc.
  rewrite spike9_dc, ones24_dc in Hdc.
  rewrite Rabs_left in Hdc by lra.
  apply Rmult_lt_0_compat; [lra|]. apply Rinv_0_lt_compat. simpl. lra.
Qed.

(** ** Determinism *)

Lemma try_block_agree day tk st tv s1 s2 :
  _train_data s1 = _train_data s2 ->
  match try_block day tk st tv s1, try_block day tk st tv s2 with
  | Ok (a, p), Ok (b, q) =>
      p = q /\ exists d, a = set_amplitude_diff d s1 /\
                         b = set_amplitude_diff d s2
  | Raise e1, Raise e2 => e1 = e2
  | _, _ => False
  end.
Proof.
  intros Htrain. unfold try_block. rewrite Htrain.
  destruct (fftpack_fft (values tv)) as [testfft|e];
    cbn [mbind result_bind bind]; [|reflexivity].
  destruct (train_lookup _ _ _ _) as [bv|e]; cbn [mbind result_bind bind];
    [|reflexivity].
  destruct (fftpack_fft (values bv)) as [trainfft|e];
    cbn [mbind result_bind bind]; [|reflexivity].
  destruct (_fft_amplitude_diff _ _) as [d|e]; cbn [mbind result_bind bind];
    [|reflexivity].
  cbn [_amplitude_diff set_amplitude_diff].
  destruct (np_lt _ _); [split; eauto|].
  destruct (fold_left _ _ _) as [ps|e]; cbn [mbind result_bind bind];
    [split; eauto|reflexivity].
Qed.

Lemma subtype_body_agree day tk st tv s1 s2 :
  agree s1 s2 ->
  result_agree (subtype_body day tk st tv s1) (subtype_body day tk st tv s2).
Proof.
  intros (Ho & Hf & Htest & Htrain). unfold subtype_body.
  pose proof (try_block_agree day tk st tv s1 s2 Htrain) as H.
  destruct (try_block day tk st tv s1) as [[a p]|e1],
           (try_block day tk st tv s2) as [[b q]|e2]; try contradiction.
  - destruct H as (<- & d & -> & ->).
    destruct p as [[|i ps]|]; cbn; unfold agree; cbn;
      rewrite ?Ho, ?Hf, ?Htest, ?Htrain; auto.
  - subst e2. destruct e1; cbn; try reflexivity.
    unfold agree, except_block. cbn. rewrite ?Ho, ?Hf, ?Htest, ?Htrain. auto.
Qed.

Lemma map_fold_agree {K : Type} `{Countable K} {A : Type}
    (f : K -> A -> result ESAnalyze -> result ESAnalyze)
    (m : gmap K A) (r1 r2 : result ESAnalyze) :
  (forall k v a b, result_agree a b -> result_agree (f k v a) (f k v b)) ->
  result_agree r1 r2 ->
  result_agree (map_fold f r1 m) (map_fold f r2 m).
Proof.
  intros Hf Hr. rewrite !map_fold_foldr.
  induction (map_to_list m) as [|[k v] l IH]; cbn; [exact Hr|].
  now apply Hf.
Qed.

Lemma bind_agree (g : ESAnalyze -> result ESAnalyze) (a b : result ESAnalyze) :
  (forall s1 s2, agree s1 s2 -> result_agree (g s1) (g s2)) ->
  result_agree a b ->
  result_agree (self ← a; g self) (self ← b; g self).
Proof.
  intros Hg Hab. destruct a as [s1|e1], b as [s2|e2]; cbn in *;
    try contradiction; auto.
Qed.

(** C7, as amended.  Two runs of the detection on the same test-day
    vectors and the same training vectors, under the same constants, give
    the same outlier record and the same flag whenever the clock puts their
    test dates on the same weekday; nothing else of the clock and nothing
    an earlier run left in the object has a part in the report. *)
Theorem detection_depends_on_weekday now1 now2 s1 s2 :
  weekday (now1 - esconstants.TEST_DAY) = weekday (now2 - esconstants.TEST_DAY) ->
  test_data s1 = test_data s2 ->
  _train_data s1 = _train_data s2 ->
  report (outlier_detection now1 s1) = report (outlier_detection now2 s2).
Proof.
  intros Hday Htest Htrain.
  assert (H : result_agree (outlier_detection now1 s1)
                           (outlier_detection now2 s2)).
  { unfold outlier_detection. rewrite Hday, Htest. cbn [test_data].
    apply map_fold_agree.
    - intros tk m a b Hab. apply map_fold_agree; [|exact Hab].
      intros st tv a' b' Hab'. apply bind_agree; [|exact Hab'].
      intros. now apply subtype_body_agree.
    - cbn. unfold agree. cbn. auto. }
  unfold report.
  destruct (outlier_detection now1 s1) as [a|e1],
           (outlier_detection now2 s2) as [b|e2]; cbn in *; try contradiction.
  - destruct H as (Ho & Hf & _). now rewrite Ho, Hf.
  - now subst.
Qed.

Lemma detection_depends_on_weekday_witness :
  report (outlier_detection 735685
            (__init__ {[ "ossec" := {[ "5501" := IntArr spike9 ]} ]}
                      {[ 4%Z := {[ "ossec" := {[ "5501" := ones24 ]} ]} ]}
                      false)) =
  report (outlier_detection 735692
            (set_outliers_flag true
               (set_amplitude_diff PInf
                  (__init__ {[ "ossec" := {[ "5501" := IntArr spike9 ]} ]}
                            {[ 4%Z := {[ "ossec" := {[ "5501" := ones24 ]} ]} ]}
                            true)))).
Proof.
  apply detection_depends_on_weekday; reflexivity.
Defined.

(** C7 as stated fails: the same object, scored with the clock on two
    consecutive days, gives two different reports. *)
Lemma detection_reads_the_clock :
  report (outlier_detection 735685
            (__init__ {[ "ossec" := {[ "5501" := ones24 ]} ]}
                      {[ 4%Z := {[ "ossec" := {[ "5501" := ones24 ]} ]} ]}
                      false)) <>
  report (outlier_detection 735686
            (__init__ {[ "ossec" := {[ "5501" := ones24 ]} ]}
                      {[ 4%Z := {[ "ossec" := {[ "5501" := ones24 ]} ]} ]}
                      false)).
Proof.
  set (self := __init__ _ _ _).
  assert (E1 : train_lookup (_train_data self)
                 (weekday (735685 - esconstants.TEST_DAY)) "ossec" "5501"
               = Ok ones24) by (vm_compute; reflexivity).
  assert (E2 : train_lookup (_train_data self)
                 (weekday (735686 - esconstants.TEST_DAY)) "ossec" "5501"
               = Raise KeyError) by (vm_compute; reflexivity).
  assert (E3 : lookup2 (test_data self) "ossec" "5501" = Some ones24)
    by (vm_compute; reflexivity).
  assert (W1 : hourly self (weekday (735685 - esconstants.TEST_DAY))).
  { apply hourly_singleton. split; [reflexivity|].
    intros bv H. unfold self in E1. cbn [_train_data __init__] in E1.
    rewrite E1 in H. injection H as <-. reflexivity. }
  assert (W2 : hourly self (weekday (735686 - esconstants.TEST_DAY))).
  { apply hourly_singleton. split; [reflexivity|].
    intros bv H. unfold self in E2. cbn [_train_data __init__] in E2.
    rewrite E2 in H. discriminate. }
  destruct (outlier_detection_verdicts 735685 self W1)
    as (s1 & Hrun1 & _ & _ & _ & Hout1).
  destruct (outlier_detection_verdicts 735686 self W2)
    as (s2 & Hrun2 & _ & _ & _ & Hout2).
  rewrite Hrun1, Hrun2.
  unfold report. cbn [mbind result_bind bind].
  intros H. injection H as Ho _.
  specialize (Hout1 "ossec" "5501"). specialize (Hout2 "ossec" "5501").
  rewrite Ho, Hout2, E3 in Hout1. cbn [mbind option_bind] in Hout1.
  rewrite (verdict_same _ _ _ _ _ ones24 E1 eq_refl) in Hout1.
  rewrite (verdict_no_baseline _ _ _ _ _ _ E2) in Hout1.
  discriminate Hout1.
Qed.


(** ** Raising one hour of the test vector *)

Lemma cabs_triangle (z w : complex) : (cabs (cadd z w) <= cabs z + cabs w)%R.
Proof.
  destruct z as [a b], w as [c d]. unfold cabs, cadd. cbn [fst snd].
  pose proof (triangle (a + c) (b + d) 0 0 c d) as H.
  unfold dist_euc, Rsqr in H.
  replace ((a + c - 0) * (a + c - 0) + (b + d - 0) * (b + d - 0))%R
    with ((a + c) * (a + c) + (b + d) * (b + d))%R in H by ring.
  replace ((a + c - c) * (a + c - c) + (b + d - d) * (b + d - d))%R
    with (a * a + b * b)%R in H by ring.
  replace ((c - 0) * (c - 0) + (d - 0) * (d - 0))%R
    with (c * c + d * d)%R in H by ring.
  exact H.
Qed.

Lemma cabs_opp (w : complex) : cabs (- fst w, - snd w)%R = cabs w.
Proof. unfold cabs. cbn [fst snd]. f_equal. ring. Qed.

Lemma cabs_shift (z w : complex) :
  (Rabs (cabs (cadd z w) - cabs z) <= cabs w)%R.
Proof.
  pose proof (cabs_triangle z w) as H1.
  pose proof (cabs_triangle (cadd z w) (- fst w, - snd w)%R) as H2.
  rewrite cabs_opp in H2.
  replace (cadd (cadd z w) (- fst w, - snd w)%R) with z in H2.
  - apply Rabs_le. lra.
  - destruct z, w. unfold cadd. cbn [fst snd]. f_equal; ring.
Qed.

Lemma cabs_twiddle (delta t : R) :
  cabs (cmul (of_real delta) (cos t, sin t)) = Rabs delta.
Proof.
  unfold cabs, cmul, of_real. cbn [fst snd].
  replace ((delta * cos t - 0 * sin t) * (delta * cos t - 0 * sin t) +
           (delta * sin t + 0 * cos t) * (delta * sin t + 0 * cos t))%R
    with (Rsqr delta * (Rsqr (sin t) + Rsqr (cos t)))%R
    by (unfold Rsqr; ring).
  rewrite sin2_cos2, Rmult_1_r. apply sqrt_Rsqr_abs.
Qed.

Lemma csum_map_ext_but (f g : nat -> complex) (e : complex) (h : nat)
    (l : list nat) :
  NoDup l -> In h l ->
  (forall k, k <> h -> f k = g k) -> f h = cadd (g h) e ->
  csum (map f l) = cadd (csum (map g l)) e.
Proof.
  intros Hnd Hin Hne Hh. induction Hnd as [|k l Hk Hnd IH].
  - destruct Hin.
  - cbn [map csum fold_right]. fold (csum (map f l)) (csum (map g l)).
    destruct Hin as [->|Hin].
    + rewrite Hh. replace (csum (map f l)) with (csum (map g l)).
      * rewrite <- !cadd_assoc. f_equal. apply cadd_comm.
      * f_equal. apply map_ext_in. intros k Hk'. symmetry. apply Hne.
        intros ->. apply Hk. now apply list_elem_of_In.
    + rewrite IH by exact Hin. rewrite Hne.
      * now rewrite cadd_assoc.
      * intros ->. apply Hk. now apply list_elem_of_In.
Qed.

(** The transform of a vector with one slot changed. *)
Lemma fft_one_slot (x x' : list R) (h j : nat) :
  length x' = length x -> (h < length x)%nat -> (j < length x)%nat ->
  (forall i, i <> h -> nth i x' 0%R = nth i x 0%R) ->
  nth j (fft x') c0 =
  cadd (nth j (fft x) c0)
       (cmul (of_real (nth h x' 0 - nth h x 0))
             (cos (- (2 * PI * INR j * INR h / INR (length x))),
              sin (- (2 * PI * INR j * INR h / INR (length x)))))%R.
Proof.
  intros Hlen Hh Hj Hne.
  rewrite !nth_fft by lia. rewrite Hlen.
  apply (csum_map_ext_but _ _ _ h).
  - apply NoDup_ListNoDup, seq_NoDup.
  - apply in_seq. lia.
  - intros k Hk. now rewrite Hne.
  - unfold cadd, cmul, of_real. cbn [fst snd]. f_equal; ring.
Qed.

Lemma Rabs_shift_le (a a' b delta : R) :
  (Rabs (a' - a) <= delta -> Rabs (a - b) - delta <= Rabs (a' - b))%R.
Proof.
  intros H. unfold Rabs in *.
  destruct (Rcase_abs (a' - a)), (Rcase_abs (a - b)), (Rcase_abs (a' - b));
    lra.
Qed.

(** With the component 0 of the test grown by [delta] from a value not
    below the baseline's, and no other magnitude moved by more than
    [delta], the weighted sum has not decreased. *)
Lemma weighted_sum_raised (T T' B : list complex) (delta : R) :
  (0 <= delta)%R ->
  (cabs (nth 0 B c0) <= cabs (nth 0 T c0))%R ->
  cabs (nth 0 T' c0) = (cabs (nth 0 T c0) + delta)%R ->
  (forall k, (k < 5)%nat ->
     Rabs (cabs (nth k T' c0) - cabs (nth k T c0)) <= delta)%R ->
  (weighted_sum 5 2 T B <= weighted_sum 5 2 T' B)%R.
Proof.
  intros Hd H0 H0' Hk. unfold weighted_sum. cbn [seq map fold_right pow].
  pose proof (Rabs_shift_le _ _ (cabs (nth 1 B c0)) _ (Hk 1%nat ltac:(lia))).
  pose proof (Rabs_shift_le _ _ (cabs (nth 2 B c0)) _ (Hk 2%nat ltac:(lia))).
  pose proof (Rabs_shift_le _ _ (cabs (nth 3 B c0)) _ (Hk 3%nat ltac:(lia))).
  pose proof (Rabs_shift_le _ _ (cabs (nth 4 B c0)) _ (Hk 4%nat ltac:(lia))).
  rewrite H0'.
  rewrite (Rabs_right (cabs (nth 0 T c0) - cabs (nth 0 B c0))) by lra.
  rewrite (Rabs_right (cabs (nth 0 T c0) + delta - cabs (nth 0 B c0))) by lra.
  lra.
Qed.

Lemma nth_insert_same {A : Type} (l : list A) (h : nat) (a d : A) :
  (h < length l)%nat -> nth h (<[h := a]> l) d = a.
Proof.
  revert h. induction l as [|x l IH]; intros [|h] Hh; cbn in *;
    try lia; [reflexivity|]. apply IH. lia.
Qed.

Lemma nth_insert_other {A : Type} (l : list A) (h i : nat) (a d : A) :
  i <> h -> nth i (<[h := a]> l) d = nth i l d.
Proof.
  revert h i. induction l as [|x l IH]; intros [|h] [|i] Hne; cbn;
    try reflexivity; try congruence. apply IH. congruence.
Qed.

Lemma substituted_raised (tv tv' bv : ndarray) (h : nat) :
  raised tv tv' h -> substituted tv' bv h = substituted tv bv h.
Proof.
  intros (Hlen & _ & Hne). rewrite !substituted_insert.
  apply (nth_ext _ _ 0%R 0%R).
  - now rewrite !length_insert, !length_values.
  - intros i _. destruct (decide (i = h)) as [->|Hi].
    + destruct (decide (h < len tv)%nat) as [Hh|Hh].
      * rewrite !nth_insert_same by (rewrite length_values; lia). reflexivity.
      * rewrite !nth_overflow
          by (rewrite length_insert, length_values; lia). reflexivity.
    + rewrite !nth_insert_other by exact Hi. now apply Hne.
Qed.

(** The magnitudes of the transform after a raise of hour [h] by [delta]. *)
Lemma raised_magnitudes (tv tv' : ndarray) (h : nat) :
  len tv = 24%nat -> (h < 24)%nat -> raised tv tv' h ->
  (0 <= total (values tv))%R ->
  let delta := (nth h (values tv') 0 - nth h (values tv) 0)%R in
  (0 <= delta)%R /\
  cabs (nth 0 (fft (values tv')) c0) =
    (cabs (nth 0 (fft (values tv)) c0) + delta)%R /\
  cabs (nth 0 (fft (values tv)) c0) = total (values tv) /\
  forall k, (k < 5)%nat ->
    (Rabs (cabs (nth k (fft (values tv')) c0)
           - cabs (nth k (fft (values tv)) c0)) <= delta)%R.
Proof.
  intros Ht Hh (Hlen & Hge & Hne) Hpos delta.
  assert (Hd : (0 <= delta)%R) by (unfold delta; lra).
  assert (Hk : forall k, (k < 24)%nat ->
            nth k (fft (values tv')) c0 =
            cadd (nth k (fft (values tv)) c0)
              (cmul (of_real delta)
                 (cos (- (2 * PI * INR k * INR h / INR (length (values tv)))),
                  sin (- (2 * PI * INR k * INR h / INR (length (values tv)))))%R)).
  { intros k Hk. apply fft_one_slot; rewrite ?length_values; try lia.
    exact Hne. }
  assert (H0 : cabs (nth 0 (fft (values tv)) c0) = total (values tv)).
  { rewrite fft_dc by (rewrite length_values; lia).
    rewrite cabs_real. now apply Rabs_right, Rle_ge. }
  split; [exact Hd|]. split; [|split; [exact H0|]].
  - rewrite <- H0 in Hpos. rewrite (Hk 0%nat) by lia.
    rewrite fft_dc in * by (rewrite length_values; lia).
    replace (- (2 * PI * INR 0 * INR h / INR (length (values tv))))%R
      with 0%R by (simpl (INR 0); unfold Rdiv; ring).
    rewrite cos_0, sin_0. unfold cadd, cmul, of_real. cbn [fst snd].
    replace (total (values tv) + (delta * 1 - 0 * 0), 0 + (delta * 0 + 0 * 1))%R
      with (total (values tv) + delta, 0)%R by (f_equal; ring).
    rewrite !cabs_real in *. rewrite !Rabs_right; lra.
  - intros k Hk5. rewrite (Hk k) by lia.
    rewrite <- (Rabs_right delta) at 2 by lra.
    rewrite <- (cabs_twiddle delta
                  (- (2 * PI * INR k * INR h / INR (length (values tv))))).
    apply cabs_shift.
Qed.

Lemma D_finite (tv bv : list R) :
  cabs (nth 4 (fft bv) c0) <> 0%R ->
  D tv bv = Fin (weighted_sum 5 2 (fft tv) (fft bv) / INR 5
                 / cabs (nth 4 (fft bv) c0)).
Proof. intros Hnz. unfold D, distance. now apply fin_div_nonzero. Qed.

Lemma improvement_kept (d d' dh : R) :
  (5 / 10 <= d)%R -> (d <= d')%R -> (0 <= dh)%R ->
  np_gt (np_div (np_sub (Fin d) (Fin dh)) (Fin d))
        (Fin esconstants.FFT_POINT_DIFF_THRESHOLD) = true ->
  np_gt (np_div (np_sub (Fin d') (Fin dh)) (Fin d'))
        (Fin esconstants.FFT_POINT_DIFF_THRESHOLD) = true.
Proof.
  intros Hd Hdd Hh. unfold np_gt. cbn [np_sub np_div].
  rewrite !fin_div_nonzero by lra. cbn [np_lt].
  unfold Rltb, esconstants.FFT_POINT_DIFF_THRESHOLD.
  destruct (Rlt_dec _ _) as [H|H]; [intros _|discriminate].
  destruct (Rlt_dec _ _) as [H'|H']; [reflexivity|exfalso]. apply H'.
  assert (Hi : (0 < / d)%R) by (apply Rinv_0_lt_compat; lra).
  assert (Hi' : (0 < / d')%R) by (apply Rinv_0_lt_compat; lra).
  assert (Hle : (/ d' <= / d)%R) by (apply Rinv_le_contravar; lra).
  assert (H1 : (d * / d = 1)%R) by (apply Rinv_r; lra).
  assert (H1' : (d' * / d' = 1)%R) by (apply Rinv_r; lra).
  assert (Hm : (dh * / d' <= dh * / d)%R) by (now apply Rmult_le_compat_l).
  unfold Rdiv in *.
  replace ((d - dh) * / d)%R with (d * / d - dh * / d)%R in H by ring.
  replace ((d' - dh) * / d')%R with (d' * / d' - dh * / d')%R by ring.
  lra.
Qed.

(** C8, as amended.  For a fixed baseline vector, a test vector whose number
    of events is not below the baseline's, and an hour [h] flagged for the
    pair: raising only the test value of hour [h] does not decrease the
    metric and leaves hour [h] flagged. *)
Theorem raise_flagged_hour day tk st tv tv' bv h self :
  train_lookup (_train_data self) day tk st = Ok bv ->
  len tv = 24%nat -> len bv = 24%nat ->
  raised tv tv' h ->
  (Rabs (total (values bv)) <= total (values tv))%R ->
  forall s1 ps,
    try_block day tk st tv self = Ok (s1, Some ps) -> In h ps ->
    exists s2 ps' d d',
      try_block day tk st tv' self = Ok (s2, Some ps') /\ In h ps' /\
      _amplitude_diff s1 = Fin d /\ _amplitude_diff s2 = Fin d' /\
      (d <= d')%R.
Proof.
  intros Hb Ht Hl Hr Htot s1 ps Htry Hin.
  assert (Ht' : len tv' = 24%nat) by (destruct Hr as [-> _]; exact Ht).
  rewrite (try_block_baseline _ _ _ _ bv) in Htry by assumption.
  destruct (np_lt (D (values tv) (values bv)) _) eqn:Elt;
    [discriminate Htry|].
  remember (List.filter (implicated tv bv) (seq 0 24)) as ps0 eqn:Eps.
  remember (D (values tv) (values bv)) as d0 eqn:Ed0.
  injection Htry as <- <-. subst ps0 d0.
  apply filter_In in Hin as [Hh Himp]. apply in_seq in Hh.
  destruct (Req_dec_T (cabs (nth 4 (fft (values bv)) c0)) 0) as [Hz|Hnz].
  { rewrite implicated_degenerate in Himp by exact Hz. discriminate Himp. }
  assert (Hpos : (0 <= total (values tv))%R).
  { pose proof (Rabs_pos (total (values bv))). lra. }
  destruct (raised_magnitudes tv tv' h Ht ltac:(lia) Hr Hpos)
    as (Hd & H0' & H0 & Hk).
  assert (HB0 : cabs (nth 0 (fft (values bv)) c0)
                = Rabs (total (values bv))).
  { rewrite fft_dc by (rewrite length_values; lia). apply cabs_real. }
  pose proof (weighted_sum_raised (fft (values tv)) (fft (values tv'))
                (fft (values bv)) _ Hd ltac:(lra) H0' Hk) as Hws.
  pose proof (cabs_nonneg (nth 4 (fft (values bv)) c0)) as Hb4.
  assert (Hinv : (0 < / INR 5 * / cabs (nth 4 (fft (values bv)) c0))%R).
  { apply Rmult_lt_0_compat; apply Rinv_0_lt_compat; [simpl|]; lra. }
  set (b := cabs (nth 4 (fft (values bv)) c0)) in *.
  set (d := (weighted_sum 5 2 (fft (values tv)) (fft (values bv))
             / INR 5 / b)%R).
  set (d' := (weighted_sum 5 2 (fft (values tv')) (fft (values bv))
              / INR 5 / b)%R).
  set (dh := (weighted_sum 5 2 (fft (substituted tv bv h)) (fft (values bv))
              / INR 5 / b)%R).
  assert (Hdd : (d <= d')%R).
  { unfold d, d', Rdiv. rewrite !Rmult_assoc.
    apply Rmult_le_compat_r; [lra|exact Hws]. }
  assert (Hdh : (0 <= dh)%R).
  { unfold dh, Rdiv. rewrite Rmult_assoc.
    apply Rmult_le_pos; [apply weighted_sum_nonneg|lra]. }
  assert (ED : D (values tv) (values bv) = Fin d) by (now apply D_finite).
  assert (ED' : D (values tv') (values bv) = Fin d') by (now apply D_finite).
  assert (EDh : D (substituted tv bv h) (values bv) = Fin dh)
    by (now apply D_finite).
  assert (Hd5 : (5 / 10 <= d)%R).
  { rewrite ED in Elt. cbn [np_lt] in Elt. unfold Rltb in Elt.
    unfold esconstants.FFT_TEST_DIFF_THRESHOLD in Elt.
    destruct (Rlt_dec d (5 / 10)); [discriminate Elt|lra]. }
  assert (Elt' : np_lt (D (values tv') (values bv))
                   (Fin esconstants.FFT_TEST_DIFF_THRESHOLD) = false).
  { rewrite ED'. cbn [np_lt]. unfold Rltb.
    unfold esconstants.FFT_TEST_DIFF_THRESHOLD.
    destruct (Rlt_dec d' (5 / 10)); [lra|reflexivity]. }
  exists (set_amplitude_diff (D (values tv') (values bv)) self),
         (List.filter (implicated tv' bv) (seq 0 24)), d, d'.
  split; [|split; [|split; [|split]]].
  - rewrite (try_block_baseline _ _ _ _ bv) by assumption. now rewrite Elt'.
  - apply filter_In. split; [apply in_seq; lia|].
    unfold implicated in *. rewrite (substituted_raised tv tv' bv h Hr).
    rewrite ED, EDh in Himp. rewrite ED', EDh.
    now apply (improvement_kept d d' dh).
  - exact ED.
  - exact ED'.
  - exact Hdd.
Qed.


(** A vector with hits in hours 0 and 3 only. *)
Lemma fft_hours_0_3 (a b : R) :
  nth 4 (fft (a :: 0 :: 0 :: b :: repeat 0 20)%R) c0 = (a - b, 0)%R.
Proof.
  rewrite nth_fft by (cbn; lia). rewrite csum_parts.
  cbn [length repeat seq map fold_right nth fst snd cmul of_real].
  replace (- (2 * PI * INR 4 * INR 0 / INR 24))%R with 0%R
    by (simpl (INR 0); unfold Rdiv; ring).
  replace (- (2 * PI * INR 4 * INR 3 / INR 24))%R with (- PI)%R
    by (simpl (INR 3); simpl (INR 4); simpl (INR 24); field).
  rewrite (cos_neg PI), (sin_neg PI), cos_PI, sin_PI, cos_0, sin_0.
  f_equal; ring.
Qed.

(** A vector with hits in hour 0 only. *)
Lemma fft_hour_0 (a : R) :
  nth 4 (fft (a :: repeat 0 23)%R) c0 = (a, 0)%R.
Proof.
  rewrite nth_fft by (cbn; lia). rewrite csum_parts.
  cbn [length repeat seq map fold_right nth fst snd cmul of_real].
  replace (- (2 * PI * INR 4 * INR 0 / INR 24))%R with 0%R
    by (simpl (INR 0); unfold Rdiv; ring).
  rewrite cos_0, sin_0.
  f_equal; ring.
Qed.

(** The metric is at least the share of component 0. *)
Lemma D_at_least (tv bv : list R) :
  cabs (nth 4 (fft bv) c0) <> 0%R ->
  exists d, D tv bv = Fin d /\
    (Rabs (cabs (nth 0 (fft tv) c0) - cabs (nth 0 (fft bv) c0)) / 5
     / cabs (nth 4 (fft bv) c0) <= d)%R.
Proof.
  intros Hnz. eexists. split; [now apply D_finite|].
  pose proof (weighted_sum_ge_dc (fft tv) (fft bv)) as H.
  pose proof (cabs_nonneg (nth 4 (fft bv) c0)) as Hb.
  replace 5%R with (INR 5) by (simpl; lra).
  unfold Rdiv. rewrite !Rmult_assoc.
  apply Rmult_le_compat_r; [|exact H].
  left. apply Rmult_lt_0_compat; apply Rinv_0_lt_compat; [simpl|]; lra.
Qed.

(** A test vector that leaves the baseline in hour [h] alone, with a metric
    at the global threshold or above: hour [h] is implicated. *)
Lemma single_divergence day tk st tv bv h self d :
  train_lookup (_train_data self) day tk st = Ok bv ->
  len tv = 24%nat -> len bv = 24%nat -> (h < 24)%nat ->
  substituted tv bv h = values bv ->
  cabs (nth 4 (fft (values bv)) c0) <> 0%R ->
  D (values tv) (values bv) = Fin d -> (5 / 10 <= d)%R ->
  try_block day tk st tv self =
    Ok (set_amplitude_diff (Fin d) self,
        Some (List.filter (implicated tv bv) (seq 0 24))) /\
  In h (List.filter (implicated tv bv) (seq 0 24)).
Proof.
  intros Hb Ht Hl Hh Hs Hnz HD Hd. split.
  - rewrite (try_block_baseline _ _ _ _ bv) by assumption. rewrite HD.
    cbn [np_lt]. unfold Rltb, esconstants.FFT_TEST_DIFF_THRESHOLD.
    destruct (Rlt_dec d (5 / 10)); [lra|reflexivity].
  - apply filter_In. split; [apply in_seq; lia|].
    unfold implicated. rewrite Hs, HD, D_same.
    unfold Reqb. destruct (Req_dec_T _ 0) as [E|_]; [contradiction|].
    unfold np_gt. cbn [np_sub np_div]. rewrite fin_div_nonzero by lra.
    cbn [np_lt]. unfold Rltb, esconstants.FFT_POINT_DIFF_THRESHOLD.
    destruct (Rlt_dec _ _) as [_|H]; [reflexivity|exfalso]. apply H.
    replace ((d - 0) / d)%R with 1%R by (field; lra). lra.
Qed.



Lemma base03_component_4 : cabs (nth 4 (fft (values base03)) c0) = 1%R.
Proof.
  unfold base03. rewrite values_int.
  change (map IZR (3 :: 0 :: 0 :: 2 :: repeat 0 20)%Z)
    with (3 :: 0 :: 0 :: 2 :: repeat 0 20)%R.
  rewrite (fft_hours_0_3 3 2).
  replace (3 - 2)%R with 1%R by lra. rewrite cabs_real. apply Rabs_R1.
Qed.

Lemma base0_component_4 : cabs (nth 4 (fft (values base0)) c0) = 1%R.
Proof.
  unfold base0. rewrite values_int.
  change (map IZR (1 :: repeat 0 23)%Z) with (1 :: repeat 0 23)%R.
  rewrite (fft_hour_0 1). rewrite cabs_real. apply Rabs_R1.
Qed.

Ltac dc_value :=
  rewrite dc_magnitude by (cbn; lia);
  cbn [repeat app map total fold_right];
  rewrite Rabs_right; lra.

Lemma base03_dc : cabs (nth 0 (fft (values base03)) c0) = 5%R.
Proof. unfold base03. dc_value. Qed.

Lemma test03_dc : cabs (nth 0 (fft (values test03)) c0) = 2%R.
Proof. unfold test03. dc_value. Qed.

Lemma base0_dc : cabs (nth 0 (fft (values base0)) c0) = 1%R.
Proof. unfold base0. dc_value. Qed.

Lemma test0_dc : cabs (nth 0 (fft (values test0)) c0) = 6%R.
Proof. unfold test0. dc_value. Qed.

(** C8 as stated fails: with fewer events than the baseline, hour 0 of
    [test03] is flagged against [base03]; raising its value from 0 to the
    baseline's 3 brings the metric down to 0, and the hour is no longer
    flagged. *)
Lemma raise_unflags :
  raised test03 base03 0 /\
  (exists s1 ps d,
     try_block 4 "ossec" "5501" test03
       (__init__ {[ "ossec" := {[ "5501" := test03 ]} ]}
                 {[ 4%Z := {[ "ossec" := {[ "5501" := base03 ]} ]} ]} false)
       = Ok (s1, Some ps) /\
     In 0%nat ps /\ _amplitude_diff s1 = Fin d /\ (0 < d)%R) /\
  try_block 4 "ossec" "5501" base03
    (__init__ {[ "ossec" := {[ "5501" := base03 ]} ]}
              {[ 4%Z := {[ "ossec" := {[ "5501" := base03 ]} ]} ]} false)
  = Ok (set_amplitude_diff (Fin 0)
          (__init__ {[ "ossec" := {[ "5501" := base03 ]} ]}
                    {[ 4%Z := {[ "ossec" := {[ "5501" := base03 ]} ]} ]}
                    false),
        None).
Proof.
  assert (Hnz : cabs (nth 4 (fft (values base03)) c0) <> 0%R)
    by (rewrite base03_component_4; lra).
  split; [|split].
  - split; [reflexivity|]. split.
    + unfold test03, base03. rewrite !values_int. cbn. lra.
    + intros [|i] Hi; [congruence|reflexivity].
  - destruct (D_at_least (values test03) (values base03) Hnz)
      as (d & HD & Hd).
    rewrite test03_dc, base03_dc, base03_component_4 in Hd.
    rewrite Rabs_left in Hd by lra.
    assert (Hd5 : (5 / 10 <= d)%R) by lra.
    destruct (single_divergence 4 "ossec" "5501" test03 base03 0
                (__init__ {[ "ossec" := {[ "5501" := test03 ]} ]}
                   {[ 4%Z := {[ "ossec" := {[ "5501" := base03 ]} ]} ]} false)
                d) as [Htry Hin]; try assumption; try reflexivity.
    + lia.
    + eexists _, _, d. split; [exact Htry|]. split; [exact Hin|].
      split; [reflexivity|lra].
  - rewrite (try_block_baseline _ _ _ _ base03);
      [|vm_compute; reflexivity|reflexivity|reflexivity].
    rewrite D_same. unfold Reqb.
    destruct (Req_dec_T _ 0) as [E|_]; [contradiction|].
    cbn [np_lt]. unfold Rltb, esconstants.FFT_TEST_DIFF_THRESHOLD.
    destruct (Rlt_dec 0 (5 / 10)); [reflexivity|lra].
Qed.

Lemma raise_flagged_hour_witness :
  exists s2 ps' d d',
    try_block 4 "ossec" "5501" test0'
      (__init__ {[ "ossec" := {[ "5501" := test0 ]} ]}
                {[ 4%Z := {[ "ossec" := {[ "5501" := base0 ]} ]} ]} false)
      = Ok (s2, Some ps') /\
    In 0%nat ps' /\
    _amplitude_diff
      (set_amplitude_diff (D (values test0) (values base0))
         (__init__ {[ "ossec" := {[ "5501" := test0 ]} ]}
                   {[ 4%Z := {[ "ossec" := {[ "5501" := base0 ]} ]} ]} false))
      = Fin d /\
    _amplitude_diff s2 = Fin d' /\ (d <= d')%R.
Proof.
  assert (Hnz : cabs (nth 4 (fft (values base0)) c0) <> 0%R)
    by (rewrite base0_component_4; lra).
  destruct (D_at_least (values test0) (values base0) Hnz) as (d & HD & Hd).
  rewrite test0_dc, base0_dc, base0_component_4 in Hd.
  rewrite Rabs_right in Hd by lra.
  assert (Hd5 : (5 / 10 <= d)%R) by lra.
  assert (Hb : train_lookup
                 (_train_data
                    (__init__ {[ "ossec" := {[ "5501" := test0 ]} ]}
                       {[ 4%Z := {[ "ossec" := {[ "5501" := base0 ]} ]} ]}
                       false)) 4 "ossec" "5501" = Ok base0)
    by (vm_compute; reflexivity).
  destruct (single_divergence 4 "ossec" "5501" test0 base0 0 _ d Hb
              eq_refl eq_refl ltac:(lia) eq_refl Hnz HD Hd5) as [Htry Hin].
  rewrite <- HD in Htry.
  refine (raise_flagged_hour 4 "ossec" "5501" test0 test0' base0 0 _
            Hb eq_refl eq_refl _ _ _ _ Htry Hin).
  - split; [reflexivity|]. split.
    + unfold test0, test0'. rewrite !values_int. cbn. lra.
    + intros [|i] Hi; [congruence|reflexivity].
  - unfold test0, base0. rewrite !values_int.
    cbn [repeat map total fold_right]. rewrite Rabs_right; lra.
Defined.


(** ** The suricata filter *)

Lemma collect_alerts_nonempty (source alert_hits : list dict) :
  alert_hits <> [] ->
  collect_alerts source alert_hits
  = Some (alert_hits ++ List.filter is_alert source).
Proof.
  revert alert_hits. induction source as [|hit source IH]; intros acc Hacc.
  - cbn. now rewrite app_nil_r.
  - cbn [collect_alerts List.filter]. destruct (is_alert hit).
    + assert (Hne : acc ++ [hit] <> []) by (destruct acc; discriminate).
      destruct (acc ++ [hit]) as [|a l] eqn:E; [congruence|].
      cbn [length Nat.eqb]. rewrite <- E, IH by (rewrite E; discriminate).
      now rewrite <- app_assoc.
    + destruct acc as [|a l]; [congruence|].
      cbn [length Nat.eqb]. now apply IH.
Qed.

(** With an alert first, the loop collects exactly the alert records. *)
Lemma collect_alerts_alert_first (hit : dict) (source : list dict) :
  is_alert hit = true ->
  collect_alerts (hit :: source) []
  = Some (List.filter is_alert (hit :: source)).
Proof.
  intros Hhit. cbn [collect_alerts List.filter]. rewrite Hhit.
  cbn [app length Nat.eqb]. now rewrite collect_alerts_nonempty.
Qed.

(** With another record first, the loop returns at once, whatever
    follows. *)
Lemma collect_alerts_other_first (hit : dict) (source : list dict) :
  is_alert hit = false -> collect_alerts (hit :: source) [] = None.
Proof. intros Hhit. cbn [collect_alerts]. now rewrite Hhit. Qed.

(** C5.  The claim asks that exactly the alert records are counted and that
    the suricata category is left out only when no record of the day is an
    alert.  The code leaves the category out as soon as the first record is
    not an alert: for a flow record followed by an alert record the day has
    no suricata key, for any reading of timestamps and numbers, while the
    same two records with the alert first give the vector of the alert. *)
Theorem suricata_alert_after_flow
    (parse_hour : string -> result nat) (int_of_str : string -> result Z) :
  _count_day parse_hour int_of_str flow_then_alert = Ok [] /\
  _count_day iso_hour decimal alert_then_flow =
    Ok [(KStr "suricata",
         [repeat 0%Z 9 ++ [1%Z] ++ repeat 0%Z 14 ++ [2010935%Z]])].
Proof. split; [reflexivity|vm_compute; reflexivity]. Qed.

(** ** Records without their key or their timestamp *)

Lemma hits_by_key_raised (key : string) (source : list dict) (e : exn) :
  fold_left (hits_by_key_body key) source (Raise e) = Raise e.
Proof. induction source as [|hit source IH]; [reflexivity|exact IH]. Qed.

Lemma hits_by_key_body_no_key (key : string) (g : groups) (hit d : dict) :
  key <> esconstants.KEY_SURICATA_SIG ->
  unwrap hit = Ok d -> dict_get d key = None ->
  hits_by_key_body key (Ok g) hit = Raise KeyError.
Proof.
  intros Hkey Hd Hnone. unfold hits_by_key_body.
  cbn [mbind result_bind bind]. rewrite Hd. cbn [mbind result_bind bind].
  destruct (String.eqb_spec key esconstants.KEY_SURICATA_SIG) as [E|_];
    [contradiction|].
  cbn [mbind result_bind bind]. unfold dict_getitem. now rewrite Hnone.
Qed.

Lemma hits_by_key_no_key (key : string) (source : list dict) (hit d : dict)
    (acc : result groups) :
  In hit source -> key <> esconstants.KEY_SURICATA_SIG ->
  unwrap hit = Ok d -> dict_get d key = None ->
  exists e, fold_left (hits_by_key_body key) source acc = Raise e.
Proof.
  intros Hin Hkey Hd Hnone. revert acc.
  induction source as [|h source IH]; intros acc; [destruct Hin|].
  cbn [fold_left]. destruct Hin as [->|Hin]; [|now apply IH].
  destruct acc as [g|e].
  - rewrite (hits_by_key_body_no_key key g hit d) by assumption.
    exists KeyError. apply hits_by_key_raised.
  - exists e. apply hits_by_key_raised.
Qed.

Section Timestamps.

Variable parse_hour : string -> result nat.
Variable int_of_str : string -> result Z.

Lemma count_hit_raised (hits : list dict) (e : exn) :
  fold_left (count_hit parse_hour) hits (Raise e) = Raise e.
Proof. induction hits as [|h hits IH]; [reflexivity|exact IH]. Qed.

Lemma count_hit_no_timestamp (hits : list dict) (hit : dict)
    (acc : result (list Z)) :
  In hit hits -> dict_get hit esconstants.KEY_ES_TIMESTAMP = None ->
  exists e, fold_left (count_hit parse_hour) hits acc = Raise e.
Proof.
  intros Hin Hnone. revert acc.
  induction hits as [|h hits IH]; intros acc; [destruct Hin|].
  cbn [fold_left]. destruct Hin as [->|Hin]; [|now apply IH].
  destruct acc as [row|e].
  - exists KeyError. unfold count_hit at 2. cbn [mbind result_bind bind].
    unfold dict_getitem. rewrite Hnone. apply count_hit_raised.
  - exists e. apply count_hit_raised.
Qed.

Lemma count_row_raised (hits_type : groups) (e : exn) :
  fold_left (count_row parse_hour int_of_str) hits_type (Raise e) = Raise e.
Proof. induction hits_type as [|h l IH]; [reflexivity|exact IH]. Qed.

Lemma hourly_counts_no_timestamp (hits_type : groups) (atype : hkey)
    (hits : list dict) (hit : dict) (acc : result (list (list Z))) :
  In (atype, hits) hits_type -> In hit hits ->
  dict_get hit esconstants.KEY_ES_TIMESTAMP = None ->
  exists e,
    fold_left (count_row parse_hour int_of_str) hits_type acc = Raise e.
Proof.
  intros Hin Hhit Hnone. revert acc.
  induction hits_type as [|entry l IH]; intros acc; [destruct Hin|].
  cbn [fold_left]. destruct Hin as [->|Hin]; [|now apply IH].
  destruct acc as [m|e].
  - destruct (count_hit_no_timestamp hits hit
                (Ok (repeat 0%Z esconstants.NUM_BUCKETS)) Hhit Hnone)
      as [e He].
    exists e. unfold count_row at 2. cbn [mbind result_bind bind fst snd].
    rewrite He. apply count_row_raised.
  - exists e. apply count_row_raised.
Qed.

End Timestamps.

(** C6 as stated fails: the well-formed record alone gives its vector; with
    a second record that has no rule number, or no timestamp, the day's
    normalization raises [KeyError] and gives nothing. *)
Lemma malformed_record_aborts_day :
  _count_day iso_hour decimal day_well_formed =
    Ok [(KStr "ossec", [repeat 0%Z 9 ++ [1%Z] ++ repeat 0%Z 14 ++ [5501%Z]])]
  /\ _count_day iso_hour decimal day_without_rule = Raise KeyError
  /\ _count_day iso_hour decimal day_without_timestamp = Raise KeyError.
Proof. repeat split; vm_compute; reflexivity. Qed.


(** ** The percentile band *)

(** The sort keeps the length and puts the values in ascending order. *)
Lemma insert_sorted_length (x : Q) (l : list Q) :
  length (insert_sorted x l) = S (length l).
Proof.
  induction l as [|y l IH]; [reflexivity|]. cbn [insert_sorted].
  destruct (Qle_bool x y); cbn [length]; [reflexivity|now rewrite IH].
Qed.

Lemma length_sort (l : list Q) : length (sort l) = length l.
Proof.
  induction l as [|x l IH]; [reflexivity|].
  cbn [sort fold_right]. fold (sort l).
  now rewrite insert_sorted_length, IH.
Qed.

Lemma insert_sorted_ascending (x : Q) (l : list Q) :
  ascending l -> ascending (insert_sorted x l).
Proof.
  unfold ascending. induction l as [|y l IH]; intros Hl.
  - intros [|[|i]] [|[|j]] Hij Hj; cbn in *; try lia. apply Qle_refl.
  - cbn [insert_sorted]. destruct (Qle_bool x y) eqn:E.
    + apply Qle_bool_iff in E.
      intros [|i] [|j] Hij Hj; cbn [nth length] in *; try lia.
      * apply Qle_refl.
      * apply Qle_trans with y; [exact E|].
        apply (Hl 0%nat j); [lia|cbn [length]; lia].
      * apply (Hl i j); [lia|cbn [length]; lia].
    + assert (Hyx : (y <= x)%Q).
      { destruct (Qlt_le_dec y x) as [H|H]; [now apply Qlt_le_weak|].
        apply Qle_bool_iff in H. congruence. }
      assert (Htail : forall i j, (i <= j)%nat -> (j < length l)%nat ->
                        (nth i l 0 <= nth j l 0)%Q).
      { intros i j Hij Hj. apply (Hl (S i) (S j)); cbn [length]; lia. }
      specialize (IH Htail).
      assert (Hy : forall j, (j < length (insert_sorted x l))%nat ->
                     (y <= nth j (insert_sorted x l) 0)%Q).
      { intros j Hj.
        assert (Hin : In (nth j (insert_sorted x l) 0%Q) (insert_sorted x l))
          by (now apply nth_In).
        assert (Hmem : forall z l', In z (insert_sorted x l') ->
                         z = x \/ In z l').
        { intros z l'. induction l' as [|w l' IH']; cbn [insert_sorted].
          - intros [<-|[]]. now left.
          - destruct (Qle_bool x w).
            + intros [<-|H]; [now left|now right].
            + intros [<-|H]; [right; now left|].
              destruct (IH' H) as [->|H']; [now left|right; now right]. }
        destruct (Hmem _ _ Hin) as [->|Hl']; [exact Hyx|].
        apply In_nth with (d := 0%Q) in Hl'. destruct Hl' as (k & Hk & <-).
        apply (Hl 0%nat (S k)); cbn [length]; lia. }
      intros [|i] [|j] Hij Hj; cbn [nth length] in *; try lia.
      * apply Qle_refl.
      * apply Hy. lia.
      * apply IH; lia.
Qed.

Lemma sort_ascending (l : list Q) : ascending (sort l).
Proof.
  induction l as [|x l IH].
  - intros i j Hij Hj. cbn in Hj. lia.
  - cbn [sort fold_right]. fold (sort l). now apply insert_sorted_ascending.
Qed.


Lemma interpolation_between (a b g : Q) :
  (a <= b)%Q -> (0 <= g)%Q -> (g <= 1)%Q ->
  (a <= a + (b - a) * g)%Q /\ (a + (b - a) * g <= b)%Q.
Proof. intros Hab H0 H1. split; nra. Qed.

Lemma interpolation_monotone (a b g g' : Q) :
  (a <= b)%Q -> (g <= g')%Q ->
  (a + (b - a) * g <= a + (b - a) * g')%Q.
Proof. intros Hab Hg. nra. Qed.

(** The rank a percentile falls on. *)
Lemma percentile_rank (n : nat) (q : Q) :
  (0 <= q)%Q -> (q <= 100)%Q ->
  let idx := (q / 100 * inject_Z (Z.of_nat n))%Q in
  (0 <= idx)%Q /\ (idx <= inject_Z (Z.of_nat n))%Q /\
  (0 <= Qfloor idx)%Z /\ (Z.to_nat (Qfloor idx) <= n)%nat /\
  (0 <= idx - inject_Z (Qfloor idx))%Q /\
  (idx - inject_Z (Qfloor idx) <= 1)%Q.
Proof.
  intros H0 H100 idx.
  assert (Hn : (0 <= inject_Z (Z.of_nat n))%Q).
  { change 0%Q with (inject_Z 0). rewrite <- Zle_Qle. lia. }
  assert (Hq : (0 <= q / 100)%Q /\ (q / 100 <= 1)%Q).
  { split.
    - apply Qle_shift_div_l; [reflexivity|]. now rewrite Qmult_0_l.
    - apply Qle_shift_div_r; [reflexivity|]. now rewrite Qmult_1_l. }
  assert (Hidx0 : (0 <= idx)%Q) by (unfold idx; nra).
  assert (Hidxn : (idx <= inject_Z (Z.of_nat n))%Q) by (unfold idx; nra).
  assert (Hf0 : (0 <= Qfloor idx)%Z).
  { change 0%Z with (Qfloor (inject_Z 0)). now apply Qfloor_resp_le. }
  assert (Hfn : (Qfloor idx <= Z.of_nat n)%Z).
  { rewrite <- (Qfloor_Z (Z.of_nat n)). now apply Qfloor_resp_le. }
  pose proof (Qfloor_le idx) as Hle. pose proof (Qlt_floor idx) as Hlt.
  rewrite inject_Z_plus in Hlt.
  repeat split; try assumption; try lia.
  - lra.
  - change (inject_Z 1) with 1%Q in Hlt. lra.
Qed.

Lemma percentile_of_sorted_monotone (s : list Q) (q1 q2 : Q) :
  ascending s -> s <> [] ->
  (0 <= q1)%Q -> (q1 <= q2)%Q -> (q2 <= 100)%Q ->
  (percentile_of_sorted s q1 <= percentile_of_sorted s q2)%Q.
Proof.
  intros Hs Hne H0 H12 H100.
  assert (Hlen : (0 < length s)%nat) by (destruct s; [congruence|cbn; lia]).
  unfold percentile_of_sorted.
  set (n := (length s - 1)%nat).
  destruct (percentile_rank n q1 H0 ltac:(lra)) as (_ & _ & Hf1 & Hl1 & Hg1 & Hg1').
  destruct (percentile_rank n q2 ltac:(lra) H100) as (_ & _ & Hf2 & Hl2 & Hg2 & Hg2').
  cbv zeta in *.
  set (idx1 := (q1 / 100 * inject_Z (Z.of_nat n))%Q) in *.
  set (idx2 := (q2 / 100 * inject_Z (Z.of_nat n))%Q) in *.
  assert (Hidx : (idx1 <= idx2)%Q).
  { unfold idx1, idx2.
    assert (Hn : (0 <= inject_Z (Z.of_nat n))%Q).
    { change 0%Q with (inject_Z 0). rewrite <- Zle_Qle. lia. }
    assert ((q1 / 100 <= q2 / 100)%Q).
    { unfold Qdiv. apply Qmult_le_compat_r; [exact H12|discriminate]. }
    nra. }
  assert (Hfl : (Qfloor idx1 <= Qfloor idx2)%Z) by (now apply Qfloor_resp_le).
  set (lo1 := Z.to_nat (Qfloor idx1)) in *.
  set (lo2 := Z.to_nat (Qfloor idx2)) in *.
  assert (Hlo : (lo1 <= lo2)%nat) by (unfold lo1, lo2; lia).
  assert (Hab1 : (nth lo1 s 0 <= nth (Nat.min (lo1 + 1) n) s 0)%Q)
    by (apply Hs; unfold n in *; lia).
  assert (Hab2 : (nth lo2 s 0 <= nth (Nat.min (lo2 + 1) n) s 0)%Q)
    by (apply Hs; unfold n in *; lia).
  destruct (decide (lo1 = lo2)) as [E|Hlt].
  - assert (EZ : Qfloor idx1 = Qfloor idx2) by (unfold lo1, lo2 in E; lia).
    rewrite <- E, <- EZ.
    apply interpolation_monotone; [exact Hab1|lra].
  - destruct (interpolation_between _ _ _ Hab1 Hg1 Hg1') as [_ Hup].
    destruct (interpolation_between _ _ _ Hab2 Hg2 Hg2') as [Hdown _].
    assert (Hmid : (nth (Nat.min (lo1 + 1) n) s 0 <= nth lo2 s 0)%Q)
      by (apply Hs; unfold n in *; lia).
    eapply Qle_trans; [exact Hup|]. eapply Qle_trans; [exact Hmid|exact Hdown].
Qed.

(** The band of [numpy.percentile] is in order. *)
Lemma percentile_ordered (a : list Q) (band : Q * Q) :
  percentile a = Ok band -> (fst band <= snd band)%Q.
Proof.
  unfold percentile. destruct a as [|x a]; [discriminate|].
  intros H. injection H as <-. cbn [fst snd].
  apply percentile_of_sorted_monotone.
  - exact (sort_ascending (x :: a)).
  - intros E. pose proof (length_sort (x :: a)) as Hlen.
    change (sort (x :: a)) with (insert_sorted x (sort a)) in Hlen.
    rewrite E in Hlen. discriminate.
  - discriminate.
  - discriminate.
  - discriminate.
Qed.


(** ** The clip pass *)

Lemma insert_middle {A : Type} (pre post : list A) (x y : A) :
  <[length pre := y]> (pre ++ x :: post) = pre ++ y :: post.
Proof.
  rewrite insert_app_r_alt by lia. now rewrite Nat.sub_diag.
Qed.

Lemma nth_middle' {A : Type} (pre post : list A) (x d : A) :
  nth (length pre) (pre ++ x :: post) d = x.
Proof. induction pre as [|a pre IH]; cbn; [reflexivity|exact IH]. Qed.

Lemma clip_float_from (low high : Q) (l pre : list Q) :
  fold_left (clip_slot low high) (seq (length pre) (length l))
            (FloatArr (pre ++ l))
  = FloatArr (pre ++ map (clamp_float low high) l).
Proof.
  revert pre. induction l as [|x l IH]; intros pre; [reflexivity|].
  cbn [length seq fold_left map].
  assert (E : clip_slot low high (FloatArr (pre ++ x :: l)) (length pre)
              = FloatArr ((pre ++ [clamp_float low high x]) ++ l)).
  { unfold clip_slot, clamp_float. rewrite nth_middle'.
    rewrite <- app_assoc. cbn [app].
    destruct (Qlt_bool x low); [now rewrite insert_middle|].
    destruct (Qlt_bool high x); [now rewrite insert_middle|reflexivity]. }
  rewrite E.
  replace (S (length pre)) with (length (pre ++ [clamp_float low high x]))
    by (rewrite length_app; cbn; lia).
  rewrite IH. now rewrite <- app_assoc.
Qed.

Lemma clip_int_from (low high : Q) (l pre : list Z) :
  fold_left (clip_slot low high) (seq (length pre) (length l))
            (IntArr (pre ++ l))
  = IntArr (pre ++ map (clamp_int low high) l).
Proof.
  revert pre. induction l as [|x l IH]; intros pre; [reflexivity|].
  cbn [length seq fold_left map].
  assert (E : clip_slot low high (IntArr (pre ++ x :: l)) (length pre)
              = IntArr ((pre ++ [clamp_int low high x]) ++ l)).
  { unfold clip_slot, clamp_int. rewrite nth_middle'.
    rewrite <- app_assoc. cbn [app].
    destruct (Qlt_bool (inject_Z x) low); [now rewrite insert_middle|].
    destruct (Qlt_bool high (inject_Z x)); [now rewrite insert_middle|].
    reflexivity. }
  rewrite E.
  replace (S (length pre)) with (length (pre ++ [clamp_int low high x]))
    by (rewrite length_app; cbn; lia).
  rewrite IH. now rewrite <- app_assoc.
Qed.

(** The clip pass on an array, slot by slot. *)
Lemma clip_slots (band : Q * Q) (v : ndarray) :
  clip band v =
  match v with
  | IntArr l => IntArr (map (clamp_int (fst band) (snd band)) l)
  | FloatArr l => FloatArr (map (clamp_float (fst band) (snd band)) l)
  end.
Proof.
  unfold clip. destruct v as [l|l]; cbn [len].
  - exact (clip_int_from (fst band) (snd band) l []).
  - exact (clip_float_from (fst band) (snd band) l []).
Qed.

Lemma Qlt_bool_false (x y : Q) : Qlt_bool x y = false -> (y <= x)%Q.
Proof.
  unfold Qlt_bool. intros H. apply negb_false_iff in H.
  now apply Qle_bool_iff.
Qed.

Lemma clamp_float_in_band (band : Q * Q) (x : Q) :
  (fst band <= snd band)%Q ->
  in_band band (clamp_float (fst band) (snd band) x).
Proof.
  intros Hband. unfold clamp_float, in_band.
  destruct (Qlt_bool x (fst band)) eqn:E1; [split; [apply Qle_refl|exact Hband]|].
  destruct (Qlt_bool (snd band) x) eqn:E2; [split; [exact Hband|apply Qle_refl]|].
  split; now apply Qlt_bool_false.
Qed.

(** A [float64] array is within the band after the clip pass. *)
Lemma clip_float_in_band (band : Q * Q) (l l' : list Q) :
  (fst band <= snd band)%Q ->
  clip band (FloatArr l) = FloatArr l' ->
  Forall (in_band band) l'.
Proof.
  intros Hband. rewrite clip_slots. intros H. injection H as <-.
  apply List.Forall_forall. intros y Hy. apply in_map_iff in Hy.
  destruct Hy as (x & <- & _). now apply clamp_float_in_band.
Qed.



(** ** The passes of [data_clean] *)

Lemma for_each_lookup {K : Type} `{Countable K} {A B : Type}
    (f : K -> A -> result B) (init : gmap K B) (m : gmap K A)
    (out : gmap K B) :
  for_each f init m = Ok out ->
  forall k,
    match m !! k with
    | Some v => exists b, f k v = Ok b /\ out !! k = Some b
    | None => out !! k = init !! k
    end.
Proof.
  unfold for_each. revert out.
  apply (map_fold_weak_ind (fun r m =>
    forall out, r = Ok out ->
    forall k, match m !! k with
              | Some v => exists b, f k v = Ok b /\ out !! k = Some b
              | None => out !! k = init !! k
              end)).
  - intros out [= <-] k. now rewrite lookup_empty.
  - intros i x m' r Hi IH out Hout k.
    destruct r as [out0|e]; [|discriminate].
    cbn [mbind result_bind bind] in Hout.
    destruct (f i x) as [b|e] eqn:Ef; [|discriminate].
    cbn [mbind result_bind bind] in Hout. injection Hout as <-.
    specialize (IH out0 eq_refl k).
    destruct (decide (k = i)) as [->|Hne].
    + rewrite !lookup_insert_eq. eauto.
    + rewrite !lookup_insert_ne by congruence. exact IH.
Qed.

(** Every band of [trim_data] is in order. *)
Lemma trim_ordered agg_data trim_data tk st band :
  trim agg_data = Ok trim_data ->
  trim_lookup trim_data tk st = Ok band ->
  (fst band <= snd band)%Q.
Proof.
  intros Htrim Hband. unfold trim_lookup in Hband.
  destruct (trim_data !! tk) as [t|] eqn:Et; [|discriminate].
  destruct (t !! st) as [b|] eqn:Eb; [|discriminate].
  injection Hband as ->.
  pose proof (for_each_lookup _ _ _ _ Htrim tk) as H1.
  destruct (agg_data !! tk) as [by_subtype|].
  - destruct H1 as (t' & Ht' & Et'). rewrite Et in Et'. injection Et' as <-.
    pose proof (for_each_lookup _ _ _ _ Ht' st) as H2.
    destruct (by_subtype !! st) as [a|].
    + destruct H2 as (b' & Hb' & Eb'). rewrite Eb in Eb'. injection Eb' as <-.
      destruct (averaged a) as [v|e]; [|discriminate].
      now apply (percentile_ordered v).
    + rewrite lookup_empty in H2. congruence.
  - rewrite lookup_empty in H1. congruence.
Qed.

(** The last pass clips every vector with the band of its pair. *)
Lemma haircut_lookup trim_data train train' day tk st v' :
  haircut trim_data train = Ok train' ->
  train_lookup train' day tk st = Ok v' ->
  exists v band,
    train_lookup train day tk st = Ok v /\
    trim_lookup trim_data tk st = Ok band /\
    v' = clip band v.
Proof.
  intros Hcut Hv'. unfold train_lookup in *.
  destruct (train' !! day) as [bt'|] eqn:E1; [|discriminate].
  destruct (bt' !! tk) as [bs'|] eqn:E2; [|discriminate].
  destruct (bs' !! st) as [w|] eqn:E3; [|discriminate].
  injection Hv' as ->.
  pose proof (for_each_lookup _ _ _ _ Hcut day) as H1.
  destruct (train !! day) as [bt|]; [|congruence].
  destruct H1 as (b1 & Hb1 & Eb1). rewrite E1 in Eb1. injection Eb1 as <-.
  pose proof (for_each_lookup _ _ _ _ Hb1 tk) as H2.
  destruct (bt !! tk) as [bs|]; [|congruence].
  destruct H2 as (b2 & Hb2 & Eb2). rewrite E2 in Eb2. injection Eb2 as <-.
  pose proof (for_each_lookup _ _ _ _ Hb2 st) as H3.
  destruct (bs !! st) as [v|]; [|congruence].
  destruct H3 as (b3 & Hb3 & Eb3). rewrite E3 in Eb3. injection Eb3 as <-.
  destruct (trim_lookup trim_data tk st) as [band|e] eqn:Eband;
    [|discriminate].
  cbn [mbind result_bind bind] in Hb3. injection Hb3 as <-.
  exists v, band. auto.
Qed.

(** After [data_clean] the band of every pair is in order, and every
    [float64] vector of the training data lies within the band of its
    pair. *)
Lemma data_clean_float_in_band self self' day tk st l' :
  data_clean self = Ok self' ->
  train_lookup (_train_data self') day tk st = Ok (FloatArr l') ->
  exists agg_data trim_data band,
    aggregate (_train_data self) = Ok agg_data /\
    trim agg_data = Ok trim_data /\
    trim_lookup trim_data tk st = Ok band /\
    (fst band <= snd band)%Q /\
    Forall (in_band band) l'.
Proof.
  unfold data_clean. intros Hclean Hv'.
  destruct (aggregate (_train_data self)) as [agg_data|e]; [|discriminate].
  cbn [mbind result_bind bind] in Hclean.
  destruct (trim agg_data) as [trim_data|e] eqn:Etrim; [|discriminate].
  cbn [mbind result_bind bind] in Hclean.
  destruct (haircut trim_data (_train_data self)) as [train'|e] eqn:Ecut;
    [|discriminate].
  cbn [mbind result_bind bind] in Hclean. injection Hclean as <-.
  cbn [_train_data] in Hv'.
  destruct (haircut_lookup _ _ _ _ _ _ _ Ecut Hv') as (v & band & Hv & Hb & Hc).
  pose proof (trim_ordered _ _ _ _ _ Etrim Hb) as Hord.
  exists agg_data, trim_data, band. repeat split; try assumption; try reflexivity.
  destruct v as [l|l]; [rewrite clip_slots in Hc; discriminate Hc|].
  symmetry in Hc. now apply (clip_float_in_band band l l').
Qed.

(** C4.  The claim asks that after [data_clean] every value of every
    historical vector lies within the band of its pair.  The band is in
    order and a [float64] vector does lie within it ([trim_ordered],
    [data_clean_float_in_band]), but the clip pass stores the ends of the
    band into [int] arrays, which cuts them to integers: for the single day
    [[0, 1, ..., 1]] the band is [(0.23, 1)], the value 0 of hour 0 is
    replaced by 0.23 cut to 0, and stays below the band.  Next to it, the
    averaged vector of [two_days] ends within its band [(0.4025, 1.75)]. *)
Theorem clip_keeps_int_below_band :
  (agg_data ← aggregate single_day; trim_data ← trim agg_data;
   trim_lookup trim_data "ossec" "5501") = Ok (23 # 100, 100 # 100)%Q /\
  (self ← data_clean (__init__ ∅ single_day false);
   train_lookup (_train_data self) 0 "ossec" "5501")
    = Ok (IntArr (0 :: repeat 1 23)%Z) /\
  ~ in_band (23 # 100, 100 # 100)%Q (inject_Z 0) /\
  (self ← data_clean (__init__ ∅ two_days false);
   train_lookup (_train_data self) 1 "ossec" "5501")
    = Ok (FloatArr (repeat (644 # 1600) 1 ++ repeat (11200 # 6400) 23)%Q).
Proof.
  split; [vm_compute; reflexivity|].
  split; [vm_compute; reflexivity|].
  split; [|vm_compute; reflexivity].
  intros [H _]. vm_compute in H. apply H. reflexivity.
Qed.

(** ** What a run reports *)

Lemma filter_seq_sorted (p : nat -> bool) (a n : nat) :
  StronglySorted lt (List.filter p (seq a n)).
Proof.
  revert a. induction n as [|n IH]; intros a; cbn [seq List.filter].
  - constructor.
  - destruct (p a); [|apply IH].
    constructor; [apply IH|].
    apply List.Forall_forall. intros x Hx.
    apply filter_In in Hx as [Hx _]. apply in_seq in Hx. lia.
Qed.

Lemma verdict_hours train day tk st tv ps :
  len tv = 24%nat ->
  verdict train day tk st tv = Some ps ->
  StronglySorted lt ps /\ List.Forall (fun h => h < 24)%nat ps /\
  (forall bv, train_lookup train day tk st = Ok bv -> ps <> []).
Proof.
  intros Ht. unfold verdict, hit_hours.
  destruct (train_lookup train day tk st) as [bv|e].
  - destruct (np_lt _ _); [discriminate|].
    destruct (List.filter (implicated tv bv) (seq 0 24)) as [|p l] eqn:E;
      [discriminate|].
    intros [= <-]. rewrite <- E. split; [apply filter_seq_sorted|].
    split.
    + apply List.Forall_forall. intros x Hx.
      apply filter_In in Hx as [Hx _]. apply in_seq in Hx. lia.
    + intros _ _. rewrite E. discriminate.
  - intros [= <-]. rewrite Ht. split; [apply filter_seq_sorted|].
    split; [|intros bv Hbv; discriminate Hbv].
    apply List.Forall_forall. intros x Hx.
    apply filter_In in Hx as [Hx _]. apply in_seq in Hx. lia.
Qed.

(** X1.  After a run on 24-slot vectors, every list in the outlier record
    holds hours below 24, in strictly ascending order; the list of a pair
    that has a baseline is never empty. *)
Theorem recorded_hours_are_valid now self :
  hourly self (weekday (now - esconstants.TEST_DAY)) ->
  exists self',
    outlier_detection now self = Ok self' /\
    forall tk st ps,
      lookup2 (outliers self') tk st = Some ps ->
      StronglySorted lt ps /\ List.Forall (fun h => h < 24)%nat ps /\
      (forall bv,
         train_lookup (_train_data self)
           (weekday (now - esconstants.TEST_DAY)) tk st = Ok bv ->
         ps <> []).
Proof.
  intros Hwf.
  destruct (outlier_detection_verdicts now self Hwf)
    as (self' & Hrun & _ & _ & _ & Hout).
  exists self'. split; [exact Hrun|].
  intros tk st ps Hps. rewrite Hout in Hps.
  destruct (lookup2 (test_data self) tk st) as [tv|] eqn:Etv;
    [|discriminate Hps].
  cbn [mbind option_bind] in Hps.
  destruct (Hwf tk st tv Etv) as [Ht _].
  now apply (verdict_hours _ _ _ _ tv).
Qed.

(** X2.  A run on 24-slot vectors leaves the test data and the training
    data as they were, records pairs of the test data only, and ends with
    the flag set exactly when the outlier record has an entry. *)
Theorem flag_iff_recorded now self :
  hourly self (weekday (now - esconstants.TEST_DAY)) ->
  exists self',
    outlier_detection now self = Ok self' /\
    test_data self' = test_data self /\
    _train_data self' = _train_data self /\
    (outliers_flag self' = true <->
       exists tk st ps, lookup2 (outliers self') tk st = Some ps) /\
    (forall tk st ps,
       lookup2 (outliers self') tk st = Some ps ->
       exists tv, lookup2 (test_data self) tk st = Some tv).
Proof.
  intros Hwf.
  destruct (outlier_detection_verdicts now self Hwf)
    as (self' & Hrun & Htest & Htrain & Hflag & Hout).
  exists self'. split; [exact Hrun|]. split; [exact Htest|].
  split; [exact Htrain|]. split.
  - rewrite Hflag. split.
    + intros (tk & st & tv & Htv & [ps Hps]). exists tk, st, ps.
      rewrite Hout, Htv. exact Hps.
    + intros (tk & st & ps & Hps). rewrite Hout in Hps.
      destruct (lookup2 (test_data self) tk st) as [tv|] eqn:Etv;
        [|discriminate Hps].
      exists tk, st, tv. split; [exact Etv|]. now exists ps.
  - intros tk st ps Hps. rewrite Hout in Hps.
    destruct (lookup2 (test_data self) tk st) as [tv|];
      [now exists tv|discriminate Hps].
Qed.

Lemma friday_run_hourly :
  hourly friday_run (weekday (735685 - esconstants.TEST_DAY)).
Proof.
  apply hourly_singleton. split; [reflexivity|].
  intros bv H. vm_compute in H. injection H as <-. reflexivity.
Qed.

Lemma recorded_hours_are_valid_witness :
  exists self',
    outlier_detection 735685 friday_run = Ok self' /\
    forall tk st ps,
      lookup2 (outliers self') tk st = Some ps ->
      StronglySorted lt ps /\ List.Forall (fun h => h < 24)%nat ps /\
      (forall bv,
         train_lookup (_train_data friday_run)
           (weekday (735685 - esconstants.TEST_DAY)) tk st = Ok bv ->
         ps <> []).
Proof. exact (recorded_hours_are_valid 735685 friday_run friday_run_hourly). Defined.

Lemma flag_iff_recorded_witness :
  exists self',
    outlier_detection 735685 friday_run = Ok self' /\
    test_data self' = test_data friday_run /\
    _train_data self' = _train_data friday_run /\
    (outliers_flag self' = true <->
       exists tk st ps, lookup2 (outliers self') tk st = Some ps) /\
    (forall tk st ps,
       lookup2 (outliers self') tk st = Some ps ->
       exists tv, lookup2 (test_data friday_run) tk st = Some tv).
Proof. exact (flag_iff_recorded 735685 friday_run friday_run_hourly). Defined.

(** ** The distance on short, scaled and constant inputs *)

Lemma amplitude_loop_raised (T B : list complex) (l : list nat) (e : exn) :
  fold_left (amplitude_step T B) l (Raise e) = Raise e.
Proof. induction l as [|i l IH]; [reflexivity|exact IH]. Qed.

Lemma amplitude_loop_short (T B : list complex) (l : list nat)
    (acc : list R * R) :
  (exists i, In i l /\ (length T <= i \/ length B <= i)%nat) ->
  fold_left (amplitude_step T B) l (Ok acc) = Raise IndexError.
Proof.
  revert acc. induction l as [|j l IH]; intros acc (i & Hin & Hi).
  - destruct Hin.
  - cbn [fold_left]. unfold amplitude_step at 2.
    cbn [mbind result_bind bind]. destruct acc as [fd w].
    unfold getitem.
    destruct (nth_error T j) as [t|] eqn:ET;
      [|cbn [mbind result_bind bind]; apply amplitude_loop_raised].
    cbn [mbind result_bind bind].
    destruct (nth_error B j) as [b|] eqn:EB;
      [|cbn [mbind result_bind bind]; apply amplitude_loop_raised].
    cbn [mbind result_bind bind]. apply IH.
    destruct Hin as [->|Hin]; [|eauto].
    exfalso. destruct Hi as [Hi|Hi].
    + apply nth_error_None in Hi. congruence.
    + apply nth_error_None in Hi. congruence.
Qed.

Lemma amplitude_diff_needs_five_short (test train : list complex) :
  (length test < 5 \/ length train < 5)%nat ->
  _fft_amplitude_diff test train = Raise IndexError.
Proof.
  intros Hshort. unfold _fft_amplitude_diff.
  rewrite amplitude_loop_short; [reflexivity|].
  destruct Hshort as [H|H].
  - exists 4%nat. split; [cbn; tauto|left; lia].
  - exists 4%nat. split; [cbn; tauto|right; lia].
Qed.

(** X4.  [_fft_amplitude_diff] raises [IndexError] exactly when one of the
    two spectra has fewer than five components; otherwise it returns a
    value that is never negative and never minus infinity. *)
Theorem amplitude_diff_needs_five (test train : list complex) :
  (_fft_amplitude_diff test train = Raise IndexError <->
   (length test < 5 \/ length train < 5)%nat) /\
  ((5 <= length test)%nat -> (5 <= length train)%nat ->
   exists d, _fft_amplitude_diff test train = Ok d /\ d <> NInf /\
             forall x, d = Fin x -> (0 <= x)%R).
Proof.
  assert (Hok : (5 <= length test)%nat -> (5 <= length train)%nat ->
                exists d, _fft_amplitude_diff test train = Ok d /\ d <> NInf /\
                          forall x, d = Fin x -> (0 <= x)%R).
  { intros Ht Hb. rewrite amplitude_diff_distance by assumption.
    eexists. split; [reflexivity|].
    unfold distance. cbn [Nat.sub].
    pose proof (weighted_sum_nonneg 5 test train) as Hws.
    pose proof (cabs_nonneg (nth 4 train c0)) as Hb4.
    assert (H5 : (0 <= weighted_sum 5 2 test train / INR 5)%R).
    { apply Rmult_le_pos; [exact Hws|]. simpl. lra. }
    unfold fin_div, Reqb, Rltb.
    destruct (Req_dec_T _ 0) as [E|E].
    - destruct (Rlt_dec 0 _); [split; [discriminate|intros x Hx; discriminate Hx]|].
      destruct (Rlt_dec _ 0); [lra|].
      split; [discriminate|intros x Hx; discriminate Hx].
    - split; [discriminate|]. intros x [= <-].
      apply Rmult_le_pos; [exact H5|]. left. apply Rinv_0_lt_compat. lra. }
  split; [|exact Hok]. split.
  - intros Hraise.
    destruct (le_lt_dec 5 (length test)) as [Ht|Ht]; [|now left].
    destruct (le_lt_dec 5 (length train)) as [Hb|Hb]; [|now right].
    destruct (Hok Ht Hb) as (d & Hd & _). congruence.
  - apply amplitude_diff_needs_five_short.
Qed.

Lemma amplitude_diff_needs_five_witness :
  exists d, _fft_amplitude_diff [c0; c0; c0; c0; c0] [c0; c0; c0; c0; c0]
            = Ok d /\ d <> NInf /\ forall x, d = Fin x -> (0 <= x)%R.
Proof.
  apply (proj2 (amplitude_diff_needs_five [c0; c0; c0; c0; c0]
                  [c0; c0; c0; c0; c0])); cbn; lia.
Defined.

Lemma csum_scale (c : R) (f : nat -> complex) (l : list nat) :
  csum (map (fun k => cscale c (f k)) l) = cscale c (csum (map f l)).
Proof.
  induction l as [|k l IH].
  - unfold cscale. cbn. f_equal; ring.
  - cbn [map csum fold_right] in *. fold (csum (map f l)).
    fold (csum (map (fun k => cscale c (f k)) l)). rewrite IH.
    unfold cscale, cadd. cbn [fst snd]. f_equal; ring.
Qed.

Lemma fft_scale (c : R) (x : list R) :
  fft (map (Rmult c) x) = map (cscale c) (fft x).
Proof.
  unfold fft. rewrite length_map, map_map.
  apply map_ext. intros j. rewrite <- csum_scale. f_equal.
  apply map_ext. intros k.
  replace (nth k (map (Rmult c) x) 0%R) with (c * nth k x 0)%R.
  - unfold cscale, cmul, of_real. cbn [fst snd]. f_equal; ring.
  - rewrite <- (Rmult_0_r c) at 2. symmetry. apply map_nth.
Qed.

Lemma cabs_scale (c : R) (z : complex) :
  (0 <= c)%R -> cabs (cscale c z) = (c * cabs z)%R.
Proof.
  intros Hc. unfold cabs, cscale. cbn [fst snd].
  replace (c * fst z * (c * fst z) + c * snd z * (c * snd z))%R
    with (Rsqr c * (fst z * fst z + snd z * snd z))%R
    by (unfold Rsqr; ring).
  rewrite sqrt_mult_alt by apply Rle_0_sqr.
  now rewrite sqrt_Rsqr.
Qed.

Lemma nth_scale (c : R) (l : list complex) (k : nat) :
  nth k (map (cscale c) l) c0 = cscale c (nth k l c0).
Proof.
  replace c0 with (cscale c c0) at 1.
  - apply map_nth.
  - unfold cscale, c0. cbn. f_equal; ring.
Qed.

Lemma weighted_sum_scale (c : R) (K : nat) (T B : list complex) :
  (0 <= c)%R ->
  weighted_sum K 2 (map (cscale c) T) (map (cscale c) B)
  = (c * weighted_sum K 2 T B)%R.
Proof.
  intros Hc. unfold weighted_sum.
  induction (seq 0 K) as [|k l IH]; cbn [map fold_right]; [ring|].
  rewrite IH, !nth_scale, !cabs_scale by exact Hc.
  replace (c * cabs (nth k T c0) - c * cabs (nth k B c0))%R
    with (c * (cabs (nth k T c0) - cabs (nth k B c0)))%R by ring.
  rewrite Rabs_mult, (Rabs_right c) by lra.
  unfold Rdiv. ring.
Qed.

Lemma distance_scale (c : R) (T B : list complex) :
  (0 < c)%R ->
  distance 5 2 (map (cscale c) T) (map (cscale c) B) = distance 5 2 T B.
Proof.
  intros Hc. unfold distance.
  rewrite weighted_sum_scale, nth_scale, cabs_scale by lra.
  cbn [Nat.sub].
  pose proof (weighted_sum_nonneg 5 T B) as Hws.
  set (s := weighted_sum 5 2 T B) in *. set (b := cabs (nth 4 B c0)).
  assert (H5 : (0 < / INR 5)%R) by (apply Rinv_0_lt_compat; simpl; lra).
  unfold fin_div, Reqb, Rltb.
  destruct (Req_dec_T (c * b) 0) as [E|E], (Req_dec_T b 0) as [E'|E'].
  - assert (Hs : (0 < c * s / INR 5 <-> 0 < s / INR 5)%R).
    { unfold Rdiv. split; intros H; nra. }
    assert (Hs' : (c * s / INR 5 < 0 <-> s / INR 5 < 0)%R).
    { unfold Rdiv. split; intros H; nra. }
    destruct (Rlt_dec 0 (c * s / INR 5)), (Rlt_dec 0 (s / INR 5));
      try tauto.
    destruct (Rlt_dec (c * s / INR 5) 0), (Rlt_dec (s / INR 5) 0); tauto.
  - exfalso. apply E'. nra.
  - exfalso. apply E. rewrite E'. ring.
  - f_equal. field. repeat split; try assumption; try lra; simpl; lra.
Qed.

(** X5.  The metric is a ratio without a unit: multiplying the test vector
    and the baseline vector by the same positive factor does not change
    what [_fft_amplitude_diff] returns. *)
Theorem metric_is_scale_invariant (c : R) (test train : list R) :
  (0 < c)%R ->
  _fft_amplitude_diff (fft (map (Rmult c) test)) (fft (map (Rmult c) train))
  = _fft_amplitude_diff (fft test) (fft train).
Proof.
  intros Hc.
  destruct (le_lt_dec 5 (length test)) as [Ht|Ht],
           (le_lt_dec 5 (length train)) as [Hb|Hb].
  - rewrite !amplitude_diff_distance
      by (rewrite length_fft, ?length_map; lia).
    rewrite !fft_scale. now rewrite distance_scale.
  - transitivity (@Raise npfloat IndexError);
      [|symmetry]; apply amplitude_diff_needs_five_short;
      right; rewrite length_fft, ?length_map; lia.
  - transitivity (@Raise npfloat IndexError);
      [|symmetry]; apply amplitude_diff_needs_five_short;
      left; rewrite length_fft, ?length_map; lia.
  - transitivity (@Raise npfloat IndexError);
      [|symmetry]; apply amplitude_diff_needs_five_short;
      left; rewrite length_fft, ?length_map; lia.
Qed.

Lemma metric_is_scale_invariant_witness :
  _fft_amplitude_diff (fft (map (Rmult 2) (repeat 1%R 24)))
                      (fft (map (Rmult 2) (repeat 3%R 24)))
  = _fft_amplitude_diff (fft (repeat 1%R 24)) (fft (repeat 3%R 24)).
Proof. apply metric_is_scale_invariant. lra. Defined.

(** ** Baselines the scoring cannot use, deviations it always sees *)

Lemma verdict_degenerate train day tk st tv bv :
  train_lookup train day tk st = Ok bv ->
  cabs (nth 4 (fft (values bv)) c0) = 0%R ->
  verdict train day tk st tv = None.
Proof.
  intros Hb Hz. unfold verdict. rewrite Hb.
  destruct (np_lt _ _); [reflexivity|].
  rewrite filter_none; [reflexivity|].
  intros i. now apply implicated_degenerate.
Qed.

(** X6.  Against a baseline with the same value in all 24 hours, whose
    component 4 is zero, no test vector is ever recorded: the pair has no
    entry after the run, whatever the test day looks like. *)
Theorem constant_baseline_is_blind now self tk st tv bv (c : R) :
  hourly self (weekday (now - esconstants.TEST_DAY)) ->
  lookup2 (test_data self) tk st = Some tv ->
  train_lookup (_train_data self) (weekday (now - esconstants.TEST_DAY)) tk st
    = Ok bv ->
  values bv = repeat c 24 ->
  exists self',
    outlier_detection now self = Ok self' /\
    lookup2 (outliers self') tk st = None.
Proof.
  intros Hwf Htv Hbv Hc.
  destruct (outlier_detection_verdicts now self Hwf)
    as (self' & Hrun & _ & _ & _ & Hout).
  exists self'. split; [exact Hrun|].
  rewrite Hout, Htv. cbn [mbind option_bind].
  apply (verdict_degenerate _ _ _ _ _ bv Hbv).
  rewrite Hc, fft_constant_4. apply cabs_c0.
Qed.

Lemma constant_baseline_is_blind_witness :
  exists self',
    outlier_detection 735685
      (__init__ {[ "ossec" := {[ "5501" := spike_at_10 ]} ]}
                {[ 4%Z := {[ "ossec" := {[ "5501" := ones24 ]} ]} ]} false)
    = Ok self' /\
    lookup2 (outliers self') "ossec" "5501" = None.
Proof.
  apply (constant_baseline_is_blind 735685 _ "ossec" "5501" spike_at_10
           ones24 (Q2R (inject_Z 1))).
  - apply hourly_singleton. split; [reflexivity|].
    intros bv H. vm_compute in H. injection H as <-. reflexivity.
  - vm_compute. reflexivity.
  - vm_compute. reflexivity.
  - reflexivity.
Defined.

Lemma verdict_implicated train day tk st tv bv h :
  train_lookup train day tk st = Ok bv ->
  np_lt (D (values tv) (values bv))
        (Fin esconstants.FFT_TEST_DIFF_THRESHOLD) = false ->
  In h (List.filter (implicated tv bv) (seq 0 24)) ->
  exists ps, verdict train day tk st tv = Some ps /\ In h ps.
Proof.
  intros Hb Hlt Hin. unfold verdict. rewrite Hb, Hlt.
  destruct (List.filter (implicated tv bv) (seq 0 24)) as [|p l] eqn:E;
    [destruct Hin|].
  exists (p :: l). split; [reflexivity|exact Hin].
Qed.

(** X7.  A test vector that differs from its baseline in one hour only, by
    at least 2.5 times the magnitude of the baseline's component 4 (not
    zero), has that hour in its outlier list after the run, whether the
    count is above or below the baseline's. *)
Theorem single_deviation_is_reported now self tk st tv bv h :
  hourly self (weekday (now - esconstants.TEST_DAY)) ->
  lookup2 (test_data self) tk st = Some tv ->
  train_lookup (_train_data self) (weekday (now - esconstants.TEST_DAY)) tk st
    = Ok bv ->
  (h < 24)%nat ->
  (forall i, i <> h -> nth i (values tv) 0%R = nth i (values bv) 0%R) ->
  (0 <= total (values bv))%R -> (0 <= total (values tv))%R ->
  cabs (nth 4 (fft (values bv)) c0) <> 0%R ->
  (5 / 2 * cabs (nth 4 (fft (values bv)) c0)
   <= Rabs (nth h (values tv) 0 - nth h (values bv) 0))%R ->
  exists self' ps,
    outlier_detection now self = Ok self' /\
    lookup2 (outliers self') tk st = Some ps /\ In h ps.
Proof.
  intros Hwf Htv Hbv Hh Hne Hpb Hpt Hnz Hdev.
  destruct (Hwf tk st tv Htv) as [Ht Hl]. specialize (Hl bv Hbv).
  set (day := weekday (now - esconstants.TEST_DAY)) in *.
  set (delta := (nth h (values tv) 0 - nth h (values bv) 0)%R) in *.
  pose proof (cabs_nonneg (nth 4 (fft (values bv)) c0)) as Hb4.
  assert (Hsub : substituted tv bv h = values bv).
  { rewrite substituted_insert. apply (nth_ext _ _ 0%R 0%R).
    - now rewrite length_insert, !length_values, Ht, Hl.
    - intros i _. destruct (decide (i = h)) as [->|Hi].
      + rewrite nth_insert_same by (rewrite length_values; lia). reflexivity.
      + rewrite nth_insert_other by exact Hi. now apply Hne. }
  assert (Hdc : (total (values tv) = total (values bv) + delta)%R).
  { pose proof (fft_one_slot (values bv) (values tv) h 0
                  ltac:(now rewrite !length_values, Ht, Hl)
                  ltac:(rewrite length_values; lia)
                  ltac:(rewrite length_values; lia) Hne) as H.
    rewrite !fft_dc in H by (rewrite length_values; lia).
    replace (- (2 * PI * INR 0 * INR h / INR (length (values bv))))%R
      with 0%R in H by (simpl (INR 0); unfold Rdiv; ring).
    rewrite cos_0, sin_0 in H. unfold cadd, cmul, of_real in H.
    cbn [fst snd] in H. injection H as H. fold delta in H. lra. }
  destruct (D_at_least (values tv) (values bv) Hnz) as (d & HD & Hd).
  rewrite !fft_dc, !cabs_real in Hd by (rewrite length_values; lia).
  rewrite (Rabs_right (total (values tv))) in Hd by lra.
  rewrite (Rabs_right (total (values bv))) in Hd by lra.
  replace (total (values tv) - total (values bv))%R with delta in Hd by lra.
  assert (Hd5 : (5 / 10 <= d)%R).
  { eapply Rle_trans; [|exact Hd].
    apply Rmult_le_reg_r with (cabs (nth 4 (fft (values bv)) c0));
      [lra|].
    replace (Rabs delta / 5 / cabs (nth 4 (fft (values bv)) c0)
             * cabs (nth 4 (fft (values bv)) c0))%R
      with (Rabs delta / 5)%R by (field; exact Hnz).
    lra. }
  destruct (single_divergence day tk st tv bv h self d Hbv Ht Hl Hh Hsub
              Hnz HD Hd5) as [_ Hin].
  assert (Hlt : np_lt (D (values tv) (values bv))
                  (Fin esconstants.FFT_TEST_DIFF_THRESHOLD) = false).
  { rewrite HD. cbn [np_lt].
    unfold Rltb, esconstants.FFT_TEST_DIFF_THRESHOLD.
    destruct (Rlt_dec d (5 / 10)); [lra|reflexivity]. }
  destruct (verdict_implicated _ _ _ _ _ _ _ Hbv Hlt Hin) as (ps & Hv & Hps).
  destruct (outlier_detection_verdicts now self Hwf)
    as (self' & Hrun & _ & _ & _ & Hout).
  exists self', ps. split; [exact Hrun|]. split; [|exact Hps].
  rewrite Hout, Htv. exact Hv.
Qed.

Lemma single_deviation_is_reported_witness :
  exists self' ps,
    outlier_detection 735685
      (__init__ {[ "ossec" := {[ "5501" := test0 ]} ]}
                {[ 4%Z := {[ "ossec" := {[ "5501" := base0 ]} ]} ]} false)
    = Ok self' /\
    lookup2 (outliers self') "ossec" "5501" = Some ps /\ In 0%nat ps.
Proof.
  apply (single_deviation_is_reported 735685 _ "ossec" "5501" test0 base0 0).
  - apply hourly_singleton. split; [reflexivity|].
    intros bv H. vm_compute in H. injection H as <-. reflexivity.
  - vm_compute. reflexivity.
  - vm_compute. reflexivity.
  - lia.
  - intros [|i] Hi; [congruence|reflexivity].
  - unfold base0. rewrite values_int.
    cbn [repeat map total fold_right]. lra.
  - unfold test0. rewrite values_int.
    cbn [repeat map total fold_right]. lra.
  - rewrite base0_component_4. lra.
  - rewrite base0_component_4. unfold test0, base0. rewrite !values_int.
    cbn [repeat map nth]. rewrite Rabs_right; lra.
Defined.

(** ** The outlier record *)

(** X3.  [_store_outlier_alerts] makes the pair read back the list it was
    given and leaves every other pair, the flag and the data as they were;
    a second store for the same pair replaces the first. *)
Theorem store_outlier_alerts_lookup ps type_key subtype self :
  (forall tk st,
     lookup2 (outliers (_store_outlier_alerts ps type_key subtype self)) tk st
     = if decide (tk = type_key /\ st = subtype) then Some ps
       else lookup2 (outliers self) tk st) /\
  (forall ps',
     outliers (_store_outlier_alerts ps type_key subtype
                 (_store_outlier_alerts ps' type_key subtype self))
     = outliers (_store_outlier_alerts ps type_key subtype self)) /\
  outliers_flag (_store_outlier_alerts ps type_key subtype self)
    = outliers_flag self /\
  test_data (_store_outlier_alerts ps type_key subtype self)
    = test_data self /\
  _train_data (_store_outlier_alerts ps type_key subtype self)
    = _train_data self.
Proof.
  split; [intros tk st; apply store_lookup2|].
  split; [|repeat split].
  intros ps'. unfold _store_outlier_alerts. cbn [outliers set_outliers].
  destruct (outliers self !! type_key) as [m|] eqn:E.
  - rewrite !lookup_insert_eq. cbn [default].
    rewrite insert_insert_eq. f_equal. apply insert_insert_eq.
  - rewrite !lookup_insert_eq. cbn [default].
    rewrite !insert_insert_eq. f_equal. apply insert_insert_eq.
Qed.

(** ** [data_clean] on well-formed training data *)

Lemma for_each_ok {K : Type} `{Countable K} {A B : Type}
    (f : K -> A -> result B) (init : gmap K B) (m : gmap K A) :
  (forall k v, m !! k = Some v -> exists b, f k v = Ok b) ->
  exists out, for_each f init m = Ok out.
Proof.
  unfold for_each.
  apply (map_fold_weak_ind (fun r m =>
    (forall k v, m !! k = Some v -> exists b, f k v = Ok b) ->
    exists out, r = Ok out)).
  - intros _. now exists init.
  - intros i x m' r Hi IH Hf.
    destruct IH as [out ->].
    { intros k v Hk. apply (Hf k v).
      rewrite lookup_insert_ne; [exact Hk|]. intros ->. congruence. }
    destruct (Hf i x (lookup_insert_eq _ _ _)) as [b Hb].
    cbn [mbind result_bind bind]. rewrite Hb. cbn [mbind result_bind bind].
    eauto.
Qed.

Lemma lookup2_insert_inner {A : Type} (M : gmap string (gmap string A))
    (m : gmap string A) tk st (x : A) tk' st' :
  (forall s, s <> st -> m !! s = lookup2 M tk s) ->
  lookup2 (<[tk := <[st := x]> m]> M) tk' st' =
  if decide (tk' = tk /\ st' = st) then Some x else lookup2 M tk' st'.
Proof.
  intros Hm. rewrite lookup2_insert.
  destruct (decide (tk' = tk)) as [->|Hne].
  - destruct (decide (st' = st)) as [->|Hne'].
    + rewrite lookup_insert_eq. now rewrite decide_True.
    + rewrite lookup_insert_ne by congruence.
      rewrite decide_False by tauto. now apply Hm.
  - now rewrite decide_False by tauto.
Qed.

Section Aggregate.

Variable n : nat.
Hypothesis n_pos : (0 < n)%nat.

Lemma good_entry_len (a : stacked) :
  good_entry n a -> Nat.eqb (len_stacked a) 0 = false.
Proof using Type*.
  destruct a as [|v|m]; cbn; [tauto| |].
  - intros ->. apply Nat.eqb_neq. lia.
  - intros [Hm _]. apply Nat.eqb_neq. destruct m; [congruence|cbn; lia].
Qed.

Lemma vstack_good (a : stacked) (v : ndarray) :
  good_entry n a -> len v = n ->
  exists a', vstack a v = Ok a' /\ good_entry n a'.
Proof using Type*.
  intros Ha Hv. destruct a as [|w|m]; cbn in Ha; [tauto| |].
  - cbn [vstack]. rewrite Ha, Hv, Nat.eqb_refl.
    eexists. split; [reflexivity|]. cbn. split; [discriminate|].
    repeat constructor; now rewrite length_astype_float.
  - destruct Ha as [Hm Hall]. cbn [vstack].
    assert (E : forallb (fun r => Nat.eqb (length r) (len v)) m = true).
    { apply forallb_forall. intros r Hr. rewrite List.Forall_forall in Hall.
      rewrite (Hall r Hr), Hv. apply Nat.eqb_refl. }
    rewrite E. eexists. split; [reflexivity|]. cbn. split.
    + destruct m; discriminate.
    + apply List.Forall_app. split; [exact Hall|].
      repeat constructor. now rewrite length_astype_float.
Qed.

Lemma aggregate_subtype_good tk st v agg :
  agg_inv n agg -> len v = n ->
  exists agg',
    aggregate_subtype tk st v (Ok agg) = Ok agg' /\ agg_inv n agg' /\
    is_Some (lookup2 agg' tk st) /\
    forall tk' st', is_Some (lookup2 agg tk' st') ->
                    is_Some (lookup2 agg' tk' st').
Proof using Type*.
  intros Hinv Hv. unfold aggregate_subtype. cbn [mbind result_bind bind].
  cbv zeta. set (m0 := default ∅ (agg !! tk)).
  assert (Hm0 : forall s, m0 !! s = lookup2 agg tk s).
  { intros s. unfold m0, lookup2. destruct (agg !! tk); cbn; [reflexivity|].
    apply lookup_empty. }
  destruct (m0 !! st) as [a|] eqn:Ea.
  - rewrite Ea. cbn [default from_option Datatypes.id].
    assert (Hga : good_entry n a).
    { apply (Hinv tk st). now rewrite <- Hm0. }
    rewrite (good_entry_len a Hga).
    destruct (vstack_good a v Hga Hv) as (a' & Hst & Hga').
    rewrite Hst. cbn [mbind result_bind bind].
    eexists. split; [reflexivity|].
    assert (L : forall tk' st',
              lookup2 (<[tk := <[st := a']> m0]> agg) tk' st' =
              if decide (tk' = tk /\ st' = st) then Some a'
              else lookup2 agg tk' st').
    { intros. apply lookup2_insert_inner. intros s _. apply Hm0. }
    split; [|split].
    + intros tk' st' x. rewrite L. destruct (decide _); [|apply Hinv].
      now intros [= <-].
    + rewrite L. rewrite decide_True by tauto. eauto.
    + intros tk' st'. rewrite L. destruct (decide _); eauto.
  - rewrite lookup_insert_eq. cbn [default from_option Datatypes.id len_stacked Nat.eqb].
    eexists. split; [reflexivity|].
    assert (L : forall tk' st',
              lookup2 (<[tk := <[st := Row v]> (<[st := Empty]> m0)]> agg)
                      tk' st' =
              if decide (tk' = tk /\ st' = st) then Some (Row v)
              else lookup2 agg tk' st').
    { intros. apply lookup2_insert_inner. intros s Hs.
      rewrite lookup_insert_ne by congruence. apply Hm0. }
    split; [|split].
    + intros tk' st' x. rewrite L. destruct (decide _); [|apply Hinv].
      now intros [= <-].
    + rewrite L. rewrite decide_True by tauto. eauto.
    + intros tk' st'. rewrite L. destruct (decide _); eauto.
Qed.

Lemma aggregate_type_good tk (subtypes : gmap string ndarray) agg :
  agg_inv n agg ->
  (forall st v, subtypes !! st = Some v -> len v = n) ->
  exists agg',
    aggregate_type tk subtypes (Ok agg) = Ok agg' /\ agg_inv n agg' /\
    (forall st, is_Some (subtypes !! st) -> is_Some (lookup2 agg' tk st)) /\
    forall tk' st', is_Some (lookup2 agg tk' st') ->
                    is_Some (lookup2 agg' tk' st').
Proof using Type*.
  intros Hinv. unfold aggregate_type. cbn [mbind result_bind bind].
  set (agg0 := match agg !! tk with
               | None => <[tk := ∅]> agg
               | Some _ => agg
               end).
  assert (H0 : forall tk' st', lookup2 agg0 tk' st' = lookup2 agg tk' st').
  { intros tk' st'. unfold agg0. destruct (agg !! tk) eqn:E; [reflexivity|].
    rewrite lookup2_insert. destruct (decide (tk' = tk)) as [->|]; [|reflexivity].
    unfold lookup2. rewrite E. cbn. apply lookup_empty. }
  assert (Hinv0 : agg_inv n agg0).
  { intros tk' st' a. rewrite H0. apply Hinv. }
  clearbody agg0. revert subtypes.
  apply (map_fold_weak_ind (fun r m =>
    (forall st v, m !! st = Some v -> len v = n) ->
    exists agg', r = Ok agg' /\ agg_inv n agg' /\
      (forall st, is_Some (m !! st) -> is_Some (lookup2 agg' tk st)) /\
      forall tk' st', is_Some (lookup2 agg tk' st') ->
                      is_Some (lookup2 agg' tk' st'))).
  - intros _. exists agg0. split; [reflexivity|]. split; [exact Hinv0|].
    split.
    + intros st [x Hx]. rewrite lookup_empty in Hx. discriminate.
    + intros tk' st'. now rewrite H0.
  - intros i x m r Hi IH Hlen.
    destruct IH as (agg1 & -> & Hinv1 & Hcov1 & Hmono1).
    { intros st v Hst. apply (Hlen st v).
      rewrite lookup_insert_ne; [exact Hst|]. intros ->. congruence. }
    destruct (aggregate_subtype_good tk i x agg1 Hinv1
                (Hlen i x (lookup_insert_eq _ _ _)))
      as (agg2 & Hs & Hinv2 & Hcov2 & Hmono2).
    exists agg2. split; [exact Hs|]. split; [exact Hinv2|]. split.
    + intros st Hst. destruct (decide (st = i)) as [->|Hne]; [exact Hcov2|].
      rewrite lookup_insert_ne in Hst by congruence.
      apply Hmono2, Hcov1, Hst.
    + intros tk' st' H. apply Hmono2, Hmono1, H.
Qed.

Lemma aggregate_day_good (by_type : gmap string (gmap string ndarray)) agg :
  agg_inv n agg ->
  (forall tk st v, lookup2 by_type tk st = Some v -> len v = n) ->
  exists agg',
    map_fold aggregate_type (Ok agg) by_type = Ok agg' /\ agg_inv n agg' /\
    (forall tk st, is_Some (lookup2 by_type tk st) ->
                   is_Some (lookup2 agg' tk st)) /\
    forall tk' st', is_Some (lookup2 agg tk' st') ->
                    is_Some (lookup2 agg' tk' st').
Proof using Type*.
  intros Hinv. revert by_type.
  apply (map_fold_weak_ind (fun r m =>
    (forall tk st v, lookup2 m tk st = Some v -> len v = n) ->
    exists agg', r = Ok agg' /\ agg_inv n agg' /\
      (forall tk st, is_Some (lookup2 m tk st) ->
                     is_Some (lookup2 agg' tk st)) /\
      forall tk' st', is_Some (lookup2 agg tk' st') ->
                      is_Some (lookup2 agg' tk' st'))).
  - intros _. exists agg. split; [reflexivity|]. split; [exact Hinv|].
    split; [|auto].
    intros tk st [x Hx]. unfold lookup2 in Hx. rewrite lookup_empty in Hx.
    discriminate.
  - intros i x m r Hi IH Hlen.
    destruct IH as (agg1 & -> & Hinv1 & Hcov1 & Hmono1).
    { intros tk st v Hst. apply (Hlen tk st v). rewrite lookup2_insert.
      destruct (decide (tk = i)) as [->|]; [|exact Hst].
      unfold lookup2 in Hst. rewrite Hi in Hst. discriminate. }
    destruct (aggregate_type_good i x agg1 Hinv1) as
      (agg2 & Hs & Hinv2 & Hcov2 & Hmono2).
    { intros st v Hst. apply (Hlen i st v). rewrite lookup2_insert.
      now rewrite decide_True. }
    exists agg2. split; [exact Hs|]. split; [exact Hinv2|]. split.
    + intros tk st Hst. rewrite lookup2_insert in Hst.
      destruct (decide (tk = i)) as [->|Hne]; [now apply Hcov2|].
      apply Hmono2, Hcov1, Hst.
    + intros tk' st' H. apply Hmono2, Hmono1, H.
Qed.

Lemma train_lookup_lookup2 train day tk st v :
  train_lookup train day tk st = Ok v <->
  exists by_type, train !! day = Some by_type /\
                  lookup2 by_type tk st = Some v.
Proof using Type*.
  unfold train_lookup, lookup2. split.
  - destruct (train !! day) as [bt|]; [|discriminate].
    intros H. exists bt. split; [reflexivity|].
    destruct (bt !! tk) as [bs|]; [|discriminate]. cbn.
    destruct (bs !! st); [congruence|discriminate].
  - intros (bt & -> & H). destruct (bt !! tk) as [bs|]; [|discriminate].
    cbn in H. now rewrite H.
Qed.

Lemma aggregate_good train :
  uniform train n ->
  exists agg,
    aggregate train = Ok agg /\ agg_inv n agg /\
    forall day tk st v, train_lookup train day tk st = Ok v ->
                        is_Some (lookup2 agg tk st).
Proof using Type*.
  unfold aggregate, uniform. revert train.
  apply (map_fold_weak_ind (fun r m =>
    (forall day tk st v, train_lookup m day tk st = Ok v -> len v = n) ->
    exists agg, r = Ok agg /\ agg_inv n agg /\
      forall day tk st v, train_lookup m day tk st = Ok v ->
                          is_Some (lookup2 agg tk st))).
  - intros _. exists ∅. split; [reflexivity|]. split.
    + intros tk st a H. unfold lookup2 in H. rewrite lookup_empty in H.
      discriminate.
    + intros day tk st v H. apply train_lookup_lookup2 in H.
      destruct H as (bt & H & _). rewrite lookup_empty in H. discriminate.
  - intros i x m r Hi IH Hlen.
    destruct IH as (agg1 & -> & Hinv1 & Hcov1).
    { intros day tk st v H. apply (Hlen day tk st v).
      apply train_lookup_lookup2 in H. destruct H as (bt & Hbt & H).
      apply train_lookup_lookup2. exists bt. split; [|exact H].
      rewrite lookup_insert_ne; [exact Hbt|]. intros ->. congruence. }
    destruct (aggregate_day_good x agg1 Hinv1)
      as (agg2 & Hs & Hinv2 & Hcov2 & Hmono2).
    { intros tk st v H. apply (Hlen i tk st v).
      apply train_lookup_lookup2. exists x. split; [|exact H].
      apply lookup_insert_eq. }
    exists agg2. split; [exact Hs|]. split; [exact Hinv2|].
    intros day tk st v H. apply train_lookup_lookup2 in H.
    destruct H as (bt & Hbt & H).
    destruct (decide (day = i)) as [->|Hne].
    + rewrite lookup_insert_eq in Hbt. injection Hbt as <-.
      apply Hcov2. eauto.
    + rewrite lookup_insert_ne in Hbt by congruence.
      apply Hmono2. apply (Hcov1 day tk st v).
      apply train_lookup_lookup2. eauto.
Qed.

End Aggregate.

Section Trim.

Variable n : nat.
Hypothesis n_pos : (0 < n)%nat.

Lemma length_average (m : list (list Q)) :
  length (average m) = length (hd [] m).
Proof using Type*. unfold average. now rewrite length_map, length_seq. Qed.

Lemma percentile_nonempty (a : list Q) :
  a <> [] -> exists band, percentile a = Ok band.
Proof using Type*. destruct a; [congruence|]. intros _. cbn. eauto. Qed.

Lemma band_of_good_entry (a : stacked) :
  good_entry n a -> exists band, (v ← averaged a; percentile v) = Ok band.
Proof using Type*.
  destruct a as [|v|m]; cbn [good_entry averaged mbind result_bind bind].
  - tauto.
  - intros Hv. apply percentile_nonempty. intros E.
    pose proof (length_astype_float v) as L. rewrite E in L. cbn in L. lia.
  - intros [Hm Hall]. apply percentile_nonempty. intros E.
    pose proof (length_average m) as L. rewrite E in L.
    destruct m as [|r m]; [congruence|]. cbn in L.
    apply List.Forall_inv in Hall. lia.
Qed.

Lemma trim_good (agg : gmap string (gmap string stacked)) :
  agg_inv n agg ->
  exists trim_data,
    trim agg = Ok trim_data /\
    forall tk st, is_Some (lookup2 agg tk st) ->
                  exists band, trim_lookup trim_data tk st = Ok band.
Proof using Type*.
  intros Hinv. unfold trim.
  destruct (for_each_ok
    (fun (_ : string) (by_subtype : gmap string stacked) =>
       for_each (fun (_ : string) a => v ← averaged a; percentile v)
                ∅ by_subtype) ∅ agg) as [trim_data Htrim].
  { intros tk by_subtype Htk. apply for_each_ok. intros st a Hst.
    apply band_of_good_entry. apply (Hinv tk st). unfold lookup2.
    rewrite Htk. exact Hst. }
  exists trim_data. split; [exact Htrim|].
  intros tk st [a Ha]. unfold lookup2 in Ha.
  pose proof (for_each_lookup _ _ _ _ Htrim tk) as H1.
  destruct (agg !! tk) as [by_subtype|]; [|discriminate].
  cbn in Ha. destruct H1 as (t & Ht & Et).
  pose proof (for_each_lookup _ _ _ _ Ht st) as H2.
  rewrite Ha in H2. destruct H2 as (band & _ & Eb).
  exists band. unfold trim_lookup. now rewrite Et, Eb.
Qed.

End Trim.

Lemma haircut_ok trim_data train :
  (forall day tk st v, train_lookup train day tk st = Ok v ->
                       exists band, trim_lookup trim_data tk st = Ok band) ->
  exists train', haircut trim_data train = Ok train'.
Proof.
  intros Hcov. unfold haircut. apply for_each_ok. intros day by_type Hday.
  apply for_each_ok. intros tk by_subtype Htk.
  apply for_each_ok. intros st v Hst.
  destruct (Hcov day tk st v) as [band Hband].
  { unfold train_lookup. now rewrite Hday, Htk, Hst. }
  rewrite Hband. cbn [mbind result_bind bind]. eauto.
Qed.

(** What [haircut] leaves under every key of the training data. *)
Lemma haircut_entries trim_data train train' :
  haircut trim_data train = Ok train' ->
  forall day tk st,
    match train_lookup train day tk st with
    | Ok v => exists band, trim_lookup trim_data tk st = Ok band /\
                           train_lookup train' day tk st = Ok (clip band v)
    | Raise _ => train_lookup train' day tk st = Raise KeyError
    end.
Proof.
  intros Hcut day tk st. unfold train_lookup.
  pose proof (for_each_lookup _ _ _ _ Hcut day) as H1.
  destruct (train !! day) as [bt|]; [|now rewrite H1].
  destruct H1 as (bt' & Hbt' & ->).
  pose proof (for_each_lookup _ _ _ _ Hbt' tk) as H2.
  destruct (bt !! tk) as [bs|]; [|now rewrite H2].
  destruct H2 as (bs' & Hbs' & ->).
  pose proof (for_each_lookup _ _ _ _ Hbs' st) as H3.
  destruct (bs !! st) as [v|]; [|now rewrite H3].
  destruct H3 as (w & Hw & ->).
  destruct (trim_lookup trim_data tk st) as [band|e]; [|discriminate].
  cbn [mbind result_bind bind] in Hw. injection Hw as <-. eauto.
Qed.

Lemma len_clip (band : Q * Q) (v : ndarray) : len (clip band v) = len v.
Proof. rewrite clip_slots. destruct v; cbn; apply length_map. Qed.

Lemma is_int_clip (band : Q * Q) (v : ndarray) :
  is_int (clip band v) = is_int v.
Proof. rewrite clip_slots. now destruct v. Qed.

(** X8.  [data_clean] returns on every training set whose vectors all have
    the same positive number of slots: no [vstack] meets rows of another
    length, every pair has its percentiles and every vector its band. *)
Theorem data_clean_returns (self : ESAnalyze) (n : nat) :
  (0 < n)%nat -> uniform (_train_data self) n ->
  exists self', data_clean self = Ok self'.
Proof.
  intros Hn Hu. unfold data_clean.
  destruct (aggregate_good n Hn _ Hu) as (agg & -> & Hinv & Hcov).
  cbn [mbind result_bind bind].
  destruct (trim_good n Hn agg Hinv) as (trim_data & -> & Hband).
  cbn [mbind result_bind bind].
  destruct (haircut_ok trim_data (_train_data self)) as [train' ->].
  { intros day tk st v Hv. apply Hband. now apply (Hcov day tk st v). }
  cbn [mbind result_bind bind]. eauto.
Qed.

Lemma two_days_vectors day tk st v :
  train_lookup two_days day tk st = Ok v ->
  v = IntArr (0 :: repeat 1 23)%Z \/ v = FloatArr (0 :: repeat (5 # 2) 23)%Q.
Proof.
  intros H. apply train_lookup_lookup2 in H.
  destruct H as (bt & Hbt & H). unfold two_days in Hbt.
  assert (Hpair : forall x : ndarray,
            lookup2 ({[ "ossec" := {[ "5501" := x ]} ]}) tk st = Some v ->
            v = x).
  { intros x Hx. unfold lookup2 in Hx.
    destruct (decide (tk = "ossec")) as [->|Hk].
    - rewrite lookup_singleton_eq in Hx. cbn in Hx.
      destruct (decide (st = "5501")) as [->|Hs].
      + rewrite lookup_singleton_eq in Hx. now injection Hx as <-.
      + rewrite lookup_singleton_ne in Hx by congruence. discriminate.
    - rewrite lookup_singleton_ne in Hx by congruence. discriminate. }
  destruct (decide (day = 0%Z)) as [->|H0].
  - rewrite lookup_insert_eq in Hbt. injection Hbt as <-.
    left. now apply Hpair.
  - rewrite lookup_insert_ne in Hbt by congruence.
    destruct (decide (day = 1%Z)) as [->|H1].
    + rewrite lookup_singleton_eq in Hbt. injection Hbt as <-.
      right. now apply Hpair.
    + rewrite lookup_singleton_ne in Hbt by congruence. discriminate.
Qed.

Lemma two_days_uniform : uniform two_days 24.
Proof.
  intros day tk st v H.
  destruct (two_days_vectors day tk st v H) as [-> | ->]; reflexivity.
Qed.

Lemma data_clean_returns_witness :
  (0 < 24)%nat /\ uniform two_days 24 /\
  exists self', data_clean (__init__ ∅ two_days false) = Ok self'.
Proof.
  split; [lia|]. split; [exact two_days_uniform|].
  apply (data_clean_returns (__init__ ∅ two_days false) 24);
    [lia|exact two_days_uniform].
Defined.

(** X9.  When [data_clean] returns, it has touched nothing but the values
    of the training vectors: the test data and the outlier record are as
    before, the training data has the same days, types and subtypes, and
    every vector is the old one clipped to a band that depends on its type
    and subtype only, with its length and its dtype unchanged. *)
Theorem data_clean_keeps_structure (self self' : ESAnalyze) :
  data_clean self = Ok self' ->
  test_data self' = test_data self /\
  outliers self' = outliers self /\
  outliers_flag self' = outliers_flag self /\
  test_date self' = test_date self /\
  exists trim_data,
    forall day tk st,
      match train_lookup (_train_data self) day tk st with
      | Ok v =>
          exists band,
            trim_lookup trim_data tk st = Ok band /\
            (fst band <= snd band)%Q /\
            train_lookup (_train_data self') day tk st = Ok (clip band v) /\
            len (clip band v) = len v /\
            is_int (clip band v) = is_int v
      | Raise _ =>
          train_lookup (_train_data self') day tk st = Raise KeyError
      end.
Proof.
  unfold data_clean. intros H.
  destruct (aggregate (_train_data self)) as [agg|e]; [|discriminate H].
  cbn [mbind result_bind bind] in H.
  destruct (trim agg) as [trim_data|e] eqn:Etrim; [|discriminate H].
  cbn [mbind result_bind bind] in H.
  destruct (haircut trim_data (_train_data self)) as [train'|e] eqn:Ecut;
    [|discriminate H].
  cbn [mbind result_bind bind] in H. injection H as <-.
  cbn [test_data outliers outliers_flag test_date _train_data].
  repeat (split; [reflexivity|]).
  exists trim_data. intros day tk st.
  pose proof (haircut_entries _ _ _ Ecut day tk st) as E.
  destruct (train_lookup (_train_data self) day tk st) as [v|e]; [|exact E].
  destruct E as (band & Hband & Hv). exists band.
  split; [exact Hband|]. split; [exact (trim_ordered _ _ _ _ _ Etrim Hband)|].
  split; [exact Hv|]. split; [apply len_clip|apply is_int_clip].
Qed.

Lemma two_days_cleaned_run :
  data_clean (__init__ ∅ two_days false) = Ok two_days_cleaned.
Proof. vm_compute. reflexivity. Qed.

Lemma data_clean_keeps_structure_witness :
  data_clean (__init__ ∅ two_days false) = Ok two_days_cleaned /\
  test_data two_days_cleaned = ∅.
Proof.
  split; [exact two_days_cleaned_run|].
  exact (proj1 (data_clean_keeps_structure (__init__ ∅ two_days false)
                  two_days_cleaned two_days_cleaned_run)).
Defined.
(** ** The clip pass on integer arrays *)

Lemma Qlt_bool_true (x y : Q) : Qlt_bool x y = true -> (x < y)%Q.
Proof.
  unfold Qlt_bool. intros H. apply negb_true_iff in H.
  apply Qnot_le_lt. intros Hle. apply Qle_bool_iff in Hle. congruence.
Qed.

Lemma Qlt_bool_irrefl_le (x y : Q) : (y <= x)%Q -> Qlt_bool x y = false.
Proof.
  intros H. unfold Qlt_bool. apply negb_false_iff. now apply Qle_bool_iff.
Qed.

Lemma truncate_near (q : Q) :
  (q - 1 < inject_Z (truncate q))%Q /\ (inject_Z (truncate q) < q + 1)%Q.
Proof.
  unfold truncate. destruct (Qle_bool 0 q).
  - pose proof (Qfloor_le q). pose proof (Qlt_floor q) as H1.
    rewrite inject_Z_plus in H1. change (inject_Z 1) with 1%Q in H1.
    split; lra.
  - pose proof (Qle_ceiling q). pose proof (Qceiling_lt q) as H1.
    unfold Z.sub in H1. rewrite inject_Z_plus in H1.
    assert (E : (inject_Z (-1) == - (1))%Q) by reflexivity.
    rewrite E in H1. split; lra.
Qed.

Lemma truncate_toward_zero (q : Q) :
  ((0 <= q)%Q -> (0 <= inject_Z (truncate q))%Q /\ (inject_Z (truncate q) <= q)%Q) /\
  ((q <= 0)%Q -> (q <= inject_Z (truncate q))%Q /\ (inject_Z (truncate q) <= 0)%Q).
Proof.
  unfold truncate. destruct (Qle_bool 0 q) eqn:E.
  - apply Qle_bool_iff in E.
    assert (F : (0 <= inject_Z (Qfloor q))%Q).
    { change 0%Q with (inject_Z 0). rewrite <- Zle_Qle.
      rewrite <- (Qfloor_Z 0). now apply Qfloor_resp_le. }
    pose proof (Qfloor_le q). split; intros H0; split; lra.
  - assert (q < 0)%Q as Hq.
    { apply Qnot_le_lt. intros Hle. apply Qle_bool_iff in Hle. congruence. }
    split; intros H; [exfalso; lra|]. split; [apply Qle_ceiling|].
    change 0%Q with (inject_Z 0). rewrite <- Zle_Qle.
    rewrite <- (Qceiling_Z 0). apply Qceiling_resp_le.
    change (inject_Z 0) with 0%Q. lra.
Qed.

Lemma clamp_int_near (band : Q * Q) (z : Z) :
  (fst band <= snd band)%Q ->
  (fst band - 1 < inject_Z (clamp_int (fst band) (snd band) z))%Q /\
  (inject_Z (clamp_int (fst band) (snd band) z) < snd band + 1)%Q.
Proof.
  intros Hband. unfold clamp_int.
  destruct (Qlt_bool (inject_Z z) (fst band)) eqn:E1.
  - pose proof (truncate_near (fst band)). split; lra.
  - destruct (Qlt_bool (snd band) (inject_Z z)) eqn:E2.
    + pose proof (truncate_near (snd band)). split; lra.
    + apply Qlt_bool_false in E1, E2. split; lra.
Qed.

(** X10.  An [int] vector leaves the clip pass with every slot less than
    one away from the band: a slot outside the band is replaced by the
    band's end cut to an integer, a slot inside is kept. *)
Theorem clip_int_near_band (band : Q * Q) (l l' : list Z) :
  (fst band <= snd band)%Q ->
  clip band (IntArr l) = IntArr l' ->
  length l' = length l /\
  forall i, (i < length l)%nat ->
    (fst band - 1 < inject_Z (nth i l' 0%Z))%Q /\
    (inject_Z (nth i l' 0%Z) < snd band + 1)%Q /\
    (in_band band (inject_Z (nth i l 0%Z)) -> nth i l' 0%Z = nth i l 0%Z).
Proof.
  intros Hband. rewrite clip_slots. intros H. injection H as <-.
  split; [apply length_map|]. intros i Hi.
  rewrite (nth_indep _ 0%Z (clamp_int (fst band) (snd band) 0%Z))
    by (rewrite length_map; exact Hi).
  rewrite map_nth.
  split; [apply clamp_int_near, Hband|].
  split; [apply clamp_int_near, Hband|].
  intros [H1 H2]. unfold clamp_int.
  rewrite (Qlt_bool_irrefl_le _ _ H1), (Qlt_bool_irrefl_le _ _ H2).
  reflexivity.
Qed.

Lemma clip_int_near_band_witness :
  ((23 # 100) <= 1)%Q /\
  clip (23 # 100, 1)%Q (IntArr (0 :: repeat 1 23)%Z)
    = IntArr (0 :: repeat 1 23)%Z /\
  length (0 :: repeat 1 23)%Z = 24%nat.
Proof.
  assert (Hb : (fst (23 # 100, 1)%Q <= snd (23 # 100, 1)%Q)%Q)
    by (cbn; unfold Qle; cbn; lia).
  assert (Hc : clip (23 # 100, 1)%Q (IntArr (0 :: repeat 1 23)%Z)
               = IntArr (0 :: repeat 1 23)%Z) by (vm_compute; reflexivity).
  split; [exact Hb|]. split; [exact Hc|].
  exact (proj1 (clip_int_near_band (23 # 100, 1)%Q _ _ Hb Hc)).
Defined.

(** ** Clipping twice *)

Lemma clamp_float_idempotent (low high x : Q) :
  (low <= high)%Q ->
  clamp_float low high (clamp_float low high x) = clamp_float low high x.
Proof.
  intros Hband. unfold clamp_float.
  destruct (Qlt_bool x low) eqn:E1.
  - rewrite (Qlt_bool_irrefl_le low low) by apply Qle_refl.
    now rewrite (Qlt_bool_irrefl_le high low).
  - destruct (Qlt_bool high x) eqn:E2.
    + rewrite (Qlt_bool_irrefl_le high low) by exact Hband.
      now rewrite (Qlt_bool_irrefl_le high high) by apply Qle_refl.
    + now rewrite E1, E2.
Qed.

Lemma floor_squeezed (low high : Q) :
  (low <= high)%Q -> (inject_Z (Qfloor high) < low)%Q ->
  Qfloor low = Qfloor high.
Proof.
  intros H1 H2. apply Z.le_antisymm; [now apply Qfloor_resp_le|].
  rewrite <- (Qfloor_Z (Qfloor high)). apply Qfloor_resp_le. lra.
Qed.

Lemma ceiling_squeezed (low high : Q) :
  (low <= high)%Q -> (high < inject_Z (Qceiling low))%Q ->
  Qceiling high = Qceiling low.
Proof.
  intros H1 H2. apply Z.le_antisymm; [|now apply Qceiling_resp_le].
  rewrite <- (Qceiling_Z (Qceiling low)). apply Qceiling_resp_le. lra.
Qed.

Lemma Qle_bool_false (x y : Q) : Qle_bool x y = false -> (y < x)%Q.
Proof.
  intros E. apply Qnot_le_lt. intros Hle. apply Qle_bool_iff in Hle.
  congruence.
Qed.

Lemma clamp_int_idempotent (low high : Q) (z : Z) :
  (low <= high)%Q ->
  clamp_int low high (clamp_int low high z) = clamp_int low high z.
Proof.
  intros Hband.
  assert (Tl : clamp_int low high (truncate low) = truncate low).
  { unfold clamp_int.
    destruct (Qlt_bool (inject_Z (truncate low)) low) eqn:E1; [reflexivity|].
    destruct (Qlt_bool high (inject_Z (truncate low))) eqn:E2;
      [|reflexivity].
    apply Qlt_bool_true in E2. apply Qlt_bool_false in E1.
    unfold truncate in *. destruct (Qle_bool 0 low) eqn:L.
    - pose proof (Qfloor_le low). lra.
    - pose proof (Qle_bool_false _ _ L) as Lq.
      assert (Hh : Qle_bool 0 high = false).
      { destruct (Qle_bool 0 high) eqn:Hh; [|reflexivity].
        apply Qle_bool_iff in Hh. exfalso.
        pose proof (proj2 (truncate_toward_zero low) ltac:(lra)) as [_ T].
        unfold truncate in T. rewrite L in T. lra. }
      rewrite Hh. now apply ceiling_squeezed. }
  assert (Th : clamp_int low high (truncate high) = truncate high).
  { unfold clamp_int.
    destruct (Qlt_bool (inject_Z (truncate high)) low) eqn:E1.
    - apply Qlt_bool_true in E1.
      unfold truncate in *. destruct (Qle_bool 0 high) eqn:L.
      + pose proof (proj1 (Qle_bool_iff _ _) L) as Lq.
        assert (Hl : Qle_bool 0 low = true).
        { apply Qle_bool_iff.
          pose proof (proj1 (truncate_toward_zero high) Lq) as [T _].
          unfold truncate in T. rewrite L in T. lra. }
        rewrite Hl. now apply floor_squeezed.
      + pose proof (Qle_ceiling high). lra.
    - destruct (Qlt_bool high (inject_Z (truncate high))) eqn:E2;
        reflexivity. }
  destruct (Qlt_bool (inject_Z z) low) eqn:E1.
  { assert (clamp_int low high z = truncate low) as ->
      by (unfold clamp_int; now rewrite E1).
    exact Tl. }
  destruct (Qlt_bool high (inject_Z z)) eqn:E2.
  { assert (clamp_int low high z = truncate high) as ->
      by (unfold clamp_int; now rewrite E1, E2).
    exact Th. }
  assert (clamp_int low high z = z) as ->
    by (unfold clamp_int; now rewrite E1, E2).
  unfold clamp_int. now rewrite E1, E2.
Qed.

(** X11.  The clip pass is idempotent: a vector that has been clipped to
    a band is left as it is by a second clip to the same band, for a
    [float64] array and, in spite of the cut to integers, for an [int]
    array. *)
Theorem clip_idempotent (band : Q * Q) (v : ndarray) :
  (fst band <= snd band)%Q ->
  clip band (clip band v) = clip band v.
Proof.
  intros Hband. rewrite !clip_slots. destruct v as [l|l]; f_equal.
  - rewrite List.map_map. apply map_ext. intros z.
    now apply clamp_int_idempotent.
  - rewrite List.map_map. apply map_ext. intros x.
    now apply clamp_float_idempotent.
Qed.

Lemma clip_idempotent_witness :
  ((-1 # 2) <= (-1 # 3))%Q /\
  clip (-1 # 2, -1 # 3)%Q (clip (-1 # 2, -1 # 3)%Q (IntArr [-4; 0; 7]%Z))
  = clip (-1 # 2, -1 # 3)%Q (IntArr [-4; 0; 7]%Z).
Proof.
  assert (Hb : (fst (-1 # 2, -1 # 3)%Q <= snd (-1 # 2, -1 # 3)%Q)%Q)
    by (cbn; unfold Qle; cbn; lia).
  split; [exact Hb|].
  exact (clip_idempotent (-1 # 2, -1 # 3)%Q (IntArr [-4; 0; 7]%Z) Hb).
Defined.
(** ** The range of the values *)

Lemma aggregate_subtype_entries tk st v agg agg' :
  aggregate_subtype tk st v (Ok agg) = Ok agg' ->
  exists x,
    (forall tk' st',
       lookup2 agg' tk' st' =
       if decide (tk' = tk /\ st' = st) then Some x
       else lookup2 agg tk' st') /\
    match lookup2 agg tk st with
    | None => x = Row v
    | Some a => if Nat.eqb (len_stacked a) 0 then x = Row v
                else vstack a v = Ok x
    end.
Proof.
  unfold aggregate_subtype. cbn [mbind result_bind bind]. cbv zeta.
  set (m0 := default ∅ (agg !! tk)).
  assert (Hm0 : forall s, m0 !! s = lookup2 agg tk s).
  { intros s. unfold m0, lookup2. destruct (agg !! tk); cbn; [reflexivity|].
    apply lookup_empty. }
  rewrite <- Hm0.
  destruct (m0 !! st) as [a|] eqn:Ea.
  - rewrite Ea. cbn [default from_option Datatypes.id].
    destruct (Nat.eqb (len_stacked a) 0).
    + intros H. injection H as <-. exists (Row v). split; [|reflexivity].
      intros. apply lookup2_insert_inner. intros s _. apply Hm0.
    + destruct (vstack a v) as [x|e]; [|discriminate].
      cbn [mbind result_bind bind]. intros H. injection H as <-.
      exists x. split; [|reflexivity].
      intros. apply lookup2_insert_inner. intros s _. apply Hm0.
  - rewrite lookup_insert_eq.
    cbn [default from_option Datatypes.id len_stacked Nat.eqb].
    intros H. injection H as <-. exists (Row v). split; [|reflexivity].
    intros. apply lookup2_insert_inner. intros s Hs.
    rewrite lookup_insert_ne by congruence. apply Hm0.
Qed.

Section Range.

Variables (tk0 st0 : string) (m M : Z).

Lemma vstack_bounded a v x :
  entry_bounded m M a -> List.Forall (bounded m M) (astype_float v) ->
  vstack a v = Ok x -> entry_bounded m M x.
Proof.
  intros Ha Hv. destruct a as [|w|rows]; cbn [vstack]; [discriminate| |].
  - destruct (Nat.eqb (len w) (len v)) eqn:E; [|discriminate].
    apply Nat.eqb_eq in E. intros H. injection H as <-.
    exists (len v). repeat constructor;
      rewrite ?length_astype_float; auto.
  - destruct (forallb _ rows) eqn:E; [|discriminate].
    intros H. injection H as <-. destruct Ha as [n Hn]. exists (len v).
    apply List.Forall_app. split.
    + apply List.Forall_forall. intros r Hr. split.
      * rewrite forallb_forall in E. apply Nat.eqb_eq. now apply E.
      * rewrite List.Forall_forall in Hn. now apply Hn.
    + repeat constructor; rewrite ?length_astype_float; auto.
Qed.

Lemma aggregate_subtype_range tk st v agg agg' :
  range_inv tk0 st0 m M agg ->
  (tk = tk0 -> st = st0 -> List.Forall (bounded m M) (astype_float v)) ->
  aggregate_subtype tk st v (Ok agg) = Ok agg' -> range_inv tk0 st0 m M agg'.
Proof.
  intros Hinv Hv H. apply aggregate_subtype_entries in H.
  destruct H as (x & L & Hx). intros a. rewrite L.
  destruct (decide (tk0 = tk /\ st0 = st)) as [[E1 E2]|]; [|apply Hinv].
  intros [= <-]. symmetry in E1, E2. specialize (Hv E1 E2).
  destruct (lookup2 agg tk st) as [a|] eqn:Ea; [|now subst x].
  destruct (Nat.eqb (len_stacked a) 0); [now subst x|].
  apply (vstack_bounded a v); [|exact Hv|exact Hx].
  apply Hinv. now rewrite <- E1, <- E2.
Qed.

Lemma aggregate_type_range tk (subtypes : gmap string ndarray) agg agg' :
  range_inv tk0 st0 m M agg ->
  (forall v, tk = tk0 -> subtypes !! st0 = Some v ->
             List.Forall (bounded m M) (astype_float v)) ->
  aggregate_type tk subtypes (Ok agg) = Ok agg' -> range_inv tk0 st0 m M agg'.
Proof.
  intros Hinv. unfold aggregate_type. cbn [mbind result_bind bind].
  set (agg0 := match agg !! tk with
               | None => <[tk := ∅]> agg
               | Some _ => agg
               end).
  assert (Hinv0 : range_inv tk0 st0 m M agg0).
  { intros a. unfold agg0. destruct (agg !! tk) eqn:E; [apply Hinv|].
    rewrite lookup2_insert. destruct (decide (tk0 = tk)); [|apply Hinv].
    rewrite lookup_empty. discriminate. }
  clearbody agg0. revert agg'. revert subtypes.
  apply (map_fold_weak_ind (fun r sub =>
    forall agg',
    (forall v, tk = tk0 -> sub !! st0 = Some v ->
               List.Forall (bounded m M) (astype_float v)) ->
    r = Ok agg' -> range_inv tk0 st0 m M agg')).
  - intros agg' _ [= <-]. exact Hinv0.
  - intros i x sub r Hi IH agg' Hb H.
    destruct r as [agg1|e]; [|discriminate H].
    apply (aggregate_subtype_range tk i x agg1 agg'); [| |exact H].
    + apply (IH agg1); [|reflexivity]. intros v Htk Hv. apply Hb; [exact Htk|].
      rewrite lookup_insert_ne; [exact Hv|]. intros ->. congruence.
    + intros -> ->. apply Hb; [reflexivity|]. apply lookup_insert_eq.
Qed.

Lemma aggregate_day_range (by_type : gmap string (gmap string ndarray))
    agg agg' :
  range_inv tk0 st0 m M agg ->
  (forall v, lookup2 by_type tk0 st0 = Some v ->
             List.Forall (bounded m M) (astype_float v)) ->
  map_fold aggregate_type (Ok agg) by_type = Ok agg' -> range_inv tk0 st0 m M agg'.
Proof.
  intros Hinv. revert agg'. revert by_type.
  apply (map_fold_weak_ind (fun r bt =>
    forall agg',
    (forall v, lookup2 bt tk0 st0 = Some v ->
               List.Forall (bounded m M) (astype_float v)) ->
    r = Ok agg' -> range_inv tk0 st0 m M agg')).
  - intros agg' _ [= <-]. exact Hinv.
  - intros i x bt r Hi IH agg' Hb H.
    destruct r as [agg1|e]; [|discriminate H].
    apply (aggregate_type_range i x agg1 agg'); [| |exact H].
    + apply (IH agg1); [|reflexivity]. intros v Hv. apply Hb.
      rewrite lookup2_insert. destruct (decide (tk0 = i)) as [->|]; [|exact Hv].
      unfold lookup2 in Hv. rewrite Hi in Hv. discriminate.
    + intros v -> Hv. apply Hb. rewrite lookup2_insert.
      now rewrite decide_True.
Qed.

Lemma aggregate_range train agg :
  (forall day v, train_lookup train day tk0 st0 = Ok v ->
                 List.Forall (bounded m M) (astype_float v)) ->
  aggregate train = Ok agg -> range_inv tk0 st0 m M agg.
Proof.
  unfold aggregate. revert agg. revert train.
  apply (map_fold_weak_ind (fun r tr =>
    forall agg,
    (forall day v, train_lookup tr day tk0 st0 = Ok v ->
                   List.Forall (bounded m M) (astype_float v)) ->
    r = Ok agg -> range_inv tk0 st0 m M agg)).
  - intros agg _ [= <-] a H. unfold lookup2 in H. rewrite lookup_empty in H.
    discriminate.
  - intros i x tr r Hi IH agg Hb H.
    destruct r as [agg1|e].
    + apply (aggregate_day_range x agg1 agg); [| |exact H].
      * apply (IH agg1); [|reflexivity]. intros day v Hv.
        apply (Hb day). apply train_lookup_lookup2 in Hv.
        destruct Hv as (bt & Hbt & Hv). apply train_lookup_lookup2.
        exists bt. split; [|exact Hv].
        rewrite lookup_insert_ne; [exact Hbt|]. intros ->. congruence.
      * intros v Hv. apply (Hb i). apply train_lookup_lookup2.
        exists x. split; [apply lookup_insert_eq|exact Hv].
    + exfalso. clear -H.
      assert (R : exists e', map_fold aggregate_type (Raise e) x = Raise e').
      { apply (map_fold_weak_ind
                 (fun r (_ : gmap string (gmap string ndarray)) =>
                    exists e', r = Raise e')); [eauto|].
        intros k y bt r _ [e' ->]. exists e'. reflexivity. }
      destruct R as [e' R]. rewrite R in H. discriminate H.
Qed.

End Range.

Section Bounds.

Variables (m M : Z).

Lemma Qsum_bounded (l : list Q) :
  List.Forall (bounded m M) l ->
  (inject_Z m * inject_Z (Z.of_nat (length l)) <= Qsum l)%Q /\
  (Qsum l <= inject_Z M * inject_Z (Z.of_nat (length l)))%Q.
Proof.
  induction 1 as [|x l [Hx1 Hx2] _ [IH1 IH2]].
  - unfold Qsum. cbn [length fold_right].
    change (inject_Z (Z.of_nat 0)) with 0%Q. split; lra.
  - unfold Qsum in *. cbn [length fold_right].
    rewrite Nat2Z.inj_succ. unfold Z.succ. rewrite inject_Z_plus.
    change (inject_Z 1) with 1%Q. split; lra.
Qed.

Lemma mean_bounded (l : list Q) :
  l <> [] -> List.Forall (bounded m M) l ->
  bounded m M (Qsum l / inject_Z (Z.of_nat (length l))).
Proof.
  intros Hne Hl. destruct (Qsum_bounded l Hl) as [H1 H2].
  assert (Hk : (0 < inject_Z (Z.of_nat (length l)))%Q).
  { change 0%Q with (inject_Z 0). rewrite <- Zlt_Qlt.
    destruct l; [congruence|cbn; lia]. }
  split.
  - apply Qle_shift_div_l; [exact Hk|exact H1].
  - apply Qle_shift_div_r; [exact Hk|exact H2].
Qed.

Lemma average_bounded (rows : list (list Q)) (n : nat) :
  List.Forall (fun r => length r = n /\ List.Forall (bounded m M) r) rows ->
  List.Forall (bounded m M) (average rows).
Proof.
  intros Hrows. unfold average. apply List.Forall_forall. intros y Hy.
  apply in_map_iff in Hy. destruct Hy as (j & <- & Hj).
  apply in_seq in Hj. destruct Hj as [_ Hj]. cbn in Hj.
  destruct rows as [|r0 rows]; [cbn in Hj; lia|].
  assert (Hjn : (j < n)%nat).
  { apply List.Forall_inv in Hrows. cbn [hd] in Hj. lia. }
  rewrite <- (length_map (fun r => nth j r 0%Q) (r0 :: rows)).
  apply mean_bounded; [discriminate|].
  apply List.Forall_forall. intros x Hx. apply in_map_iff in Hx.
  destruct Hx as (r & <- & Hr). rewrite List.Forall_forall in Hrows.
  destruct (Hrows r Hr) as [Hlen Hb]. rewrite List.Forall_forall in Hb.
  apply Hb. apply nth_In. lia.
Qed.

Lemma insert_sorted_Forall (P : Q -> Prop) (x : Q) (l : list Q) :
  P x -> List.Forall P l -> List.Forall P (insert_sorted x l).
Proof.
  intros Hx. induction 1 as [|y l Hy Hl IH]; cbn [insert_sorted].
  - now repeat constructor.
  - destruct (Qle_bool x y); repeat constructor; auto.
Qed.

Lemma sort_Forall (P : Q -> Prop) (l : list Q) :
  List.Forall P l -> List.Forall P (sort l).
Proof.
  induction 1 as [|x l Hx Hl IH]; [constructor|].
  cbn [sort fold_right]. fold (sort l). now apply insert_sorted_Forall.
Qed.

Lemma percentile_of_sorted_bounded (s : list Q) (q : Q) :
  s <> [] -> List.Forall (bounded m M) s ->
  (0 <= q)%Q -> (q <= 100)%Q ->
  bounded m M (percentile_of_sorted s q).
Proof.
  intros Hne Hs H0 H100.
  assert (Hlen : (0 < length s)%nat) by (destruct s; [congruence|cbn; lia]).
  unfold percentile_of_sorted.
  destruct (percentile_rank (length s - 1) q H0 H100)
    as (_ & _ & Hf & Hl & Hg & Hg').
  cbv zeta in *.
  set (idx := (q / 100 * inject_Z (Z.of_nat (length s - 1)))%Q) in *.
  set (g := (idx - inject_Z (Qfloor idx))%Q) in *.
  rewrite List.Forall_forall in Hs.
  assert (Ha : bounded m M (nth (Z.to_nat (Qfloor idx)) s 0%Q)).
  { apply Hs, nth_In. lia. }
  assert (Hb : bounded m M
                 (nth (Nat.min (Z.to_nat (Qfloor idx) + 1) (length s - 1))
                      s 0%Q)).
  { apply Hs, nth_In. lia. }
  destruct Ha as [Ha1 Ha2], Hb as [Hb1 Hb2].
  set (a := nth (Z.to_nat (Qfloor idx)) s 0%Q) in *.
  set (b := nth (Nat.min (Z.to_nat (Qfloor idx) + 1) (length s - 1)) s 0%Q)
    in *.
  clearbody a b g. split; nra.
Qed.

Lemma percentile_bounded (a : list Q) (band : Q * Q) :
  List.Forall (bounded m M) a -> percentile a = Ok band ->
  bounded m M (fst band) /\ bounded m M (snd band).
Proof.
  intros Ha. unfold percentile. destruct a as [|x a]; [discriminate|].
  intros H. injection H as <-. cbn [fst snd].
  assert (Hne : sort (x :: a) <> []).
  { intros E. pose proof (length_sort (x :: a)) as Hlen.
    change (sort (x :: a)) with (insert_sorted x (sort a)) in Hlen.
    change (sort (x :: a)) with (insert_sorted x (sort a)) in E.
    rewrite E in Hlen. discriminate. }
  pose proof (sort_Forall _ _ Ha) as Hs.
  split; (apply percentile_of_sorted_bounded;
          [exact Hne|exact Hs|discriminate|discriminate]).
Qed.

Lemma averaged_bounded (a : stacked) (v : list Q) :
  entry_bounded m M a -> averaged a = Ok v -> List.Forall (bounded m M) v.
Proof.
  destruct a as [|w|rows]; cbn [entry_bounded averaged]; [discriminate| |].
  - intros Hw [= <-]. exact Hw.
  - intros [n Hn] [= <-]. now apply (average_bounded rows n).
Qed.

Lemma trim_bounded tk st agg trim_data band :
  range_inv tk st m M agg -> trim agg = Ok trim_data ->
  trim_lookup trim_data tk st = Ok band ->
  bounded m M (fst band) /\ bounded m M (snd band).
Proof.
  intros Hinv Htrim Hband. unfold trim_lookup in Hband.
  destruct (trim_data !! tk) as [t|] eqn:Et; [|discriminate].
  destruct (t !! st) as [b|] eqn:Eb; [|discriminate].
  injection Hband as ->.
  pose proof (for_each_lookup _ _ _ _ Htrim tk) as H1.
  destruct (agg !! tk) as [by_subtype|] eqn:Eagg.
  - destruct H1 as (t' & Ht' & Et'). rewrite Et in Et'. injection Et' as <-.
    pose proof (for_each_lookup _ _ _ _ Ht' st) as H2.
    destruct (by_subtype !! st) as [a|] eqn:Ea.
    + destruct H2 as (b' & Hb' & Eb'). rewrite Eb in Eb'. injection Eb' as <-.
      destruct (averaged a) as [v|e] eqn:Ev; [|discriminate].
      cbn [mbind result_bind bind] in Hb'.
      apply (percentile_bounded v); [|exact Hb'].
      apply (averaged_bounded a); [|exact Ev].
      apply Hinv. unfold lookup2. rewrite Eagg. exact Ea.
    + rewrite lookup_empty in H2. congruence.
  - rewrite lookup_empty in H1. congruence.
Qed.

Lemma truncate_bounded (q : Q) :
  bounded m M q -> (m <= truncate q <= M)%Z.
Proof.
  intros [H1 H2]. unfold truncate. destruct (Qle_bool 0 q).
  - split.
    + rewrite <- (Qfloor_Z m). now apply Qfloor_resp_le.
    + rewrite Zle_Qle. pose proof (Qfloor_le q). lra.
  - split.
    + rewrite Zle_Qle. pose proof (Qle_ceiling q). lra.
    + rewrite <- (Qceiling_Z M). now apply Qceiling_resp_le.
Qed.

Lemma clip_bounded (band : Q * Q) (v : ndarray) :
  bounded m M (fst band) -> bounded m M (snd band) ->
  List.Forall (bounded m M) (astype_float v) ->
  List.Forall (bounded m M) (astype_float (clip band v)).
Proof.
  intros Hlow Hhigh. rewrite clip_slots.
  destruct v as [l|l]; cbn [astype_float]; intros Hv.
  - rewrite List.Forall_map in *. rewrite List.Forall_map.
    revert Hv. apply List.Forall_impl. intros z Hz. unfold clamp_int.
    destruct (Qlt_bool (inject_Z z) (fst band)).
    { destruct (truncate_bounded _ Hlow). split; rewrite <- Zle_Qle; lia. }
    destruct (Qlt_bool (snd band) (inject_Z z)); [|exact Hz].
    destruct (truncate_bounded _ Hhigh). split; rewrite <- Zle_Qle; lia.
  - rewrite List.Forall_map. revert Hv. apply List.Forall_impl.
    intros x Hx. unfold clamp_float.
    destruct (Qlt_bool x (fst band)); [exact Hlow|].
    destruct (Qlt_bool (snd band) x); [exact Hhigh|exact Hx].
Qed.

End Bounds.

(** X12.  [data_clean] keeps the values of a pair within the integer
    range they had: when every training value of the pair is between [m]
    and [M], so is every value of its cleaned vectors.  Counts stay
    non-negative, and no clipped value exceeds the largest one seen. *)
Theorem data_clean_keeps_range (self self' : ESAnalyze) (tk st : string)
    (m M : Z) :
  data_clean self = Ok self' ->
  (forall day v, train_lookup (_train_data self) day tk st = Ok v ->
                 List.Forall (bounded m M) (astype_float v)) ->
  forall day v', train_lookup (_train_data self') day tk st = Ok v' ->
                 List.Forall (bounded m M) (astype_float v').
Proof.
  unfold data_clean. intros H Hb day v' Hv'.
  destruct (aggregate (_train_data self)) as [agg|e] eqn:Eagg;
    [|discriminate H].
  cbn [mbind result_bind bind] in H.
  destruct (trim agg) as [trim_data|e] eqn:Etrim; [|discriminate H].
  cbn [mbind result_bind bind] in H.
  destruct (haircut trim_data (_train_data self)) as [train'|e] eqn:Ecut;
    [|discriminate H].
  cbn [mbind result_bind bind] in H. injection H as <-.
  cbn [_train_data] in Hv'.
  destruct (haircut_lookup _ _ _ _ _ _ _ Ecut Hv') as (v & band & Hv & Hband & ->).
  pose proof (aggregate_range tk st m M _ _ Hb Eagg) as Hinv.
  destruct (trim_bounded m M tk st _ _ _ Hinv Etrim Hband) as [Hlow Hhigh].
  apply clip_bounded; [exact Hlow|exact Hhigh|]. now apply (Hb day).
Qed.

Lemma two_days_bounded day v :
  train_lookup two_days day "ossec" "5501" = Ok v ->
  List.Forall (bounded 0 3) (astype_float v).
Proof.
  intros H. apply List.Forall_forall. intros x Hx.
  assert (B : forallb (fun x => Qle_bool (inject_Z 0) x
                                && Qle_bool x (inject_Z 3))
                      (astype_float v) = true)
    by (destruct (two_days_vectors _ _ _ _ H) as [-> | ->];
        vm_compute; reflexivity).
  rewrite forallb_forall in B. specialize (B x Hx).
  apply andb_prop in B. destruct B as [B1 B2].
  split; now apply Qle_bool_iff.
Qed.

Lemma data_clean_keeps_range_witness :
  data_clean (__init__ ∅ two_days false) = Ok two_days_cleaned /\
  forall day v',
    train_lookup (_train_data two_days_cleaned) day "ossec" "5501" = Ok v' ->
    List.Forall (bounded 0 3) (astype_float v').
Proof.
  split; [exact two_days_cleaned_run|].
  exact (data_clean_keeps_range (__init__ ∅ two_days false) two_days_cleaned
           "ossec" "5501" 0 3 two_days_cleaned_run two_days_bounded).
Defined.

(** ** The grouping of the hits *)

Lemma hkey_eqb_eq (a b : hkey) : hkey_eqb a b = true <-> a = b.
Proof.
  destruct a as [|x|x], b as [|y|y]; cbn; split; try congruence;
    try discriminate.
  - intros H. apply Z.eqb_eq in H. congruence.
  - intros [= ->]. apply Z.eqb_refl.
  - intros H. apply String.eqb_eq in H. congruence.
  - intros [= ->]. apply String.eqb_refl.
Qed.

Lemma hkey_eqb_refl (a : hkey) : hkey_eqb a a = true.
Proof. now apply hkey_eqb_eq. Qed.

Lemma hkey_eqb_neq (a b : hkey) : hkey_eqb a b = false <-> a <> b.
Proof.
  split.
  - intros H E. apply hkey_eqb_eq in E. congruence.
  - intros H. destruct (hkey_eqb a b) eqn:E; [|reflexivity].
    apply hkey_eqb_eq in E. contradiction.
Qed.

Lemma hits_by_key_body_keyed (key : string) (g : groups) (hit : dict) :
  hits_by_key_body key (Ok g) hit =
  r ← keyed key hit; Ok (groups_add g (fst r) (snd r)).
Proof.
  unfold hits_by_key_body, keyed. cbn [mbind result_bind bind].
  destruct (unwrap hit) as [d|e]; [|reflexivity].
  cbn [mbind result_bind bind].
  destruct (if String.eqb key esconstants.KEY_SURICATA_SIG then _ else _)
    as [d'|e]; [|reflexivity].
  cbn [mbind result_bind bind].
  destruct (dict_getitem d' key) as [v|e]; [|reflexivity].
  cbn [mbind result_bind bind].
  destruct (hashable v) as [k|e]; reflexivity.
Qed.

(** The loop files the hits one after the other. *)
Lemma hits_by_key_fold (key : string) (source : list dict) (g0 g : groups) :
  fold_left (hits_by_key_body key) source (Ok g0) = Ok g ->
  exists recs,
    mapM (keyed key) source = Ok recs /\
    g = fold_left (fun g r => groups_add g (fst r) (snd r)) recs g0.
Proof.
  revert g0. induction source as [|hit source IH]; intros g0.
  - cbn. intros [= <-]. exists []. split; reflexivity.
  - cbn [fold_left]. rewrite hits_by_key_body_keyed.
    destruct (keyed key hit) as [r|e] eqn:Er.
    + cbn [mbind result_bind bind]. intros H.
      destruct (IH _ H) as (recs & Hrecs & ->).
      exists (r :: recs). split; [|reflexivity].
      cbn [mapM]. rewrite Er. cbn [mbind result_bind bind].
      rewrite Hrecs. reflexivity.
    + cbn [mbind result_bind bind]. rewrite hits_by_key_raised.
      discriminate.
Qed.

Lemma groups_get_add (g : groups) (k k' : hkey) (hit : dict) :
  groups_get (groups_add g k hit) k' =
  if hkey_eqb k k' then Some (default [] (groups_get g k) ++ [hit])
  else groups_get g k'.
Proof.
  induction g as [|[k0 hits] g IH]; cbn [groups_add groups_get].
  - destruct (hkey_eqb k k'); reflexivity.
  - destruct (hkey_eqb k0 k) eqn:E0.
    + apply hkey_eqb_eq in E0. subst k0. cbn [groups_get].
      destruct (hkey_eqb k k'); reflexivity.
    + cbn [groups_get]. destruct (hkey_eqb k0 k') eqn:E1.
      * apply hkey_eqb_eq in E1. subst k0.
        destruct (hkey_eqb k k') eqn:E2; [|reflexivity].
        apply hkey_eqb_eq in E2. subst k'. rewrite hkey_eqb_refl in E0.
        discriminate.
      * exact IH.
Qed.

Lemma groups_add_keys (g : groups) (k : hkey) (hit : dict) :
  map fst (groups_add g k hit) =
  if existsb (hkey_eqb k) (map fst g) then map fst g
  else map fst g ++ [k].
Proof.
  induction g as [|[k0 hits] g IH]; cbn [groups_add map fst existsb];
    [reflexivity|].
  destruct (hkey_eqb k0 k) eqn:E0.
  - apply hkey_eqb_eq in E0. subst k0. now rewrite hkey_eqb_refl.
  - assert (hkey_eqb k k0 = false) as ->.
    { apply hkey_eqb_neq. apply hkey_eqb_neq in E0. congruence. }
    cbn [orb map fst]. rewrite IH.
    destruct (existsb (hkey_eqb k) (map fst g)); reflexivity.
Qed.

Lemma groups_add_NoDup (g : groups) (k : hkey) (hit : dict) :
  List.NoDup (map fst g) -> List.NoDup (map fst (groups_add g k hit)).
Proof.
  intros H. rewrite groups_add_keys.
  destruct (existsb (hkey_eqb k) (map fst g)) eqn:E; [exact H|].
  apply List.NoDup_app; [exact H| |].
  - repeat constructor. intros [].
  - intros x Hx [<-|[]].
    assert (existsb (hkey_eqb k) (map fst g) = true); [|congruence].
    apply existsb_exists. exists k. split; [exact Hx|apply hkey_eqb_refl].
Qed.

Lemma groups_add_total (g : groups) (k : hkey) (hit : dict) :
  length (concat (map snd (groups_add g k hit))) =
  S (length (concat (map snd g))).
Proof.
  induction g as [|[k0 hits] g IH]; cbn [groups_add map snd concat];
    [reflexivity|].
  destruct (hkey_eqb k0 k); cbn [map snd concat].
  - rewrite !length_app. cbn. lia.
  - rewrite !length_app, IH. lia.
Qed.

Lemma groups_add_nonempty (g : groups) (k : hkey) (hit : dict) :
  List.Forall (fun e => snd e <> []) g ->
  List.Forall (fun e => snd e <> []) (groups_add g k hit).
Proof.
  induction 1 as [|[k0 hits] g H0 Hg IH]; cbn [groups_add].
  - repeat constructor. discriminate.
  - destruct (hkey_eqb k0 k); constructor; auto.
    cbn. destruct hits; discriminate.
Qed.

Lemma filed_fold (recs : list (hkey * dict)) (g0 : groups) :
  let g := fold_left (fun g r => groups_add g (fst r) (snd r)) recs g0 in
  (forall k, groups_get g k =
             match groups_get g0 k, filed_under k recs with
             | None, [] => None
             | o, l => Some (default [] o ++ l)
             end) /\
  (List.NoDup (map fst g0) -> List.NoDup (map fst g)) /\
  (List.Forall (fun e => snd e <> []) g0 ->
   List.Forall (fun e => snd e <> []) g) /\
  length (concat (map snd g)) =
    (length (concat (map snd g0)) + length recs)%nat.
Proof.
  revert g0. induction recs as [|[k0 h] recs IH]; intros g0; cbn zeta.
  - cbn [fold_left length filed_under List.filter map].
    split; [|split; [auto|split; [auto|lia]]].
    intros k. destruct (groups_get g0 k); cbn; [now rewrite app_nil_r|].
    reflexivity.
  - cbn [fold_left fst snd].
    destruct (IH (groups_add g0 k0 h)) as (Hget & Hdup & Hne & Hlen).
    split; [|split; [|split]].
    + intros k. rewrite Hget, groups_get_add.
      unfold filed_under. cbn [List.filter fst].
      destruct (hkey_eqb k0 k) eqn:E.
      * apply hkey_eqb_eq in E. subst k0. cbn [map snd].
        destruct (groups_get g0 k) as [l|]; cbn [default from_option Datatypes.id].
        -- destruct (map snd _) eqn:Em; rewrite <- ?app_assoc; reflexivity.
        -- destruct (map snd _) eqn:Em; reflexivity.
      * reflexivity.
    + intros H. apply Hdup. now apply groups_add_NoDup.
    + intros H. apply Hne. now apply groups_add_nonempty.
    + rewrite Hlen, groups_add_total. cbn [length]. lia.
Qed.

Lemma length_mapM {A B : Type} (f : A -> result B) (l : list A)
    (l' : list B) :
  mapM f l = Ok l' -> length l' = length l.
Proof.
  revert l'. induction l as [|a l IH]; intros l'; cbn [mapM].
  - intros [= <-]. reflexivity.
  - destruct (f a) as [b|e]; [|discriminate]. cbn [mbind result_bind bind].
    destruct (mapM f l) as [bs|e]; [|discriminate].
    cbn [mbind result_bind bind]. intros [= <-]. cbn. now rewrite (IH bs).
Qed.

(** X13.  When [_hits_by_key] returns, it has filed every hit once: the
    entry of a key is the list of the hits with that key, in the order of
    the source, a key without a hit has no entry, no key occurs twice, no
    entry is empty and the entries hold as many hits as the source. *)
Theorem hits_by_key_groups (source : list dict) (key : string) (g : groups) :
  _hits_by_key source key = Ok g ->
  exists recs,
    mapM (keyed key) source = Ok recs /\
    (forall k, groups_get g k = match filed_under k recs with
                                | [] => None
                                | l => Some l
                                end) /\
    List.NoDup (map fst g) /\
    List.Forall (fun e => snd e <> []) g /\
    length (concat (map snd g)) = length source.
Proof.
  unfold _hits_by_key. intros H.
  destruct (hits_by_key_fold key source [] g H) as (recs & Hrecs & ->).
  exists recs. split; [exact Hrecs|].
  destruct (filed_fold recs []) as (Hget & Hdup & Hne & Hlen).
  cbv zeta in *. split; [|split; [|split]].
  - intros k. rewrite Hget. cbn [groups_get].
    destruct (filed_under k recs); reflexivity.
  - apply Hdup. constructor.
  - apply Hne. constructor.
  - rewrite Hlen. cbn. exact (length_mapM _ _ _ Hrecs).
Qed.

Lemma hits_by_key_groups_witness :
  let source := [ossec_good; ossec_no_timestamp; ossec_good] in
  let g := [(KStr "5501", source)] in
  _hits_by_key source "rule_number" = Ok g /\
  exists recs,
    mapM (keyed "rule_number") source = Ok recs /\
    (forall k, groups_get g k = match filed_under k recs with
                                | [] => None
                                | l => Some l
                                end) /\
    List.NoDup (map fst g) /\
    List.Forall (fun e => snd e <> []) g /\
    length (concat (map snd g)) = length source.
Proof.
  intros source g.
  assert (H : _hits_by_key source "rule_number" = Ok g)
    by (vm_compute; reflexivity).
  split; [exact H|].
  exact (hits_by_key_groups source "rule_number" g H).
Defined.

(** ** The hourly counts *)

Section Counts.

Variable parse_hour : string -> result nat.
Variable int_of_str : string -> result Z.

Lemma count_hit_step (row row' : list Z) (hit : dict) :
  count_hit parse_hour (Ok row) hit = Ok row' ->
  exists hour,
    hit_hour parse_hour hit = Ok hour /\ (hour < length row)%nat /\
    row' = <[hour := (nth hour row 0 + 1)%Z]> row.
Proof.
  unfold count_hit, hit_hour. cbn [mbind result_bind bind].
  destruct (dict_getitem hit esconstants.KEY_ES_TIMESTAMP) as [t|e];
    [|discriminate].
  cbn [mbind result_bind bind].
  destruct (match t with JStr s => parse_hour s | _ => Raise TypeError end)
    as [hour|e]; [|discriminate].
  cbn [mbind result_bind bind]. unfold getitem.
  destruct (nth_error row hour) as [n|] eqn:En; [|discriminate].
  cbn [mbind result_bind bind]. unfold setitem.
  destruct (decide (hour < length row)%nat) as [Hlt|]; [|discriminate].
  intros [= <-]. exists hour. split; [reflexivity|]. split; [exact Hlt|].
  now rewrite (nth_error_nth _ _ 0%Z En).
Qed.

Lemma in_hour_cons (h : nat) (hit : dict) (hits : list dict) (hour : nat) :
  hit_hour parse_hour hit = Ok hour ->
  length (in_hour parse_hour h (hit :: hits)) =
  ((if Nat.eqb hour h then 1 else 0)
   + length (in_hour parse_hour h hits))%nat.
Proof.
  intros E. unfold in_hour. cbn [List.filter]. rewrite E.
  destruct (Nat.eqb hour h); reflexivity.
Qed.

(** The inner loop adds to every slot the hits of its hour. *)
Lemma count_hits (hits : list dict) (row0 row : list Z) :
  fold_left (count_hit parse_hour) hits (Ok row0) = Ok row ->
  length row = length row0 /\
  (forall h, nth h row 0%Z =
             (nth h row0 0 + Z.of_nat (length (in_hour parse_hour h hits)))%Z)
  /\
  List.Forall (fun hit => exists hour, hit_hour parse_hour hit = Ok hour /\
                                       (hour < length row0)%nat) hits.
Proof.
  revert row0. induction hits as [|hit hits IH]; intros row0.
  - cbn. intros [= <-]. split; [reflexivity|]. split; [|constructor].
    intros h. lia.
  - cbn [fold_left].
    destruct (count_hit parse_hour (Ok row0) hit) as [row1|e] eqn:E1;
      [|now rewrite count_hit_raised].
    intros H. destruct (count_hit_step _ _ _ E1) as (hour & Hh & Hlt & ->).
    destruct (IH _ H) as (Hlen & Hnth & Hall).
    rewrite length_insert in Hlen, Hall.
    split; [exact Hlen|]. split.
    + intros h. rewrite Hnth, (in_hour_cons h hit hits hour Hh).
      destruct (Nat.eqb_spec hour h) as [->|Hne].
      * rewrite nth_insert_same by exact Hlt. lia.
      * rewrite nth_insert_other by congruence. lia.
    + constructor; [|exact Hall]. eauto.
Qed.

Lemma count_row_step (m m' : list (list Z)) (entry : hkey * list dict) :
  count_row parse_hour int_of_str (Ok m) entry = Ok m' ->
  exists row n,
    m' = m ++ [row] /\
    length row = esconstants.NUM_BUCKETS /\
    int_of_hkey int_of_str (fst entry) = Ok n /\
    nth 24 row 0%Z = n /\
    (forall h, (h < 24)%nat ->
       nth h row 0%Z = Z.of_nat (length (in_hour parse_hour h (snd entry))))
    /\
    List.Forall (fun hit => exists hour,
                   hit_hour parse_hour hit = Ok hour /\
                   (hour < esconstants.NUM_BUCKETS)%nat) (snd entry).
Proof.
  unfold count_row. cbn [mbind result_bind bind].
  destruct (fold_left (count_hit parse_hour) (snd entry)
              (Ok (repeat 0%Z esconstants.NUM_BUCKETS))) as [row|e] eqn:Erow;
    [|discriminate].
  cbn [mbind result_bind bind].
  destruct (int_of_hkey int_of_str (fst entry)) as [n|e]; [|discriminate].
  cbn [mbind result_bind bind].
  destruct (count_hits _ _ _ Erow) as (Hlen & Hnth & Hall).
  rewrite repeat_length in Hlen, Hall.
  unfold setitem.
  destruct (decide (esconstants.NUM_BUCKETS - 1 < length row)%nat)
    as [Hlt|]; [|discriminate].
  cbn [mbind result_bind bind]. intros [= <-].
  exists (<[(esconstants.NUM_BUCKETS - 1)%nat := n]> row), n.
  split; [reflexivity|]. split; [now rewrite length_insert|].
  split; [reflexivity|]. split.
  - change (esconstants.NUM_BUCKETS - 1)%nat with 24%nat in *.
    now apply nth_insert_same.
  - split; [|exact Hall]. intros h Hh.
    change (esconstants.NUM_BUCKETS - 1)%nat with 24%nat.
    rewrite nth_insert_other by lia. rewrite Hnth.
    rewrite nth_repeat. lia.
Qed.

(** The rows the outer loop appends. *)
Lemma count_rows_fold (hits_type : groups) (m0 m : list (list Z)) :
  fold_left (count_row parse_hour int_of_str) hits_type (Ok m0) = Ok m ->
  exists rows,
    m = m0 ++ rows /\
    List.Forall2
      (fun entry row =>
         length row = esconstants.NUM_BUCKETS /\
         int_of_hkey int_of_str (fst entry) = Ok (nth 24 row 0%Z) /\
         (forall h, (h < 24)%nat ->
            nth h row 0%Z =
            Z.of_nat (length (in_hour parse_hour h (snd entry)))) /\
         List.Forall (fun hit => exists hour,
                        hit_hour parse_hour hit = Ok hour /\
                        (hour < esconstants.NUM_BUCKETS)%nat) (snd entry))
      hits_type rows.
Proof.
  revert m0 m. induction hits_type as [|entry l IH]; intros m0 m.
  - cbn. intros [= <-]. exists []. split; [now rewrite app_nil_r|constructor].
  - cbn [fold_left].
    destruct (count_row parse_hour int_of_str (Ok m0) entry) as [m1|e] eqn:E1;
      [|now rewrite count_row_raised].
    intros H.
    destruct (count_row_step _ _ _ E1)
      as (row & n & -> & Hlen & Hn & H24 & Hc & Hall).
    destruct (IH _ _ H) as (rows & -> & Hrows).
    exists (row :: rows). split; [now rewrite <- app_assoc|].
    constructor; [|exact Hrows].
    split; [exact Hlen|]. split; [now rewrite H24|]. split; assumption.
Qed.

(** X14.  When [_hourly_counts] returns, its matrix has one row per
    entry of the dictionary, in its order, of [NUM_BUCKETS] columns: column
    [h] below 24 is the number of the entry's hits whose timestamp is in
    hour [h], the last column is the entry's key as an integer, and every
    hit has an hour below [NUM_BUCKETS]. *)
Theorem hourly_counts_rows (hits_type : groups) (m : list (list Z)) :
  _hourly_counts parse_hour int_of_str hits_type = Ok m ->
  List.Forall2
    (fun entry row =>
       length row = esconstants.NUM_BUCKETS /\
       int_of_hkey int_of_str (fst entry) = Ok (nth 24 row 0%Z) /\
       (forall h, (h < 24)%nat ->
          nth h row 0%Z =
          Z.of_nat (length (in_hour parse_hour h (snd entry)))) /\
       List.Forall (fun hit => exists hour,
                      hit_hour parse_hour hit = Ok hour /\
                      (hour < esconstants.NUM_BUCKETS)%nat) (snd entry))
    hits_type m.
Proof.
  unfold _hourly_counts. intros H.
  destruct (count_rows_fold hits_type [] m H) as (rows & -> & Hrows).
  exact Hrows.
Qed.

End Counts.

Lemma hourly_counts_rows_witness :
  let g := [(KStr "5501", [ossec_good; ossec_good])] in
  let m := [(repeat 0 9 ++ [2] ++ repeat 0 14 ++ [5501])%Z] in
  _hourly_counts iso_hour decimal g = Ok m /\
  List.Forall2
    (fun entry row =>
       length row = esconstants.NUM_BUCKETS /\
       int_of_hkey decimal (fst entry) = Ok (nth 24 row 0%Z) /\
       (forall h, (h < 24)%nat ->
          nth h row 0%Z =
          Z.of_nat (length (in_hour iso_hour h (snd entry)))) /\
       List.Forall (fun hit => exists hour,
                      hit_hour iso_hour hit = Ok hour /\
                      (hour < esconstants.NUM_BUCKETS)%nat) (snd entry))
    g m.
Proof.
  intros g m.
  assert (H : _hourly_counts iso_hour decimal g = Ok m)
    by (vm_compute; reflexivity).
  split; [exact H|].
  exact (hourly_counts_rows iso_hour decimal g m H).
Defined.

(** ** No hit is lost *)

Lemma firstn_nth_seq (n : nat) (row : list Z) :
  (n <= length row)%nat ->
  firstn n row = map (fun h => nth h row 0%Z) (seq 0 n).
Proof.
  revert n. induction row as [|x row IH]; intros n Hn.
  - cbn in Hn. assert (n = 0%nat) as -> by lia. reflexivity.
  - destruct n as [|n]; [reflexivity|]. cbn [firstn seq map nth].
    f_equal. rewrite <- seq_shift, List.map_map. apply IH. cbn in Hn. lia.
Qed.

Lemma list_sum_indicator (hour a n : nat) :
  list_sum (map (fun h => if Nat.eqb hour h then 1 else 0)%nat (seq a n)) =
  if ((a <=? hour) && (hour <? a + n))%nat then 1%nat else 0%nat.
Proof.
  unfold list_sum. revert a. induction n as [|n IH]; intros a.
  - cbn [seq map fold_right].
    destruct (Nat.leb_spec a hour), (Nat.ltb_spec hour (a + 0)); cbn [andb];
      try reflexivity; lia.
  - cbn [seq map fold_right]. rewrite IH.
    destruct (Nat.eqb_spec hour a), (Nat.leb_spec a hour),
      (Nat.leb_spec (S a) hour), (Nat.ltb_spec hour (S a + n)),
      (Nat.ltb_spec hour (a + S n)); cbn [andb Nat.add]; try reflexivity; lia.
Qed.

Lemma list_sum_add (f g : nat -> nat) (l : list nat) :
  list_sum (map (fun h => f h + g h)%nat l) =
  (list_sum (map f l) + list_sum (map g l))%nat.
Proof.
  unfold list_sum. induction l as [|x l IH]; cbn [map fold_right];
    [reflexivity|].
  rewrite IH. lia.
Qed.

Lemma Zsum_of_nat (f : nat -> nat) (l : list nat) :
  Zsum (map (fun h => Z.of_nat (f h)) l) = Z.of_nat (list_sum (map f l)).
Proof.
  induction l as [|x l IH]; [reflexivity|].
  unfold Zsum, list_sum in *. cbn [map fold_right]. rewrite IH. lia.
Qed.

Section Conserve.

Variable parse_hour : string -> result nat.
Variable int_of_str : string -> result Z.

Lemma in_hour_total (n : nat) (hits : list dict) :
  List.Forall (fun hit => exists hour, hit_hour parse_hour hit = Ok hour /\
                                       (hour < n)%nat) hits ->
  list_sum (map (fun h => length (in_hour parse_hour h hits)) (seq 0 n)) =
  length hits.
Proof.
  induction 1 as [|hit hits (hour & Hh & Hlt) _ IH].
  - cbn. induction (seq 0 n); [reflexivity|assumption].
  - rewrite (map_ext _ (fun h =>
               (if Nat.eqb hour h then 1 else 0)
               + length (in_hour parse_hour h hits))%nat).
    2: { intros h. unfold in_hour. cbn [List.filter]. rewrite Hh.
         destruct (Nat.eqb hour h); reflexivity. }
    rewrite list_sum_add, list_sum_indicator, IH.
    destruct (Nat.leb_spec 0 hour), (Nat.ltb_spec hour (0 + n));
      cbn [andb length]; lia.
Qed.

(** X15.  No hit is lost in the counting: when every timestamp of the
    day has an hour below 24, as the hour of a time of day has, the 24
    hourly counts of a row add up to the number of hits of its entry. *)
Theorem hourly_counts_conserve (hits_type : groups) (m : list (list Z)) :
  _hourly_counts parse_hour int_of_str hits_type = Ok m ->
  (forall entry hit hour,
     In entry hits_type -> In hit (snd entry) ->
     hit_hour parse_hour hit = Ok hour -> (hour < 24)%nat) ->
  List.Forall2
    (fun entry row => Zsum (firstn 24 row) = Z.of_nat (length (snd entry)))
    hits_type m.
Proof.
  unfold _hourly_counts. intros H Hhours.
  destruct (count_rows_fold _ _ _ _ _ H) as (rows & -> & Hrows).
  cbn [app]. clear H. induction Hrows as [|entry row g rows (Hlen & _ & Hc & Hall) _ IH];
    constructor.
  - rewrite firstn_nth_seq by (rewrite Hlen; unfold esconstants.NUM_BUCKETS; lia).
    rewrite (map_ext_in _ (fun h => Z.of_nat
                             (length (in_hour parse_hour h (snd entry))))).
    2: { intros h Hh. apply in_seq in Hh. apply Hc. lia. }
    rewrite Zsum_of_nat. f_equal. apply in_hour_total.
    apply List.Forall_forall. intros hit Hhit.
    rewrite List.Forall_forall in Hall.
    destruct (Hall hit Hhit) as (hour & Hh & _). exists hour.
    split; [exact Hh|]. apply (Hhours entry hit hour); auto. now left.
  - apply IH. intros e hit hour He. apply Hhours. now right.
Qed.

End Conserve.

Lemma hourly_counts_conserve_witness :
  let g := [(KStr "5501", [ossec_good; ossec_good])] in
  let m := [(repeat 0 9 ++ [2] ++ repeat 0 14 ++ [5501])%Z] in
  _hourly_counts iso_hour decimal g = Ok m /\
  List.Forall2
    (fun entry row => Zsum (firstn 24 row) = Z.of_nat (length (snd entry)))
    g m.
Proof.
  intros g m.
  assert (H : _hourly_counts iso_hour decimal g = Ok m)
    by (vm_compute; reflexivity).
  split; [exact H|].
  apply (hourly_counts_conserve iso_hour decimal g m H).
  intros entry hit hour [<-|[]] Hhit Hh. cbn [snd] in Hhit.
  assert (E : hit = ossec_good) by (destruct Hhit as [<-|[<-|[]]]; reflexivity).
  subst hit. vm_compute in Hh. injection Hh as <-. lia.
Defined.

(** ** The vectors of a day *)

Section Day.

Variable parse_hour : string -> result nat.
Variable int_of_str : string -> result Z.

Lemma hourly_counts_width (hits_type : groups) (m : list (list Z)) :
  _hourly_counts parse_hour int_of_str hits_type = Ok m ->
  List.Forall (fun row => length row = esconstants.NUM_BUCKETS) m.
Proof.
  unfold _hourly_counts. intros H.
  destruct (count_rows_fold _ _ _ _ _ H) as (rows & -> & Hrows).
  cbn [app]. clear H.
  induction Hrows as [|entry row g rows (Hlen & _) _ IH]; constructor; auto.
Qed.

Lemma munge_width (logtype : hkey) munge (hits : groups) (m : list (list Z)) :
  _LOGTYPE_MUNGE parse_hour int_of_str logtype = Some munge ->
  munge hits = Ok (Some m) ->
  (logtype = KStr "ossec" \/ logtype = KStr "syslog" \/
   logtype = KStr "suricata") /\
  List.Forall (fun row => length row = esconstants.NUM_BUCKETS) m.
Proof.
  unfold _LOGTYPE_MUNGE. destruct logtype as [|z|s]; try discriminate.
  destruct (String.eqb_spec s "ossec") as [->|_].
  { intros [= <-]. unfold _munge_ossec. intros H. split; [now left|].
    destruct (groups_getitem hits esconstants.KEY_OSSEC_TYPE) as [src|e];
      [|discriminate H].
    cbn [mbind result_bind bind] in H.
    destruct (_hits_by_key src esconstants.KEY_OSSEC_RULE) as [g|e];
      [|discriminate H].
    cbn [mbind result_bind bind] in H.
    destruct (_hourly_counts parse_hour int_of_str g) as [m'|e] eqn:E;
      [|discriminate H].
    cbn [mbind result_bind bind] in H. injection H as <-.
    exact (hourly_counts_width _ _ E). }
  destruct (String.eqb_spec s "syslog") as [->|_].
  { intros [= <-]. unfold _munge_syslog. intros H.
    split; [right; now left|].
    destruct (groups_getitem hits esconstants.KEY_SYSLOG_TYPE) as [src|e];
      [|discriminate H].
    cbn [mbind result_bind bind] in H.
    destruct (_hits_by_key src esconstants.KEY_SYSLOG_SEV) as [g|e];
      [|discriminate H].
    cbn [mbind result_bind bind] in H.
    destruct (_hourly_counts parse_hour int_of_str g) as [m'|e] eqn:E;
      [|discriminate H].
    cbn [mbind result_bind bind] in H. injection H as <-.
    exact (hourly_counts_width _ _ E). }
  destruct (String.eqb_spec s "suricata") as [->|_]; [|discriminate].
  intros [= <-]. unfold _munge_suricata. intros H.
  split; [right; now right|].
  destruct (groups_getitem hits esconstants.KEY_SURICATA_TYPE) as [src|e];
    [|discriminate H].
  cbn [mbind result_bind bind] in H.
  destruct (collect_alerts src []) as [alerts|]; [|discriminate H].
  destruct (_hits_by_key alerts esconstants.KEY_SURICATA_SIG) as [g|e];
    [|discriminate H].
  cbn [mbind result_bind bind] in H.
  destruct (_hourly_counts parse_hour int_of_str g) as [m'|e] eqn:E;
    [|discriminate H].
  cbn [mbind result_bind bind] in H. injection H as <-.
  exact (hourly_counts_width _ _ E).
Qed.

Lemma count_day_body_raised (hits_day : groups) (l : groups) (e : exn) :
  fold_left (count_day_body parse_hour int_of_str hits_day) l (Raise e)
  = Raise e.
Proof. induction l as [|h l IH]; [reflexivity|exact IH]. Qed.

(** The loop over the log types: what it adds to [counts_day]. *)
Lemma count_day_fold (hits_day l : groups)
    (acc counts : list (hkey * list (list Z))) :
  fold_left (count_day_body parse_hour int_of_str hits_day) l (Ok acc)
    = Ok counts ->
  exists added,
    counts = acc ++ added /\
    (forall k, In k (map fst added) -> In k (map fst l)) /\
    (List.NoDup (map fst l) -> List.NoDup (map fst added)) /\
    forall k m, In (k, m) added ->
      exists munge,
        _LOGTYPE_MUNGE parse_hour int_of_str k = Some munge /\
        munge hits_day = Ok (Some m).
Proof.
  revert acc. induction l as [|[k0 hits] l IH]; intros acc.
  - cbn. intros [= <-]. exists []. rewrite app_nil_r.
    split; [reflexivity|]. split; [auto|]. split; [constructor|].
    intros k m [].
  - cbn [fold_left]. unfold count_day_body at 2.
    cbn [mbind result_bind bind fst].
    destruct (_LOGTYPE_MUNGE parse_hour int_of_str k0) as [munge|] eqn:Em.
    + destruct (munge hits_day) as [[m0|]|e] eqn:Er;
        cbn [mbind result_bind bind].
      * intros H. destruct (IH _ H) as (added & -> & Hsub & Hdup & Hin).
        exists ((k0, m0) :: added). rewrite <- app_assoc.
        split; [reflexivity|]. split; [|split].
        -- intros k [<-|Hk]; [now left|right; now apply Hsub].
        -- cbn [map fst]. intros Hnd. inversion Hnd as [|? ? Hnot Hnd']; subst.
           constructor; [|now apply Hdup]. intros Hk. apply Hnot.
           now apply Hsub.
        -- intros k m [[= <- <-]|Hk]; [eauto|now apply Hin].
      * intros H. destruct (IH _ H) as (added & -> & Hsub & Hdup & Hin).
        exists added. split; [reflexivity|]. split; [|split].
        -- intros k Hk. right. now apply Hsub.
        -- intros Hnd. inversion Hnd; subst. now apply Hdup.
        -- exact Hin.
      * rewrite count_day_body_raised. discriminate.
    + intros H. destruct (IH _ H) as (added & -> & Hsub & Hdup & Hin).
      exists added. split; [reflexivity|]. split; [|split].
      * intros k Hk. right. now apply Hsub.
      * intros Hnd. inversion Hnd; subst. now apply Hdup.
      * exact Hin.
Qed.

(** X16.  When [_count_day] returns, the day has at most one matrix per
    log type, only for the types of the dispatch table (ossec, syslog,
    suricata), each the result of its munge function on the hits of the
    day, and every row of every matrix has [NUM_BUCKETS] entries. *)
Theorem count_day_types (result_data : dict)
    (counts : list (hkey * list (list Z))) :
  _count_day parse_hour int_of_str result_data = Ok counts ->
  List.NoDup (map fst counts) /\
  forall logtype m, In (logtype, m) counts ->
    (logtype = KStr "ossec" \/ logtype = KStr "syslog" \/
     logtype = KStr "suricata") /\
    List.Forall (fun row => length row = esconstants.NUM_BUCKETS) m.
Proof.
  unfold _count_day. intros H.
  destruct (search_hits result_data) as [source|e]; [|discriminate H].
  cbn [mbind result_bind bind] in H.
  destruct (_hits_by_key source esconstants.KEY_ES_TYPE) as [hits_day|e]
    eqn:Eg; [|discriminate H].
  cbn [mbind result_bind bind] in H.
  destruct (count_day_fold _ _ _ _ H) as (added & -> & _ & Hdup & Hin).
  cbn [app].
  unfold _hits_by_key in Eg.
  destruct (hits_by_key_fold _ _ _ _ Eg) as (recs & _ & ->).
  destruct (filed_fold recs []) as (_ & Hnd & _). cbv zeta in Hnd.
  split; [apply Hdup, Hnd; constructor|].
  intros logtype m Hm. destruct (Hin _ _ Hm) as (munge & Hmunge & Hrun).
  exact (munge_width _ _ _ _ Hmunge Hrun).
Qed.

(** X17.  The first suricata record of a day decides for the day: when
    it is an alert, the alerts of the day, and only they, are counted by
    signature; when it is not, [_munge_suricata] returns [None] whatever
    follows. *)
Theorem munge_suricata_first_record (hits : groups) (hit : dict)
    (rest : list dict) :
  groups_getitem hits esconstants.KEY_SURICATA_TYPE = Ok (hit :: rest) ->
  _munge_suricata parse_hour int_of_str hits =
  if is_alert hit
  then hits_sev ← _hits_by_key (List.filter is_alert (hit :: rest))
                               esconstants.KEY_SURICATA_SIG;
       hit_vecs ← _hourly_counts parse_hour int_of_str hits_sev;
       Ok (Some hit_vecs)
  else Ok None.
Proof.
  intros H. unfold _munge_suricata. rewrite H.
  cbn [mbind result_bind bind].
  destruct (is_alert hit) eqn:E.
  - now rewrite (collect_alerts_alert_first hit rest E).
  - now rewrite (collect_alerts_other_first hit rest E).
Qed.

End Day.

Lemma count_day_types_witness :
  let counts := [(KStr "ossec", [(repeat 0 9 ++ [1] ++ repeat 0 14 ++ [5501])%Z])] in
  _count_day iso_hour decimal day_well_formed = Ok counts /\
  List.NoDup (map fst counts) /\
  forall logtype m, In (logtype, m) counts ->
    (logtype = KStr "ossec" \/ logtype = KStr "syslog" \/
     logtype = KStr "suricata") /\
    List.Forall (fun row => length row = esconstants.NUM_BUCKETS) m.
Proof.
  intros counts.
  assert (H : _count_day iso_hour decimal day_well_formed = Ok counts)
    by (vm_compute; reflexivity).
  split; [exact H|].
  exact (count_day_types iso_hour decimal day_well_formed counts H).
Defined.

Lemma munge_suricata_first_record_witness :
  let flow := [("type", JStr "suricata"); ("event_type", JStr "flow")] in
  let hits := [(KStr "suricata", [flow; flow])] in
  groups_getitem hits esconstants.KEY_SURICATA_TYPE = Ok [flow; flow] /\
  _munge_suricata iso_hour decimal hits = Ok None.
Proof.
  intros flow hits.
  assert (H : groups_getitem hits esconstants.KEY_SURICATA_TYPE
              = Ok [flow; flow]) by reflexivity.
  split; [exact H|].
  exact (munge_suricata_first_record iso_hour decimal hits flow [flow] H).
Defined.

(** ** Subtypes and their vectors *)

Lemma to_int_proper (n : Z) :
  Z.to_int n <> Decimal.Pos Decimal.Nil /\
  Z.to_int n <> Decimal.Neg Decimal.Nil.
Proof.
  assert (E : Z.to_int n = Decimal.norm (Z.to_int n)).
  { rewrite <- DecimalZ.to_of. now rewrite DecimalZ.of_to. }
  split; intros H; rewrite H in E; discriminate E.
Qed.

Lemma str_inj (n n' : Z) : str n = str n' -> n = n'.
Proof.
  unfold str. intros H. apply DecimalZ.to_int_inj.
  destruct (to_int_proper n) as [H1 H2], (to_int_proper n') as [H1' H2'].
  pose proof (NilZero.isi _ H1 H2) as E. rewrite H in E.
  rewrite (NilZero.isi _ H1' H2') in E. congruence.
Qed.

Lemma wide_getitem (row : list Z) :
  length row = esconstants.NUM_BUCKETS ->
  getitem row 24 = Ok (nth 24 row 0%Z).
Proof.
  intros H. apply getitem_nth. rewrite H. unfold esconstants.NUM_BUCKETS. lia.
Qed.

Lemma wide_delete (row : list Z) :
  length row = esconstants.NUM_BUCKETS ->
  delete row (esconstants.NUM_BUCKETS - 1) = Ok (firstn 24 row) /\
  length (firstn 24 row) = 24%nat.
Proof.
  intros H. unfold delete.
  change (esconstants.NUM_BUCKETS - 1)%nat with 24%nat.
  unfold esconstants.NUM_BUCKETS in H.
  rewrite decide_True by lia. rewrite skipn_all2 by lia.
  rewrite app_nil_r. split; [reflexivity|]. rewrite length_firstn. lia.
Qed.

Lemma get_subtypes_fold (vectors : list (list Z)) (acc : list string) :
  wide vectors ->
  fold_left (fun acc vector =>
               subtype_list ← acc;
               n ← getitem vector 24;
               Ok (subtype_list ++ [str n]))
            vectors (Ok acc)
  = Ok (acc ++ map subtype_of vectors).
Proof.
  intros H. revert acc. induction H as [|row vectors Hrow _ IH]; intros acc.
  - cbn. now rewrite app_nil_r.
  - cbn [fold_left map mbind result_bind bind].
    rewrite (wide_getitem row Hrow). cbn [mbind result_bind bind].
    rewrite IH. now rewrite <- app_assoc.
Qed.

Lemma get_subtypes_wide (vectors : list (list Z)) :
  wide vectors -> _get_subtypes vectors = Ok (map subtype_of vectors).
Proof. intros H. exact (get_subtypes_fold vectors [] H). Qed.

Lemma get_vector_wide (vectors : list (list Z)) (subtype : string) :
  wide vectors ->
  _get_vector vectors subtype =
  Ok (option_map (firstn 24) (first_with subtype vectors)).
Proof.
  induction 1 as [|row vectors Hrow _ IH]; [reflexivity|].
  cbn [_get_vector first_with List.find].
  rewrite (wide_getitem row Hrow). cbn [mbind result_bind bind].
  fold (subtype_of row).
  destruct (String.eqb (subtype_of row) subtype); [|exact IH].
  rewrite (proj1 (wide_delete row Hrow)). reflexivity.
Qed.

Lemma first_with_listed (vectors : list (list Z)) (subtype : string) :
  In subtype (map subtype_of vectors) ->
  exists row, first_with subtype vectors = Some row /\ In row vectors /\
              subtype_of row = subtype.
Proof.
  intros H. apply in_map_iff in H. destruct H as (row & Hs & Hin).
  unfold first_with.
  destruct (List.find _ vectors) as [row'|] eqn:E.
  - apply find_some in E. destruct E as [Hin' E]. apply String.eqb_eq in E.
    eauto.
  - apply (find_none _ _ E) in Hin. rewrite Hs, String.eqb_refl in Hin.
    discriminate.
Qed.

(** X18.  On a matrix of [_hourly_counts] (rows of [NUM_BUCKETS]
    entries), [_get_subtypes] lists the last column of every row as a
    string, and [_get_vector] finds each listed subtype: it returns the
    first 24 entries of the first row with that number, so that a later
    row with the same number is never returned. *)
Theorem get_vector_of_listed (vectors : list (list Z)) (subtype : string) :
  wide vectors ->
  _get_subtypes vectors = Ok (map subtype_of vectors) /\
  (In subtype (map subtype_of vectors) ->
   exists before row after,
     vectors = before ++ row :: after /\
     subtype_of row = subtype /\
     (forall r, In r before -> subtype_of r <> subtype) /\
     _get_vector vectors subtype = Ok (Some (firstn 24 row)) /\
     length (firstn 24 row) = 24%nat) /\
  (~ In subtype (map subtype_of vectors) ->
   _get_vector vectors subtype = Ok None).
Proof.
  intros Hw. split; [now apply get_subtypes_wide|].
  rewrite (get_vector_wide vectors subtype Hw). unfold first_with. split.
  - intros Hin. apply in_map_iff in Hin. destruct Hin as (r0 & Hs0 & Hin0).
    clear -Hw Hin0 Hs0. induction Hw as [|r vectors Hr Hw IH].
    + destruct Hin0.
    + cbn [List.find]. destruct (String.eqb_spec (subtype_of r) subtype) as [E|E].
      * exists [], r, vectors. split; [reflexivity|]. split; [exact E|].
        split; [intros ? []|]. split; [reflexivity|].
        apply (wide_delete r Hr).
      * destruct Hin0 as [->|Hin0]; [contradiction|].
        destruct (IH Hin0) as (before & row & after & -> & Hs & Hb & Hg & Hl).
        exists (r :: before), row, after. split; [reflexivity|].
        split; [exact Hs|]. split; [|split; [exact Hg|exact Hl]].
        intros x [<-|Hx]; [exact E|now apply Hb].
  - intros Hnot. destruct (List.find _ vectors) as [row|] eqn:E; [|reflexivity].
    apply find_some in E. destruct E as [Hin E]. apply String.eqb_eq in E.
    exfalso. apply Hnot. apply in_map_iff. eauto.
Qed.

Lemma get_vector_of_listed_witness :
  let vectors := [(repeat 1 24 ++ [7])%Z; (repeat 2 24 ++ [7])%Z] in
  wide vectors /\
  _get_subtypes vectors = Ok ["7"; "7"] /\
  _get_vector vectors "7" = Ok (Some (repeat 1%Z 24)).
Proof.
  intros vectors.
  assert (Hw : wide vectors) by (repeat constructor).
  split; [exact Hw|].
  destruct (get_vector_of_listed vectors "7" Hw) as (Hs & _ & _).
  split; [exact Hs|]. vm_compute. reflexivity.
Defined.

(** ** The structure by type and subtype *)

Lemma entry_of_rows_shaped (a : organized) :
  shaped a -> entry_of_rows (rows_of (Some a)) = Some a.
Proof.
  destruct a as [|v|m]; cbn; [tauto|reflexivity|].
  intros [Hm _]. destruct m as [|r [|r' m]]; cbn in Hm; try lia. reflexivity.
Qed.

Lemma rows_of_entry (rows : list (list Z)) :
  rows_of (entry_of_rows rows) = rows.
Proof. destruct rows as [|r [|r' rows]]; reflexivity. Qed.

Lemma shaped_rows (a : organized) :
  shaped a ->
  rows_of (Some a) <> [] /\
  List.Forall (fun r => length r = 24%nat) (rows_of (Some a)).
Proof.
  destruct a as [|v|m]; cbn; [tauto| |].
  - intros H. split; [discriminate|]. now repeat constructor.
  - intros [Hm Hall]. split; [|exact Hall]. destruct m; [cbn in Hm; lia|].
    discriminate.
Qed.

Lemma entry_of_rows_is_shaped (rows : list (list Z)) (a : organized) :
  List.Forall (fun r => length r = 24%nat) rows ->
  entry_of_rows rows = Some a -> shaped a.
Proof.
  destruct rows as [|r [|r' rows]]; cbn; intros Hall [= <-]; cbn.
  - now apply List.Forall_inv in Hall.
  - split; [lia|exact Hall].
Qed.

(** One subtype of the inner loop: a row is put under its key, or stacked
    on the rows that are there. *)
Lemma organize_subtype_step (vectors : list (list Z))
    (by_subtype : gmap string organized) (subtype : string) (row : list Z) :
  wide vectors ->
  (forall st a, by_subtype !! st = Some a -> shaped a) ->
  first_with subtype vectors = Some row ->
  exists x,
    organize_subtype vectors (Ok by_subtype) subtype
      = Ok (<[subtype := x]> by_subtype) /\
    shaped x /\
    rows_of (Some x) = rows_of (by_subtype !! subtype) ++ [firstn 24 row].
Proof.
  intros Hw Hsh Hfirst. unfold organize_subtype.
  cbn [mbind result_bind bind].
  rewrite (get_vector_wide vectors subtype Hw), Hfirst.
  cbn [option_map mbind result_bind bind].
  assert (Hrow : length (firstn 24 row) = 24%nat).
  { apply find_some in Hfirst. destruct Hfirst as [Hin _].
    unfold wide in Hw. rewrite List.Forall_forall in Hw.
    apply (wide_delete row (Hw row Hin)). }
  destruct (by_subtype !! subtype) as [a|] eqn:Ea.
  - pose proof (Hsh _ _ Ea) as Ha. destruct a as [|v|m]; cbn in Ha; [tauto| |].
    + cbn [vstack_counts]. rewrite Ha, Hrow. cbn [Nat.eqb mbind result_bind bind].
      change (Nat.eqb 24 24) with true. cbn iota.
      eexists. split; [reflexivity|]. split; [|reflexivity].
      cbn. split; [lia|]. repeat constructor; assumption.
    + destruct Ha as [Hm Hall]. cbn [vstack_counts].
      assert (E : forallb (fun r => Nat.eqb (length r)
                                      (length (firstn 24 row))) m = true).
      { apply forallb_forall. intros r Hr. rewrite List.Forall_forall in Hall.
        rewrite (Hall r Hr), Hrow. reflexivity. }
      rewrite E. cbn [mbind result_bind bind].
      eexists. split; [reflexivity|]. split; [|reflexivity].
      cbn. rewrite length_app. split; [lia|].
      apply List.Forall_app. split; [exact Hall|]. now repeat constructor.
  - eexists. split; [reflexivity|]. split; [exact Hrow|reflexivity].
Qed.

Lemma organize_subtype_raised (vectors : list (list Z)) (l : list string)
    (e : exn) :
  fold_left (organize_subtype vectors) l (Raise e) = Raise e.
Proof. induction l as [|s l IH]; [reflexivity|exact IH]. Qed.

Lemma picked_by_cons (vectors : list (list Z)) (s : string)
    (l : list string) (st : string) :
  picked_by vectors (s :: l) st =
  (if decide (s = st) then picked_by vectors [s] st else [])
  ++ picked_by vectors l st.
Proof.
  unfold picked_by. destruct (first_with st vectors) as [row|];
    [|now destruct (decide (s = st))].
  cbn [count_occ]. destruct (string_dec s st) as [E|E].
  - rewrite decide_True by exact E. reflexivity.
  - rewrite decide_False by exact E. reflexivity.
Qed.

(** The inner loop over listed subtypes. *)
Lemma organize_subtypes (vectors : list (list Z)) (l : list string)
    (by_subtype : gmap string organized) :
  wide vectors ->
  (forall s, In s l -> In s (map subtype_of vectors)) ->
  (forall st a, by_subtype !! st = Some a -> shaped a) ->
  exists by_subtype',
    fold_left (organize_subtype vectors) l (Ok by_subtype) = Ok by_subtype' /\
    (forall st a, by_subtype' !! st = Some a -> shaped a) /\
    forall st, rows_of (by_subtype' !! st) =
               rows_of (by_subtype !! st) ++ picked_by vectors l st.
Proof.
  intros Hw. revert by_subtype.
  induction l as [|s l IH]; intros by_subtype Hl Hsh.
  - exists by_subtype. split; [reflexivity|]. split; [exact Hsh|].
    intros st. unfold picked_by. destruct (first_with st vectors);
      cbn; now rewrite app_nil_r.
  - cbn [fold_left].
    destruct (first_with_listed vectors s (Hl s (or_introl eq_refl)))
      as (row & Hfirst & _ & _).
    destruct (organize_subtype_step vectors by_subtype s row Hw Hsh Hfirst)
      as (x & -> & Hx & Hrows).
    destruct (IH (<[s := x]> by_subtype)) as (bs' & -> & Hsh' & Hrows').
    { intros s' Hs'. apply Hl. now right. }
    { intros st a. destruct (decide (st = s)) as [->|Hne].
      - rewrite lookup_insert_eq. now intros [= <-].
      - rewrite lookup_insert_ne by congruence. apply Hsh. }
    exists bs'. split; [reflexivity|]. split; [exact Hsh'|].
    intros st. rewrite Hrows', picked_by_cons.
    destruct (decide (s = st)) as [<-|Hne].
    + rewrite lookup_insert_eq, Hrows, <- app_assoc. f_equal. f_equal.
      unfold picked_by. rewrite Hfirst. cbn [count_occ].
      destruct (string_dec s s); [reflexivity|congruence].
    + rewrite lookup_insert_ne by congruence. reflexivity.
Qed.

Lemma lookup_vector_insert {A : Type} (d : gmap hkey (gmap string A))
    (tk : hkey) (m : gmap string A) (tk' : hkey) (st : string) :
  lookup_vector (<[tk := m]> d) tk' st =
  if decide (tk' = tk) then m !! st else lookup_vector d tk' st.
Proof.
  unfold lookup_vector. destruct (decide (tk' = tk)) as [->|Hne].
  - now rewrite lookup_insert_eq.
  - now rewrite lookup_insert_ne by congruence.
Qed.

Lemma organize_type_step (outdict : gmap hkey (gmap string organized))
    (entry : hkey * list (list Z)) :
  wide (snd entry) ->
  (forall tk st a, lookup_vector outdict tk st = Some a -> shaped a) ->
  exists outdict',
    organize_type (Ok outdict) entry = Ok outdict' /\
    (forall tk st a, lookup_vector outdict' tk st = Some a -> shaped a) /\
    forall tk st,
      rows_of (lookup_vector outdict' tk st) =
      rows_of (lookup_vector outdict tk st) ++
      (if decide (fst entry = tk) then picked (snd entry) st else []).
Proof.
  intros Hw Hsh. destruct entry as [type_key vectors]. cbn [fst snd] in *.
  unfold organize_type. cbn [mbind result_bind bind fst snd].
  rewrite (get_subtypes_wide vectors Hw). cbn [mbind result_bind bind].
  set (outdict0 := match outdict !! type_key with
                   | None => <[type_key := ∅]> outdict
                   | Some _ => outdict
                   end).
  assert (H0 : forall tk st,
            lookup_vector outdict0 tk st = lookup_vector outdict tk st).
  { intros tk st. unfold outdict0.
    destruct (outdict !! type_key) eqn:E; [reflexivity|].
    rewrite lookup_vector_insert. destruct (decide (tk = type_key)) as [->|];
      [|reflexivity].
    unfold lookup_vector. rewrite E. cbn. apply lookup_empty. }
  assert (Hd : forall st, default ∅ (outdict0 !! type_key) !! st
                          = lookup_vector outdict type_key st).
  { intros st. rewrite <- H0. unfold lookup_vector.
    destruct (outdict0 !! type_key); cbn; [reflexivity|apply lookup_empty]. }
  destruct (organize_subtypes vectors (map subtype_of vectors)
              (default ∅ (outdict0 !! type_key)) Hw)
    as (bs' & -> & Hsh' & Hrows).
  { auto. }
  { intros st a. rewrite Hd. apply Hsh. }
  cbn [mbind result_bind bind]. eexists. split; [reflexivity|]. split.
  - intros tk st a. rewrite lookup_vector_insert.
    destruct (decide (tk = type_key)); [apply Hsh'|].
    rewrite H0. apply Hsh.
  - intros tk st. rewrite lookup_vector_insert.
    destruct (decide (tk = type_key)) as [->|Hne].
    + rewrite decide_True by reflexivity. rewrite Hrows, Hd. reflexivity.
    + rewrite decide_False by congruence. now rewrite H0, app_nil_r.
Qed.

Lemma organize_vectors_fold (invecs : list (hkey * list (list Z)))
    (outdict : gmap hkey (gmap string organized)) :
  List.Forall (fun entry => wide (snd entry)) invecs ->
  (forall tk st a, lookup_vector outdict tk st = Some a -> shaped a) ->
  exists outdict',
    _organize_vectors invecs outdict = Ok outdict' /\
    (forall tk st a, lookup_vector outdict' tk st = Some a -> shaped a) /\
    forall tk st,
      rows_of (lookup_vector outdict' tk st) =
      rows_of (lookup_vector outdict tk st) ++ contributed invecs tk st.
Proof.
  unfold _organize_vectors. intros Hw. revert outdict.
  induction Hw as [|entry invecs He _ IH]; intros outdict Hsh.
  - exists outdict. split; [reflexivity|]. split; [exact Hsh|].
    intros. cbn. now rewrite app_nil_r.
  - cbn [fold_left].
    destruct (organize_type_step outdict entry He Hsh)
      as (outdict1 & -> & Hsh1 & Hrows1).
    destruct (IH outdict1 Hsh1) as (outdict' & -> & Hsh' & Hrows').
    exists outdict'. split; [reflexivity|]. split; [exact Hsh'|].
    intros tk st. rewrite Hrows', Hrows1, <- app_assoc. reflexivity.
Qed.

Lemma shaped_lookup {d : gmap hkey (gmap string organized)} :
  (forall tk st a, lookup_vector d tk st = Some a -> shaped a) ->
  forall tk st, lookup_vector d tk st
                = entry_of_rows (rows_of (lookup_vector d tk st)).
Proof.
  intros Hsh tk st. destruct (lookup_vector d tk st) as [a|] eqn:E;
    [|reflexivity].
  symmetry. apply entry_of_rows_shaped. exact (Hsh _ _ _ E).
Qed.

(** X19.  [_organize_vectors] returns on matrices of [_hourly_counts]
    and a dictionary of 24-count entries, and leaves such a dictionary:
    the entry of a type and subtype holds the rows it held, followed, for
    every row of the type's matrix with that subtype, by the 24 counts of
    the first such row; it is a vector when it holds one row and a matrix
    when it holds more. *)
Theorem organize_vectors_rows (invecs : list (hkey * list (list Z)))
    (outdict : gmap hkey (gmap string organized)) :
  List.Forall (fun entry => wide (snd entry)) invecs ->
  (forall tk st a, lookup_vector outdict tk st = Some a -> shaped a) ->
  exists outdict',
    _organize_vectors invecs outdict = Ok outdict' /\
    (forall tk st a, lookup_vector outdict' tk st = Some a -> shaped a) /\
    forall tk st,
      lookup_vector outdict' tk st =
      entry_of_rows (rows_of (lookup_vector outdict tk st)
                     ++ contributed invecs tk st).
Proof.
  intros Hw Hsh.
  destruct (organize_vectors_fold invecs outdict Hw Hsh)
    as (outdict' & Hrun & Hsh' & Hrows).
  exists outdict'. split; [exact Hrun|]. split; [exact Hsh'|].
  intros tk st. rewrite <- Hrows. now apply shaped_lookup.
Qed.

Lemma organize_vectors_rows_witness :
  let invecs := [(KStr "ossec", [(repeat 1 24 ++ [7])%Z;
                                 (repeat 2 24 ++ [7])%Z])] in
  List.Forall (fun entry => wide (snd entry)) invecs /\
  exists outdict',
    _organize_vectors invecs ∅ = Ok outdict' /\
    (forall tk st a, lookup_vector outdict' tk st = Some a -> shaped a) /\
    forall tk st,
      lookup_vector outdict' tk st =
      entry_of_rows (rows_of (lookup_vector (∅ : gmap hkey (gmap string organized)) tk st)
                     ++ contributed invecs tk st).
Proof.
  intros invecs.
  assert (Hw : List.Forall (fun entry => wide (snd entry)) invecs)
    by (repeat constructor).
  split; [exact Hw|].
  apply (organize_vectors_rows invecs ∅ Hw).
  intros tk st a H. unfold lookup_vector in H. rewrite lookup_empty in H.
  discriminate H.
Defined.

(** ** The vectors of the test day *)

Section DayVectors.

Variable parse_hour : string -> result nat.
Variable int_of_str : string -> result Z.

Lemma count_day_wide (result_data : dict)
    (counts : list (hkey * list (list Z))) :
  _count_day parse_hour int_of_str result_data = Ok counts ->
  List.NoDup (map fst counts) /\
  List.Forall (fun entry => wide (snd entry)) counts.
Proof.
  unfold _count_day. intros H.
  destruct (search_hits result_data) as [source|e]; [|discriminate H].
  cbn [mbind result_bind bind] in H.
  destruct (_hits_by_key source esconstants.KEY_ES_TYPE) as [hits_day|e]
    eqn:Eg; [|discriminate H].
  cbn [mbind result_bind bind] in H.
  destruct (count_day_fold _ _ _ _ _ _ H) as (added & -> & _ & Hdup & Hin).
  cbn [app]. unfold _hits_by_key in Eg.
  destruct (hits_by_key_fold _ _ _ _ Eg) as (recs & _ & ->).
  destruct (filed_fold recs []) as (_ & Hnd & _). cbv zeta in Hnd.
  split; [apply Hdup, Hnd; constructor|].
  apply List.Forall_forall. intros [logtype m] Hm.
  destruct (Hin _ _ Hm) as (munge & Hmunge & Hrun).
  exact (proj2 (munge_width _ _ _ _ _ _ Hmunge Hrun)).
Qed.

Lemma contributed_unique (invecs : list (hkey * list (list Z)))
    (tk : hkey) (vectors : list (list Z)) (st : string) :
  List.NoDup (map fst invecs) -> In (tk, vectors) invecs ->
  contributed invecs tk st = picked vectors st.
Proof.
  unfold contributed. induction invecs as [|[k v] invecs IH];
    intros Hnd Hin; [destruct Hin|].
  cbn [map fst] in Hnd. inversion Hnd as [|? ? Hnot Hnd']; subst.
  cbn [flat_map fst snd]. destruct Hin as [[= -> ->]|Hin].
  - rewrite decide_True by reflexivity.
    assert (E : flat_map (fun entry => if decide (fst entry = tk)
                                       then picked (snd entry) st else [])
                         invecs = []).
    { clear -Hnot. induction invecs as [|[k v] invecs IH]; [reflexivity|].
      cbn [flat_map fst snd]. destruct (decide (k = tk)) as [->|_].
      - exfalso. apply Hnot. now left.
      - cbn [app]. apply IH. intros H. apply Hnot. now right. }
    rewrite E. apply app_nil_r.
  - destruct (decide (k = tk)) as [->|_].
    + exfalso. apply Hnot. apply in_map_iff. exists (tk, vectors). auto.
    + cbn [app]. now apply IH.
Qed.

Lemma contributed_absent (invecs : list (hkey * list (list Z)))
    (tk : hkey) (st : string) :
  ~ In tk (map fst invecs) -> contributed invecs tk st = [].
Proof.
  unfold contributed. induction invecs as [|[k v] invecs IH]; intros Hnot;
    [reflexivity|].
  cbn [flat_map fst snd]. destruct (decide (k = tk)) as [->|_].
  - exfalso. apply Hnot. now left.
  - cbn [app]. apply IH. intros H. apply Hnot. now right.
Qed.

Lemma NoDup_map_injective {A B : Type} (f : A -> B) (l : list A) (x y : A) :
  List.NoDup (map f l) -> In x l -> In y l -> f x = f y -> x = y.
Proof.
  induction l as [|a l IH]; intros Hnd Hx Hy E; [destruct Hx|].
  cbn [map] in Hnd. inversion Hnd as [|? ? Hnot Hnd']; subst.
  destruct Hx as [->|Hx], Hy as [->|Hy]; auto.
  - exfalso. apply Hnot. rewrite E. now apply in_map.
  - exfalso. apply Hnot. rewrite <- E. now apply in_map.
Qed.

Lemma picked_distinct (vectors : list (list Z)) (row : list Z) :
  List.NoDup (map subtype_of vectors) -> In row vectors ->
  picked vectors (subtype_of row) = [firstn 24 row].
Proof.
  intros Hnd Hin. unfold picked, picked_by.
  destruct (first_with_listed vectors (subtype_of row) (in_map _ _ _ Hin))
    as (row' & -> & Hin' & E).
  assert (row' = row) as -> by
    exact (NoDup_map_injective subtype_of vectors row' row Hnd Hin' Hin E).
  assert (C : count_occ string_dec (map subtype_of vectors) (subtype_of row)
              = 1%nat).
  { apply NoDup_count_occ'; [exact Hnd|]. now apply in_map. }
  now rewrite C.
Qed.

Lemma picked_unlisted (vectors : list (list Z)) (st : string) :
  ~ In st (map subtype_of vectors) -> picked vectors st = [].
Proof.
  intros Hnot. unfold picked, picked_by.
  destruct (first_with st vectors) as [row|] eqn:E; [|reflexivity].
  apply find_some in E. destruct E as [Hin E]. apply String.eqb_eq in E.
  exfalso. apply Hnot. rewrite <- E. now apply in_map.
Qed.

(** X20.  When [_count_day] returns on the data of the day,
    [get_day_vectors] returns too, and [day_vecs] holds, for every type
    whose rows have distinct subtype numbers, under the number of each row
    the 24 hourly counts of that row, and nothing under any other key. *)
Theorem day_vectors_are_counts (_day_data : dict)
    (counts : list (hkey * list (list Z))) :
  _count_day parse_hour int_of_str _day_data = Ok counts ->
  exists day_vecs,
    get_day_vectors parse_hour int_of_str _day_data = Ok day_vecs /\
    (forall type_key vectors row,
       In (type_key, vectors) counts ->
       List.NoDup (map (fun row => nth 24 row 0%Z) vectors) ->
       In row vectors ->
       lookup_vector day_vecs type_key (str (nth 24 row 0%Z))
       = Some (Vector (firstn 24 row))) /\
    (forall type_key vectors subtype,
       In (type_key, vectors) counts ->
       ~ In subtype (map subtype_of vectors) ->
       lookup_vector day_vecs type_key subtype = None) /\
    (forall type_key subtype,
       ~ In type_key (map fst counts) ->
       lookup_vector day_vecs type_key subtype = None).
Proof.
  intros Hcount. unfold get_day_vectors. rewrite Hcount.
  cbn [mbind result_bind bind].
  destruct (count_day_wide _ _ Hcount) as [Hnd Hw].
  destruct (organize_vectors_fold counts ∅ Hw) as (day_vecs & -> & Hsh & Hrows).
  { intros tk st a H. unfold lookup_vector in H. rewrite lookup_empty in H.
    discriminate H. }
  exists day_vecs. split; [reflexivity|].
  assert (L : forall tk st, lookup_vector day_vecs tk st
                            = entry_of_rows (contributed counts tk st)).
  { intros tk st. rewrite (shaped_lookup Hsh), Hrows.
    unfold lookup_vector at 1. rewrite lookup_empty. reflexivity. }
  split; [|split].
  - intros tk vectors row Hin Hdistinct Hrow. rewrite L.
    rewrite (contributed_unique counts tk vectors _ Hnd Hin).
    fold (subtype_of row). rewrite picked_distinct; [reflexivity| |exact Hrow].
    rewrite <- (List.map_map (fun row => nth 24 row 0%Z) str).
    apply NoDup_map_NoDup_ForallPairs; [|exact Hdistinct].
    intros x y _ _. apply str_inj.
  - intros tk vectors st Hin Hnot. rewrite L.
    rewrite (contributed_unique counts tk vectors _ Hnd Hin).
    now rewrite picked_unlisted.
  - intros tk st Hnot. rewrite L. now rewrite contributed_absent.
Qed.

End DayVectors.

Lemma day_vectors_are_counts_witness :
  let counts :=
    [(KStr "ossec", [(repeat 0 9 ++ [1] ++ repeat 0 14 ++ [5501])%Z])] in
  _count_day iso_hour decimal day_well_formed = Ok counts /\
  exists day_vecs,
    get_day_vectors iso_hour decimal day_well_formed = Ok day_vecs /\
    lookup_vector day_vecs (KStr "ossec") "5501"
    = Some (Vector (repeat 0 9 ++ [1] ++ repeat 0 14)%Z).
Proof.
  intros counts.
  assert (H : _count_day iso_hour decimal day_well_formed = Ok counts)
    by (vm_compute; reflexivity).
  split; [exact H|].
  destruct (day_vectors_are_counts iso_hour decimal day_well_formed counts H)
    as (day_vecs & Hrun & Hrows & _).
  exists day_vecs. split; [exact Hrun|].
  apply (Hrows (KStr "ossec")
           [(repeat 0 9 ++ [1] ++ repeat 0 14 ++ [5501])%Z]
           (repeat 0 9 ++ [1] ++ repeat 0 14 ++ [5501])%Z).
  - now left.
  - repeat constructor. intros [].
  - now left.
Defined.

(** ** The history of a month *)

Lemma weekday_pred (d : Z) : ((weekday d - 1) mod 7 = weekday (d - 1))%Z.
Proof.
  unfold weekday. rewrite Zminus_mod_idemp_l. f_equal. lia.
Qed.

Lemma weekday_range (d : Z) : (0 <= weekday d < 7)%Z.
Proof. unfold weekday. apply Z.mod_pos_bound. lia. Qed.

Section History.

Variable parse_hour : string -> result nat.
Variable int_of_str : string -> result Z.
Variable post : Z -> result dict.

Lemma fetch_day_raised (l : list Z) (e : exn) :
  fold_left (fetch_day parse_hour int_of_str post) l (Raise e) = Raise e.
Proof. induction l as [|d l IH]; [reflexivity|exact IH]. Qed.

Lemma fetch_day_step acc dayofweek adate acc' dayofweek' :
  fetch_day parse_hour int_of_str post (Ok (acc, dayofweek)) adate
    = Ok (acc', dayofweek') ->
  dayofweek' = ((dayofweek - 1) mod 7)%Z /\
  ((day_of_history parse_hour int_of_str post adate None /\ acc' = acc) \/
   exists v, day_of_history parse_hour int_of_str post adate (Some v) /\
             acc' = acc ++ [(dayofweek, v)]).
Proof.
  unfold fetch_day. cbn [mbind result_bind bind].
  destruct (post adate) as [r|e] eqn:Ep; [|discriminate].
  cbn [mbind result_bind bind].
  destruct (total_is_zero r) as [[|]|e] eqn:Et; [| |discriminate];
    cbn [mbind result_bind bind].
  - intros [= <- <-]. split; [reflexivity|]. left. split; [|reflexivity].
    exists r. split; [exact Ep|exact Et].
  - destruct (_count_day parse_hour int_of_str r) as [v|e] eqn:Ec;
      [|discriminate].
    cbn [mbind result_bind bind]. intros [= <- <-].
    split; [reflexivity|]. right. exists v. split; [|reflexivity].
    exists r. split; [exact Ep|]. split; [exact Et|exact Ec].
Qed.

Lemma fetch_fold (now now' : Z) (n a : nat) acc month dow :
  fold_left (fetch_day parse_hour int_of_str post)
            (map (fun i => (now - (esconstants.TEST_DAY + 1) - Z.of_nat i)%Z)
                 (seq a n))
            (Ok (acc, weekday (now' - 2 - Z.of_nat a)))
    = Ok (month, dow) ->
  exists added,
    month = acc ++ added /\
    List.Forall (fun e => exists i, (a <= i < a + n)%nat /\
                   fst e = weekday (now' - 2 - Z.of_nat i) /\
                   day_of_history parse_hour int_of_str post (now - 2 - Z.of_nat i) (Some (snd e)))
                added /\
    forall i, (a <= i < a + n)%nat ->
      day_of_history parse_hour int_of_str post (now - 2 - Z.of_nat i) None \/
      exists v, day_of_history parse_hour int_of_str post (now - 2 - Z.of_nat i) (Some v) /\
                In (weekday (now' - 2 - Z.of_nat i), v) added.
Proof.
  change (esconstants.TEST_DAY + 1)%Z with 2%Z.
  revert a acc. induction n as [|n IH]; intros a acc.
  - cbn. intros [= <- <-]. exists []. rewrite app_nil_r.
    split; [reflexivity|]. split; [constructor|]. intros i Hi. lia.
  - cbn [seq map fold_left].
    destruct (fetch_day parse_hour int_of_str post
                (Ok (acc, weekday (now' - 2 - Z.of_nat a)))
                (now - 2 - Z.of_nat a)) as [[acc1 dow1]|e] eqn:E1;
      [|now rewrite fetch_day_raised].
    destruct (fetch_day_step _ _ _ _ _ E1) as [Hdow Hacc].
    rewrite weekday_pred in Hdow.
    replace (now' - 2 - Z.of_nat a - 1)%Z with (now' - 2 - Z.of_nat (S a))%Z
      in Hdow by lia.
    subst dow1. intros H. destruct (IH _ _ H) as (added & -> & Hall & Hcov).
    destruct Hacc as [[Hnone ->]|(v & Hv & ->)].
    + exists added. split; [reflexivity|]. split.
      * revert Hall. apply List.Forall_impl. intros e (i & Hi & He).
        exists i. split; [lia|exact He].
      * intros i Hi. destruct (decide (i = a)) as [->|Hne]; [now left|].
        apply Hcov. lia.
    + exists ((weekday (now' - 2 - Z.of_nat a), v) :: added).
      rewrite <- app_assoc. split; [reflexivity|]. split.
      * constructor.
        -- exists a. cbn [fst snd]. split; [lia|]. split; [reflexivity|exact Hv].
        -- revert Hall. apply List.Forall_impl. intros e (i & Hi & He).
           exists i. split; [lia|exact He].
      * intros i Hi. destruct (decide (i = a)) as [->|Hne].
        -- right. exists v. split; [exact Hv|now left].
        -- destruct (Hcov i ltac:(lia)) as [Hn|(w & Hw & Hin)]; [now left|].
           right. exists w. split; [exact Hw|now right].
Qed.

(** X21.  The history [get_avg_vectors] collects: every entry of
    [month_vecs] is made of the vectors of one of the [NUM_DAYS] days that
    end two days before the first reading of the clock, and every such day
    with hits has its entry; the test day is not among them.  A day
    without hits has no entry and does not shift the weekdays of the
    others.  The entry of the day [i] days back is filed under the weekday
    of the day [i] days back from the second reading of the clock: under
    the weekday of its own date when both readings fall on the same day. *)
Theorem month_weekdays (now now' : Z)
    (month : list (Z * list (hkey * list (list Z)))) :
  month_vecs parse_hour int_of_str post now now' = Ok month ->
  List.Forall
    (fun e => exists i, (i < esconstants.NUM_DAYS)%nat /\
       let adate := (now - 2 - Z.of_nat i)%Z in
       adate <> (now - esconstants.TEST_DAY)%Z /\
       fst e = weekday (adate + (now' - now)) /\
       day_of_history parse_hour int_of_str post adate (Some (snd e)))
    month /\
  forall i, (i < esconstants.NUM_DAYS)%nat ->
    let adate := (now - 2 - Z.of_nat i)%Z in
    day_of_history parse_hour int_of_str post adate None \/
    exists v, day_of_history parse_hour int_of_str post adate (Some v) /\
              In (weekday (adate + (now' - now)), v) month.
Proof.
  unfold month_vecs, dates. intros H.
  destruct (fold_left _ _ _) as [[m dow]|e] eqn:E; [|discriminate H].
  cbn [mbind result_bind bind] in H. injection H as <-.
  change (esconstants.TEST_DAY + 1)%Z with 2%Z in E at 2.
  replace (now' - 2)%Z with (now' - 2 - Z.of_nat 0)%Z in E by (cbn; lia).
  destruct (fetch_fold now now' _ 0 [] m dow E) as (added & -> & Hall & Hcov).
  cbn [app]. split.
  - revert Hall. apply List.Forall_impl. intros e (i & Hi & Hdow & Hday).
    exists i. split; [lia|]. cbv zeta. split.
    + unfold esconstants.TEST_DAY. lia.
    + split; [|exact Hday]. rewrite Hdow. f_equal. lia.
  - intros i Hi. cbv zeta.
    destruct (Hcov i ltac:(lia)) as [Hn|(v & Hv & Hin)]; [now left|].
    right. exists v. split; [exact Hv|].
    replace (now - 2 - Z.of_nat i + (now' - now))%Z
      with (now' - 2 - Z.of_nat i)%Z by lia.
    exact Hin.
Qed.

End History.

(** ** The vectors by weekday *)

Lemma lookup_day_insert {A : Type} (d : gmap Z (gmap hkey (gmap string A)))
    (day : Z) (m : gmap hkey (gmap string A)) (day' : Z) (tk : hkey)
    (st : string) :
  lookup_day (<[day := m]> d) day' tk st =
  if decide (day' = day) then lookup_vector m tk st
  else lookup_day d day' tk st.
Proof.
  unfold lookup_day. destruct (decide (day' = day)) as [->|Hne].
  - now rewrite lookup_insert_eq.
  - now rewrite lookup_insert_ne by congruence.
Qed.

Lemma group_day_step (grouped : gmap Z (gmap hkey (gmap string organized)))
    (entry : Z * list (hkey * list (list Z))) :
  List.Forall (fun e => wide (snd e)) (snd entry) ->
  (forall day tk st a, lookup_day grouped day tk st = Some a -> shaped a) ->
  exists grouped',
    group_day (Ok grouped) entry = Ok grouped' /\
    (forall day tk st a, lookup_day grouped' day tk st = Some a -> shaped a)
    /\
    (forall day, is_Some (grouped' !! day) ->
                 day = fst entry \/ is_Some (grouped !! day)) /\
    forall day tk st,
      rows_of (lookup_day grouped' day tk st) =
      rows_of (lookup_day grouped day tk st) ++
      (if decide (fst entry = day) then contributed (snd entry) tk st
       else []).
Proof.
  intros Hw Hsh. destruct entry as [d vecs]. cbn [fst snd] in *.
  unfold group_day. cbn [mbind result_bind bind fst snd].
  set (grouped0 := match grouped !! d with
                   | None => <[d := ∅]> grouped
                   | Some _ => grouped
                   end).
  assert (Hd : forall tk st,
            lookup_vector (default ∅ (grouped0 !! d)) tk st
            = lookup_day grouped d tk st).
  { intros tk st. unfold grouped0, lookup_day.
    destruct (grouped !! d) as [bt|] eqn:E.
    - rewrite E. reflexivity.
    - rewrite lookup_insert_eq. reflexivity. }
  assert (H0 : forall day tk st,
            lookup_day grouped0 day tk st = lookup_day grouped day tk st).
  { intros day tk st. unfold grouped0.
    destruct (grouped !! d) eqn:E; [reflexivity|].
    rewrite lookup_day_insert. destruct (decide (day = d)) as [->|];
      [|reflexivity].
    unfold lookup_day. rewrite E. cbn. unfold lookup_vector.
    now rewrite lookup_empty. }
  assert (K0 : forall day, is_Some (grouped0 !! day) ->
                           day = d \/ is_Some (grouped !! day)).
  { intros day. unfold grouped0. destruct (grouped !! d) eqn:E; [auto|].
    destruct (decide (day = d)) as [->|Hne]; [auto|].
    rewrite lookup_insert_ne by congruence. auto. }
  destruct (organize_vectors_fold vecs (default ∅ (grouped0 !! d)) Hw)
    as (by_type & -> & Hsh' & Hrows).
  { intros tk st a. rewrite Hd. apply Hsh. }
  cbn [mbind result_bind bind]. eexists. split; [reflexivity|].
  split; [|split].
  - intros day tk st a. rewrite lookup_day_insert.
    destruct (decide (day = d)); [apply Hsh'|]. rewrite H0. apply Hsh.
  - intros day Hday. destruct (decide (day = d)) as [->|Hne]; [auto|].
    rewrite lookup_insert_ne in Hday by congruence. now apply K0.
  - intros day tk st. rewrite lookup_day_insert.
    destruct (decide (day = d)) as [->|Hne].
    + rewrite decide_True by reflexivity. rewrite Hrows, Hd. reflexivity.
    + rewrite decide_False by congruence. now rewrite H0, app_nil_r.
Qed.

Lemma group_days (month : list (Z * list (hkey * list (list Z))))
    (grouped : gmap Z (gmap hkey (gmap string organized))) :
  List.Forall (fun entry => List.Forall (fun e => wide (snd e)) (snd entry))
              month ->
  (forall day tk st a, lookup_day grouped day tk st = Some a -> shaped a) ->
  exists grouped',
    fold_left group_day month (Ok grouped) = Ok grouped' /\
    (forall day tk st a, lookup_day grouped' day tk st = Some a -> shaped a)
    /\
    (forall day, is_Some (grouped' !! day) ->
                 In day (map fst month) \/ is_Some (grouped !! day)) /\
    forall day tk st,
      rows_of (lookup_day grouped' day tk st) =
      rows_of (lookup_day grouped day tk st) ++ month_rows month day tk st.
Proof.
  intros Hw. revert grouped.
  induction Hw as [|entry month He _ IH]; intros grouped Hsh.
  - exists grouped. split; [reflexivity|]. split; [exact Hsh|].
    split; [auto|]. intros. cbn. now rewrite app_nil_r.
  - cbn [fold_left].
    destruct (group_day_step grouped entry He Hsh)
      as (grouped1 & -> & Hsh1 & Hk1 & Hrows1).
    destruct (IH grouped1 Hsh1) as (grouped' & -> & Hsh' & Hk' & Hrows').
    exists grouped'. split; [reflexivity|]. split; [exact Hsh'|]. split.
    + intros day Hday. cbn [map In].
      destruct (Hk' day Hday) as [Hin|H1]; [auto|].
      destruct (Hk1 day H1) as [->|H0]; auto.
    + intros day tk st. rewrite Hrows', Hrows1, <- app_assoc. reflexivity.
Qed.

Lemma averaged_counts_shaped (a : organized) :
  shaped a ->
  exists v, averaged_counts a = Ok v /\ len v = 24%nat /\
            vector_of_rows (rows_of (Some a)) = Some v.
Proof.
  destruct a as [|v|m]; cbn [shaped averaged_counts rows_of]; [tauto| |].
  - intros H. exists (IntArr v). split; [reflexivity|].
    split; [exact H|reflexivity].
  - intros [Hm Hall]. eexists. split; [reflexivity|]. split.
    + cbn [len]. rewrite length_average.
      destruct m as [|r m]; [cbn in Hm; lia|]. cbn [map hd].
      rewrite length_map. now apply List.Forall_inv in Hall.
    + destruct m as [|r [|r' m]]; cbn in Hm; try lia. reflexivity.
Qed.

Lemma average_all (grouped : gmap Z (gmap hkey (gmap string organized))) :
  (forall day tk st a, lookup_day grouped day tk st = Some a -> shaped a) ->
  exists out,
    for_each (fun (_ : Z) by_type =>
       for_each (fun (_ : hkey) by_subtype =>
          for_each (fun (_ : string) a => averaged_counts a) ∅ by_subtype)
          ∅ by_type)
       ∅ grouped = Ok out /\
    (forall day, is_Some (out !! day) -> is_Some (grouped !! day)) /\
    forall day tk st,
      lookup_day out day tk st =
      vector_of_rows (rows_of (lookup_day grouped day tk st)).
Proof.
  intros Hsh.
  destruct (for_each_ok
    (fun (_ : Z) (by_type : gmap hkey (gmap string organized)) =>
       for_each (fun (_ : hkey) by_subtype =>
          for_each (fun (_ : string) a => averaged_counts a) ∅ by_subtype)
          ∅ by_type) ∅ grouped) as [out Hout].
  { intros day by_type Hday. apply for_each_ok. intros tk by_subtype Htk.
    apply for_each_ok. intros st a Hst.
    destruct (averaged_counts_shaped a) as (v & Hv & _); [|eauto].
    apply (Hsh day tk st). unfold lookup_day, lookup_vector.
    rewrite Hday. cbn. rewrite Htk. cbn. exact Hst. }
  exists out. split; [exact Hout|]. split.
  - intros day Hday. pose proof (for_each_lookup _ _ _ _ Hout day) as H1.
    destruct (grouped !! day); [eauto|].
    rewrite H1, lookup_empty in Hday. destruct Hday as [? Hday].
    discriminate Hday.
  - intros day tk st. unfold lookup_day, lookup_vector.
    pose proof (for_each_lookup _ _ _ _ Hout day) as H1.
    destruct (grouped !! day) as [by_type|] eqn:Eday;
      [|now rewrite H1, lookup_empty].
    destruct H1 as (bt' & Hbt' & ->). cbn.
    pose proof (for_each_lookup _ _ _ _ Hbt' tk) as H2.
    destruct (by_type !! tk) as [by_subtype|] eqn:Etk;
      [|now rewrite H2, lookup_empty].
    destruct H2 as (bs' & Hbs' & ->). cbn.
    pose proof (for_each_lookup _ _ _ _ Hbs' st) as H3.
    destruct (by_subtype !! st) as [a|] eqn:Est;
      [|now rewrite H3, lookup_empty].
    destruct H3 as (v & Hv & ->).
    destruct (averaged_counts_shaped a) as (v' & Hv' & _ & Hrows).
    { apply (Hsh day tk st). unfold lookup_day, lookup_vector.
      rewrite Eday. cbn. rewrite Etk. cbn. exact Est. }
    rewrite Hv in Hv'. injection Hv' as <-. now rewrite Hrows.
Qed.

Lemma vector_of_rows_len (rows : list (list Z)) (v : ndarray) :
  List.Forall (fun r => length r = 24%nat) rows ->
  vector_of_rows rows = Some v -> len v = 24%nat.
Proof.
  destruct rows as [|r [|r' rows]]; cbn [vector_of_rows]; intros Hall H;
    [discriminate H| |]; injection H as <-; cbn [len].
  - now apply List.Forall_inv in Hall.
  - rewrite length_average. cbn [map hd]. rewrite length_map.
    now apply List.Forall_inv in Hall.
Qed.

Section Average.

Variable parse_hour : string -> result nat.
Variable int_of_str : string -> result Z.
Variable post : Z -> result dict.

Lemma month_wide (now now' : Z)
    (month : list (Z * list (hkey * list (list Z)))) :
  month_vecs parse_hour int_of_str post now now' = Ok month ->
  List.Forall (fun entry => List.Forall (fun e => wide (snd e)) (snd entry))
              month /\
  List.Forall (fun entry => (0 <= fst entry < 7)%Z) month.
Proof.
  unfold month_vecs, dates. intros H.
  destruct (fold_left _ _ _) as [[m dow]|e] eqn:E; [|discriminate H].
  cbn [mbind result_bind bind] in H. injection H as <-.
  change (esconstants.TEST_DAY + 1)%Z with 2%Z in E at 2.
  replace (now' - 2)%Z with (now' - 2 - Z.of_nat 0)%Z in E by (cbn; lia).
  destruct (fetch_fold _ _ _ now now' _ 0 [] m dow E) as (added & -> & Hall & _).
  cbn [app]. split.
  - revert Hall. apply List.Forall_impl.
    intros e (i & _ & _ & r & _ & _ & Hcount).
    exact (proj2 (count_day_wide _ _ _ _ Hcount)).
  - revert Hall. apply List.Forall_impl. intros e (i & _ & -> & _).
    apply weekday_range.
Qed.

(** X22.  When the history of the month has been collected,
    [get_avg_vectors] returns, and [grouped_vecs] holds under a weekday,
    type and subtype the vector of the rows that the days of that weekday
    contribute to the type and subtype: nothing without a row, the counts
    themselves for one row, their mean by hour for more.  Every vector has
    24 slots and every weekday is between 0 and 6. *)
Theorem avg_vectors_by_weekday (now now' : Z)
    (month : list (Z * list (hkey * list (list Z)))) :
  month_vecs parse_hour int_of_str post now now' = Ok month ->
  exists grouped_vecs,
    get_avg_vectors parse_hour int_of_str post now now' = Ok grouped_vecs /\
    (forall day tk st,
       lookup_day grouped_vecs day tk st
       = vector_of_rows (month_rows month day tk st)) /\
    (forall day tk st v,
       lookup_day grouped_vecs day tk st = Some v -> len v = 24%nat) /\
    (forall day, is_Some (grouped_vecs !! day) -> (0 <= day < 7)%Z).
Proof.
  intros Hmonth. unfold get_avg_vectors. rewrite Hmonth.
  cbn [mbind result_bind bind].
  destruct (month_wide now now' month Hmonth) as [Hw Hdays].
  destruct (group_days month ∅ Hw) as (grouped & -> & Hsh & Hkeys & Hrows).
  { intros day tk st a H. unfold lookup_day in H. rewrite lookup_empty in H.
    discriminate H. }
  cbn [mbind result_bind bind].
  destruct (average_all grouped Hsh) as (out & -> & Hk & Hout).
  exists out. split; [reflexivity|].
  assert (L : forall day tk st,
            lookup_day out day tk st
            = vector_of_rows (month_rows month day tk st)).
  { intros day tk st. rewrite Hout, Hrows. unfold lookup_day at 1.
    rewrite lookup_empty. reflexivity. }
  split; [exact L|]. split.
  - intros day tk st v Hv. rewrite Hout in Hv.
    destruct (lookup_day grouped day tk st) as [a|] eqn:Ea;
      [|discriminate Hv].
    destruct (averaged_counts_shaped a (Hsh _ _ _ _ Ea)) as (v' & _ & Hl & Hv').
    rewrite Hv' in Hv. now injection Hv as <-.
  - intros day Hday. apply Hk in Hday.
    destruct (Hkeys day Hday) as [Hin|Hin].
    + apply in_map_iff in Hin. destruct Hin as (e & <- & Hin).
      rewrite List.Forall_forall in Hdays. now apply Hdays.
    + rewrite lookup_empty in Hin. destruct Hin as [? Hin]. discriminate Hin.
Qed.

End Average.

Lemma two_tuesdays_month :
  month_vecs iso_hour decimal two_tuesdays 735690 735690
  = Ok [(1%Z, [(KStr "ossec",
                [(repeat 0 9 ++ [1] ++ repeat 0 14 ++ [5501])%Z])]);
        (1%Z, [(KStr "ossec",
                [(repeat 0 9 ++ [1] ++ repeat 0 14 ++ [5501])%Z])])].
Proof. vm_compute. reflexivity. Qed.

Lemma month_weekdays_witness :
  let month :=
    [(1%Z, [(KStr "ossec", [(repeat 0 9 ++ [1] ++ repeat 0 14 ++ [5501])%Z])]);
     (1%Z, [(KStr "ossec", [(repeat 0 9 ++ [1] ++ repeat 0 14 ++ [5501])%Z])])]
  in
  month_vecs iso_hour decimal two_tuesdays 735690 735690 = Ok month /\
  List.Forall
    (fun e => exists i, (i < esconstants.NUM_DAYS)%nat /\
       let adate := (735690 - 2 - Z.of_nat i)%Z in
       adate <> (735690 - esconstants.TEST_DAY)%Z /\
       fst e = weekday (adate + (735690 - 735690)) /\
       day_of_history iso_hour decimal two_tuesdays adate (Some (snd e)))
    month.
Proof.
  intros month. split; [exact two_tuesdays_month|].
  exact (proj1 (month_weekdays iso_hour decimal two_tuesdays 735690 735690
                  month two_tuesdays_month)).
Defined.

Lemma avg_vectors_by_weekday_witness :
  exists grouped_vecs,
    get_avg_vectors iso_hour decimal two_tuesdays 735690 735690
      = Ok grouped_vecs /\
    lookup_day grouped_vecs 1 (KStr "ossec") "5501"
    = Some (FloatArr (repeat (0 # 2) 9 ++ [2 # 2] ++ repeat (0 # 2) 14)%Q).
Proof.
  destruct (avg_vectors_by_weekday iso_hour decimal two_tuesdays
              735690 735690 _ two_tuesdays_month)
    as (grouped_vecs & Hrun & Hrows & _).
  exists grouped_vecs. split; [exact Hrun|].
  rewrite Hrows. vm_compute. reflexivity.
Defined.

(** ** The query of a search *)

Lemma split_colon_nonempty (s : string) : split_colon s <> [].
Proof.
  destruct s as [|c s]; cbn [split_colon]; [discriminate|].
  destruct (Ascii.eqb c ":"); [discriminate|].
  destruct (split_colon s); discriminate.
Qed.

Lemma split_colon_has_colon (s : string) :
  has_colon s = true -> (2 <= length (split_colon s))%nat.
Proof.
  induction s as [|c s IH]; cbn [has_colon split_colon]; [discriminate|].
  destruct (Ascii.eqb c ":").
  - intros _. pose proof (split_colon_nonempty s).
    destruct (split_colon s); [congruence|]. cbn. lia.
  - intros H. specialize (IH H). destruct (split_colon s); cbn in *; lia.
Qed.

Lemma split_colon_prefix (term s : string) :
  colon_free term ->
  split_colon (term ++ String ":" s) = term :: split_colon s.
Proof.
  unfold colon_free.
  induction term as [|c term IH]; simpl; [reflexivity|].
  destruct (Ascii.eqb c ":"); [discriminate|]. intros H.
  rewrite (IH H). reflexivity.
Qed.

Lemma split_colon_free (s : string) :
  colon_free s -> split_colon s = [s].
Proof.
  unfold colon_free.
  induction s as [|c s IH]; cbn [split_colon has_colon]; [reflexivity|].
  destruct (Ascii.eqb c ":"); [discriminate|]. intros H.
  rewrite (IH H). reflexivity.
Qed.

Lemma has_colon_prefix (term s : string) :
  has_colon (term ++ String ":" s) = true.
Proof.
  induction term as [|c term IH]; simpl; [reflexivity|].
  destruct (Ascii.eqb c ":"); [reflexivity|exact IH].
Qed.

Lemma stock_query_outcome (a : string) (t : string) (l : list string) :
  match stock_query a (Some (t :: l)) with
  | Returns (Some _, _) =>
      a = "stringquery" \/ a = "termsagg" \/
      (a = "termquery" /\ has_colon t = true)
  | Returns (None, _) => ~ stock a
  | Raises e =>
      a = "termquery" /\ has_colon t = false /\ e = SystemExit 1
  end.
Proof.
  unfold stock_query, stock.
  destruct (String.eqb_spec a "stringquery") as [->|H1].
  { cbn. now left. }
  destruct (String.eqb_spec a "termquery") as [->|H2].
  { cbn [first_term getitem nth_error of_result mbind outcome_mbind
         outcome_bind].
    destruct (has_colon t) eqn:E; [|auto].
    pose proof (split_colon_has_colon t E) as Hlen.
    destruct (split_colon t) as [|k [|v rest]]; cbn in Hlen; try lia.
    cbn. right; right. auto. }
  destruct (String.eqb_spec a "termsagg") as [->|H3].
  { cbn. right; now left. }
  intros [?|[?|?]]; congruence.
Qed.

Section BuildQuery.

Variable json_loads : string -> result json.

(** X23.  Without a raw query, with a first term and with a range of
    three entries or none, [_build_query] returns exactly for the actions
    [stringquery] (the default), [termsagg], and [termquery] with a colon
    in the term.  A [termquery] without a colon exits with status 1, and
    any other action, such as the [count] the command line offers, reads
    [dsl_query] before it is assigned. *)
Theorem build_query_outcome (args : Namespace) (t : string)
    (l : list string) :
  query args = None ->
  terms args = Some (t :: l) ->
  (range args = None \/
   exists f lo hi rest, range args = Some (f :: lo :: hi :: rest)) ->
  let a := default "stringquery" (action args) in
  match _build_query json_loads args with
  | Returns _ =>
      a = "stringquery" \/ a = "termsagg" \/
      (a = "termquery" /\ has_colon t = true)
  | Raises e =>
      (a = "termquery" /\ has_colon t = false /\ e = SystemExit 1) \/
      (~ stock a /\ e = UnboundLocalError)
  end.
Proof.
  intros Hq Ht Hr a. unfold _build_query. rewrite Hq, Ht. fold a.
  pose proof (stock_query_outcome a t l) as Hs.
  destruct (stock_query a (Some (t :: l))) as [[[d|] agg]|e];
    cbn [mbind outcome_mbind outcome_bind].
  - destruct Hr as [->|(f & lo & hi & rest & ->)];
      cbn [bound getitem nth_error of_result mbind outcome_mbind outcome_bind];
      exact Hs.
  - destruct Hr as [->|(f & lo & hi & rest & ->)];
      cbn [bound getitem nth_error of_result mbind outcome_mbind outcome_bind];
      right; auto.
  - left. exact Hs.
Qed.

(** X24.  In a [termquery] the value ends at the second colon: a term
    [TERM:VALUE:REST] gives the query of [TERM:VALUE], whatever [REST]
    is and whatever the other arguments are. *)
Theorem termquery_value_cut (args : Namespace) (term value rest : string)
    (l l' : list string) :
  query args = None ->
  action args = Some "termquery" ->
  terms args = Some ((term ++ ":" ++ value ++ ":" ++ rest)%string :: l) ->
  colon_free term -> colon_free value ->
  _build_query json_loads args =
  _build_query json_loads
    (with_terms args (Some ((term ++ ":" ++ value)%string :: l'))).
Proof.
  intros Hq Ha Ht Hterm Hvalue. unfold _build_query.
  cbn [with_terms query action terms range fields size count host index].
  rewrite Hq, Ha, Ht. cbn [default from_option Datatypes.id].
  assert (S1 : stock_query "termquery"
                 (Some ((term ++ ":" ++ value ++ ":" ++ rest)%string :: l))
               = stock_query "termquery"
                   (Some ((term ++ ":" ++ value)%string :: l'))).
  { unfold stock_query.
    cbn [String.eqb Ascii.eqb Bool.eqb first_term getitem nth_error
         of_result mbind outcome_mbind outcome_bind].
    change (term ++ ":" ++ value ++ ":" ++ rest)%string
      with (term ++ String ":" (value ++ String ":" rest))%string.
    change (term ++ ":" ++ value)%string
      with (term ++ String ":" value)%string.
    rewrite !has_colon_prefix.
    rewrite (split_colon_prefix term (value ++ String ":" rest) Hterm).
    rewrite (split_colon_prefix value rest Hvalue).
    rewrite (split_colon_prefix term value Hterm).
    rewrite (split_colon_free value Hvalue). reflexivity. }
  rewrite S1. reflexivity.
Qed.

End BuildQuery.

Lemma build_query_outcome_witness :
  _build_query (fun _ => Raise ValueError) count_args
  = Raises UnboundLocalError.
Proof.
  pose proof (build_query_outcome (fun _ => Raise ValueError) count_args
                "*" [] eq_refl eq_refl (or_introl eq_refl)) as H.
  cbv zeta in H.
  destruct (_build_query (fun _ => Raise ValueError) count_args) as [r|e].
  - destruct H as [H|[H|[H _]]]; discriminate H.
  - destruct H as [(H & _)|[_ ->]]; [discriminate H|reflexivity].
Defined.

Lemma termquery_value_cut_witness :
  _build_query (fun _ => Raise ValueError) time_args =
  _build_query (fun _ => Raise ValueError)
               (with_terms time_args (Some ["time:09"])) /\
  _build_query (fun _ => Raise ValueError) time_args =
  Returns ("http://127.0.0.1:9200/logstash*/_search",
           JObj [("query", JObj [("term", JObj [("time", JStr "09")])])],
           false).
Proof.
  split; [|vm_compute; reflexivity].
  exact (termquery_value_cut (fun _ => Raise ValueError) time_args
           "time" "09" "15:02" [] [] eq_refl eq_refl eq_refl eq_refl eq_refl).
Defined.

(** ** From the vectors to the analysis *)

Section Driver.

Variable parse_hour : string -> result nat.
Variable int_of_str : string -> result Z.
Variable post : Z -> result dict.

Lemma day_vectors_shaped (_day_data : dict)
    (day_vecs : gmap hkey (gmap string organized)) :
  get_day_vectors parse_hour int_of_str _day_data = Ok day_vecs ->
  forall tk st a, lookup_vector day_vecs tk st = Some a -> shaped a.
Proof.
  unfold get_day_vectors. intros H.
  destruct (_count_day parse_hour int_of_str _day_data) as [counts|e] eqn:Ec;
    [|discriminate H].
  cbn [mbind result_bind bind] in H.
  destruct (count_day_wide _ _ _ _ Ec) as [_ Hw].
  destruct (organize_vectors_fold counts ∅ Hw) as (d & Hd & Hsh & _).
  { intros tk st a Ha. unfold lookup_vector in Ha.
    rewrite lookup_empty in Ha. discriminate Ha. }
  rewrite Hd in H. injection H as <-. exact Hsh.
Qed.

Lemma avg_vectors_len (now now' : Z)
    (grouped_vecs : gmap Z (gmap hkey (gmap string ndarray))) :
  get_avg_vectors parse_hour int_of_str post now now' = Ok grouped_vecs ->
  forall day tk st v,
    lookup_day grouped_vecs day tk st = Some v -> len v = 24%nat.
Proof.
  unfold get_avg_vectors. intros H.
  destruct (month_vecs parse_hour int_of_str post now now') as [month|e]
    eqn:Em; [|discriminate H].
  cbn [mbind result_bind bind] in H.
  destruct (month_wide _ _ _ now now' month Em) as [Hw _].
  destruct (group_days month ∅ Hw) as (grouped & Hg & Hsh & _).
  { intros day tk st a Ha. unfold lookup_day in Ha.
    rewrite lookup_empty in Ha. discriminate Ha. }
  rewrite Hg in H. cbn [mbind result_bind bind] in H.
  destruct (average_all grouped Hsh) as (out & Hout & _ & Hrows).
  rewrite Hout in H. injection H as <-.
  intros day tk st v Hv. rewrite Hrows in Hv.
  destruct (lookup_day grouped day tk st) as [a|] eqn:Ea; [|discriminate Hv].
  destruct (averaged_counts_shaped a (Hsh _ _ _ _ Ea)) as (v' & _ & Hl & Hv').
  rewrite Hv' in Hv. now injection Hv as <-.
Qed.

(** X25.  The analysis of the driver returns on what the vectorizer
    hands it: when [get_day_vectors] and [get_avg_vectors] have returned,
    the test data are the vectors of [day_vecs] (one vector per entry) and
    the training data those of [grouped_vecs], then [data_clean] returns,
    and [outlier_detection] returns on its result, whatever the day of the
    run: every vector they read has 24 slots. *)
Theorem analysis_returns (_day_data : dict) (now now' today : Z)
    (day_vecs : gmap hkey (gmap string organized))
    (grouped_vecs : gmap Z (gmap hkey (gmap string ndarray)))
    (test : gmap string (gmap string ndarray))
    (train : gmap Z (gmap string (gmap string ndarray))) (plot : bool) :
  get_day_vectors parse_hour int_of_str _day_data = Ok day_vecs ->
  get_avg_vectors parse_hour int_of_str post now now' = Ok grouped_vecs ->
  holds_day_vecs test day_vecs ->
  holds_grouped_vecs train grouped_vecs ->
  exists cleaned analyzed,
    data_clean (__init__ test train plot) = Ok cleaned /\
    outlier_detection today cleaned = Ok analyzed /\
    hourly cleaned (weekday (today - esconstants.TEST_DAY)).
Proof.
  intros Hday Havg Htest Htrain.
  assert (Hu : uniform train 24).
  { intros day tk st v Hv. apply Htrain in Hv.
    exact (avg_vectors_len _ _ _ Havg _ _ _ _ Hv). }
  assert (H24 : (0 < 24)%nat) by lia.
  set (self := __init__ test train plot).
  unfold data_clean. change (_train_data self) with train.
  destruct (aggregate_good 24 H24 train Hu) as (agg & -> & Hinv & Hcov).
  cbn [mbind result_bind bind].
  destruct (trim_good 24 H24 agg Hinv) as (trim_data & -> & Hband).
  cbn [mbind result_bind bind].
  destruct (haircut_ok trim_data train) as [train' Hcut].
  { intros day tk st v Hv. apply Hband. now apply (Hcov day tk st v). }
  rewrite Hcut. cbn [mbind result_bind bind].
  set (cleaned := mkESAnalyze _ _ _ _ _ _ _ _).
  assert (Hh : hourly cleaned (weekday (today - esconstants.TEST_DAY))).
  { intros tk st tv Htv. change (test_data cleaned) with test in Htv.
    split.
    - destruct (Htest tk st tv Htv) as (v & Hv & ->).
      exact (day_vectors_shaped _ _ Hday _ _ _ Hv).
    - intros bv Hbv. change (_train_data cleaned) with train' in Hbv.
      destruct (haircut_lookup _ _ _ _ _ _ _ Hcut Hbv) as (v & band & Hv & _ & ->).
      rewrite len_clip. exact (Hu _ _ _ _ Hv). }
  destruct (outlier_detection_verdicts today cleaned Hh) as (analyzed & Hrun & _).
  exists cleaned, analyzed. split; [reflexivity|]. split; [exact Hrun|exact Hh].
Qed.

End Driver.

Lemma tuesday_day_vecs_run :
  get_day_vectors iso_hour decimal day_well_formed = Ok tuesday_day_vecs.
Proof. vm_compute. reflexivity. Qed.

Lemma tuesday_grouped_vecs_run :
  get_avg_vectors iso_hour decimal two_tuesdays 735690 735690
  = Ok tuesday_grouped_vecs.
Proof. vm_compute. reflexivity. Qed.

Lemma singleton_lookup2 {A : Type} (x v : A) (tk st : string) :
  lookup2 ({[ "ossec" := {[ "5501" := x ]} ]} : gmap string (gmap string A))
          tk st = Some v ->
  tk = "ossec" /\ st = "5501" /\ v = x.
Proof.
  unfold lookup2. intros H.
  destruct (decide (tk = "ossec")) as [->|Hk].
  - rewrite lookup_singleton_eq in H. cbn in H.
    destruct (decide (st = "5501")) as [->|Hs].
    + rewrite lookup_singleton_eq in H. now injection H as <-.
    + rewrite lookup_singleton_ne in H by congruence. discriminate.
  - rewrite lookup_singleton_ne in H by congruence. discriminate.
Qed.

Lemma tuesday_test_holds : holds_day_vecs tuesday_test tuesday_day_vecs.
Proof.
  intros tk st tv H. apply singleton_lookup2 in H.
  destruct H as (-> & -> & ->). eexists. split; [|reflexivity].
  vm_compute. reflexivity.
Qed.

Lemma tuesday_train_holds :
  holds_grouped_vecs tuesday_train tuesday_grouped_vecs.
Proof.
  intros day tk st bv H. apply train_lookup_lookup2 in H.
  destruct H as (bt & Hbt & H). unfold tuesday_train in Hbt.
  destruct (decide (day = 1%Z)) as [->|Hd].
  - rewrite lookup_singleton_eq in Hbt. injection Hbt as <-.
    apply singleton_lookup2 in H. destruct H as (-> & -> & ->).
    vm_compute. reflexivity.
  - rewrite lookup_singleton_ne in Hbt by congruence. discriminate.
Qed.

Lemma analysis_returns_witness :
  exists cleaned analyzed,
    data_clean (__init__ tuesday_test tuesday_train false) = Ok cleaned /\
    outlier_detection 735690 cleaned = Ok analyzed /\
    hourly cleaned (weekday (735690 - esconstants.TEST_DAY)).
Proof.
  exact (analysis_returns iso_hour decimal two_tuesdays day_well_formed
           735690 735690 735690 tuesday_day_vecs tuesday_grouped_vecs
           tuesday_test tuesday_train false
           tuesday_day_vecs_run tuesday_grouped_vecs_run
           tuesday_test_holds tuesday_train_holds).
Defined.

(** ** The malformed record and the day *)

Lemma fold_left_raises {A B : Type} (f : result A -> B -> result A)
    (l : list B) (b : B) (acc : result A) :
  (forall e x, f (Raise e) x = Raise e) ->
  In b l ->
  (forall a, exists e, f (Ok a) b = Raise e) ->
  exists e, fold_left f l acc = Raise e.
Proof.
  intros Hraise Hin Hb.
  assert (R : forall l e, fold_left f l (Raise e) = Raise e).
  { clear -Hraise. induction l as [|x l IH]; intros e; [reflexivity|].
    cbn [fold_left]. rewrite Hraise. apply IH. }
  revert acc. induction l as [|x l IH]; intros acc; [destruct Hin|].
  cbn [fold_left]. destruct Hin as [->|Hin]; [|now apply IH].
  destruct acc as [a|e].
  - destruct (Hb a) as [e ->]. exists e. apply R.
  - rewrite Hraise. exists e. apply R.
Qed.

Lemma mapM_In {A B : Type} (f : A -> result B) (l : list A) (l' : list B)
    (a : A) :
  mapM f l = Ok l' -> In a l -> exists b, f a = Ok b /\ In b l'.
Proof.
  revert l'. induction l as [|x l IH]; intros l' H Hin; [destruct Hin|].
  cbn [mapM] in H. destruct (f x) as [y|e] eqn:Ex; [|discriminate H].
  cbn [mbind result_bind bind] in H.
  destruct (mapM f l) as [ys|e]; [|discriminate H].
  cbn [mbind result_bind bind] in H. injection H as <-.
  destruct Hin as [->|Hin].
  - exists y. split; [exact Ex|now left].
  - destruct (IH ys eq_refl Hin) as (b & Hb & Hin'). exists b.
    split; [exact Hb|now right].
Qed.

Lemma hits_by_key_of_keyed (key : string) (source : list dict)
    (recs : list (hkey * dict)) (g0 : groups) :
  mapM (keyed key) source = Ok recs ->
  fold_left (hits_by_key_body key) source (Ok g0) =
  Ok (fold_left (fun g r => groups_add g (fst r) (snd r)) recs g0).
Proof.
  revert recs g0. induction source as [|hit source IH]; intros recs g0 H.
  - cbn in H. injection H as <-. reflexivity.
  - cbn [mapM] in H. destruct (keyed key hit) as [r|e] eqn:Er;
      [|discriminate H].
    cbn [mbind result_bind bind] in H.
    destruct (mapM (keyed key) source) as [rs|e]; [|discriminate H].
    cbn [mbind result_bind bind] in H. injection H as <-.
    cbn [fold_left]. rewrite hits_by_key_body_keyed, Er.
    cbn [mbind result_bind bind]. now apply IH.
Qed.

Lemma hits_by_key_filed (key : string) (source : list dict)
    (recs : list (hkey * dict)) :
  mapM (keyed key) source = Ok recs ->
  _hits_by_key source key =
  Ok (fold_left (fun g r => groups_add g (fst r) (snd r)) recs []).
Proof. exact (hits_by_key_of_keyed key source recs []). Qed.

Lemma filed_under_In (k : hkey) (d : dict) (recs : list (hkey * dict)) :
  In (k, d) recs -> In d (filed_under k recs).
Proof.
  intros H. unfold filed_under. apply in_map_iff. exists (k, d).
  split; [reflexivity|]. apply filter_In. split; [exact H|].
  apply hkey_eqb_refl.
Qed.

Lemma groups_get_In (g : groups) (k : hkey) (l : list dict) :
  groups_get g k = Some l -> In (k, l) g.
Proof.
  induction g as [|[k' hits] g IH]; cbn [groups_get]; [discriminate|].
  destruct (hkey_eqb k' k) eqn:E.
  - apply hkey_eqb_eq in E. subst k'. intros [= <-]. now left.
  - intros H. right. now apply IH.
Qed.

(** The hits of a key, once the source has been filed. *)
Lemma filed_groups (key : string) (source : list dict)
    (recs : list (hkey * dict)) (k : hkey) (d : dict) :
  mapM (keyed key) source = Ok recs -> In (k, d) recs ->
  exists g,
    _hits_by_key source key = Ok g /\
    groups_get g k = Some (filed_under k recs) /\
    In (k, filed_under k recs) g /\ In d (filed_under k recs).
Proof.
  intros Hrecs Hin.
  rewrite (hits_by_key_filed key source recs Hrecs).
  eexists. split; [reflexivity|].
  destruct (filed_fold recs []) as (Hget & _). cbv zeta in Hget.
  pose proof (filed_under_In k d recs Hin) as Hd.
  assert (G : groups_get
                (fold_left (fun g r => groups_add g (fst r) (snd r)) recs [])
                k = Some (filed_under k recs)).
  { rewrite Hget. cbn [groups_get].
    destruct (filed_under k recs); [destruct Hd|reflexivity]. }
  split; [exact G|]. split; [exact (groups_get_In _ _ _ G)|exact Hd].
Qed.

Lemma hits_by_key_keyed_raise (key : string) (source : list dict)
    (hit : dict) (e : exn) :
  In hit source -> keyed key hit = Raise e ->
  exists e', _hits_by_key source key = Raise e'.
Proof.
  intros Hin He. unfold _hits_by_key.
  apply (fold_left_raises (hits_by_key_body key) source hit);
    [reflexivity|exact Hin|].
  intros g. rewrite hits_by_key_body_keyed, He. eauto.
Qed.

Section Fatal.

Variable parse_hour : string -> result nat.
Variable int_of_str : string -> result Z.

Lemma count_hit_hit_hour (row : list Z) (hit : dict) :
  count_hit parse_hour (Ok row) hit =
  hour ← hit_hour parse_hour hit;
  n ← getitem row hour;
  setitem row hour (n + 1)%Z.
Proof.
  unfold count_hit, hit_hour. cbn [mbind result_bind bind].
  destruct (dict_getitem hit esconstants.KEY_ES_TIMESTAMP) as [t|e];
    reflexivity.
Qed.

Lemma hourly_counts_bad_hour (hits_type : groups) (atype : hkey)
    (hits : list dict) (hit : dict) (e : exn) :
  In (atype, hits) hits_type -> In hit hits ->
  hit_hour parse_hour hit = Raise e ->
  exists e', _hourly_counts parse_hour int_of_str hits_type = Raise e'.
Proof.
  intros Hin Hhit He. unfold _hourly_counts.
  apply (fold_left_raises (count_row parse_hour int_of_str) hits_type
           (atype, hits)); [reflexivity|exact Hin|].
  intros m. unfold count_row. cbn [mbind result_bind bind fst snd].
  destruct (fold_left_raises (count_hit parse_hour) hits hit
              (Ok (repeat 0%Z esconstants.NUM_BUCKETS))) as [e' ->].
  - reflexivity.
  - exact Hhit.
  - intros row. rewrite count_hit_hit_hour, He. eauto.
  - eauto.
Qed.

(** A source with a record that cannot be filed, or whose filed fields
    have no hour, gives no matrix. *)
Lemma grouped_counts_raise (source : list dict) (key : string) (hit : dict) :
  In hit source ->
  (exists e, keyed key hit = Raise e) \/
  (exists k d e, keyed key hit = Ok (k, d) /\
                 hit_hour parse_hour d = Raise e) ->
  exists e,
    (hits ← _hits_by_key source key;
     hit_vecs ← _hourly_counts parse_hour int_of_str hits;
     Ok (Some hit_vecs)) = Raise e.
Proof.
  intros Hin [[e He]|(k & d & e & Hk & He)].
  - destruct (hits_by_key_keyed_raise key source hit e Hin He) as [e' ->].
    eauto.
  - destruct (mapM (keyed key) source) as [recs|e0] eqn:Erecs.
    + destruct (mapM_In _ _ _ hit Erecs Hin) as (b & Hb & Hb').
      rewrite Hk in Hb. injection Hb as <-.
      destruct (filed_groups key source recs k d Erecs Hb')
        as (g & -> & _ & Hg & Hd).
      cbn [mbind result_bind bind].
      destruct (hourly_counts_bad_hour g k _ d e Hg Hd He) as [e' ->].
      eauto.
    + destruct (_hits_by_key source key) as [g|e1] eqn:Eg; [|eauto].
      unfold _hits_by_key in Eg.
      destruct (hits_by_key_fold _ _ _ _ Eg) as (recs & Hrecs & _).
      rewrite Hrecs in Erecs. discriminate Erecs.
Qed.

Lemma dict_get_set_same (d : dict) (k : string) (v : json) :
  dict_get (dict_set d k v) k = Some v.
Proof.
  induction d as [|[k' v'] d IH]; cbn [dict_set dict_get].
  - now rewrite String.eqb_refl.
  - destruct (String.eqb k' k) eqn:E; cbn [dict_get].
    + now rewrite String.eqb_refl.
    + now rewrite E.
Qed.

Lemma dict_get_set_other (d : dict) (k k' : string) (v : json) :
  k <> k' -> dict_get (dict_set d k v) k' = dict_get d k'.
Proof.
  intros Hne. induction d as [|[k0 v0] d IH]; cbn [dict_set dict_get].
  - destruct (String.eqb_spec k k'); [contradiction|reflexivity].
  - destruct (String.eqb_spec k0 k) as [->|H0]; cbn [dict_get].
    + destruct (String.eqb_spec k k'); [contradiction|reflexivity].
    + destruct (String.eqb k0 k'); [reflexivity|exact IH].
Qed.

(** A malformed record of ossec or syslog cannot be filed by its subtype,
    or is filed without an hour. *)
Lemma malformed_plain (key : string) (hit : dict) :
  key <> esconstants.KEY_SURICATA_SIG ->
  lacks hit esconstants.KEY_ES_TIMESTAMP \/ lacks hit key ->
  (exists e, keyed key hit = Raise e) \/
  (exists k d e, keyed key hit = Ok (k, d) /\
                 hit_hour parse_hour d = Raise e).
Proof.
  intros Hkey H. unfold keyed.
  destruct (String.eqb_spec key esconstants.KEY_SURICATA_SIG) as [E|_];
    [contradiction|].
  destruct H as [(d & -> & Hd)|(d & -> & Hd)];
    cbn [mbind result_bind bind].
  - destruct (dict_getitem d key) as [v|e]; [|eauto].
    cbn [mbind result_bind bind].
    destruct (hashable v) as [k|e]; [|eauto].
    cbn [mbind result_bind bind]. right. exists k, d, KeyError.
    split; [reflexivity|]. unfold hit_hour, dict_getitem. now rewrite Hd.
  - left. unfold dict_getitem. rewrite Hd. eauto.
Qed.

(** A malformed suricata alert likewise. *)
Lemma malformed_alert (hit : dict) :
  malformed esconstants.KEY_SURICATA_TYPE hit ->
  (exists e, keyed esconstants.KEY_SURICATA_SIG hit = Raise e) \/
  (exists k d e, keyed esconstants.KEY_SURICATA_SIG hit = Ok (k, d) /\
                 hit_hour parse_hour d = Raise e).
Proof.
  unfold malformed. rewrite String.eqb_refl. unfold keyed.
  rewrite String.eqb_refl.
  intros [(d & -> & Hd)|[(d & -> & Hd)|(d & alert & -> & Hd & Hs)]];
    cbn [mbind result_bind bind].
  - rewrite Hd. cbn [default from_option Datatypes.id].
    destruct (dict_getitem d esconstants.KEY_SURICATA_ALERT) as [a|e];
      [|eauto].
    cbn [mbind result_bind bind].
    destruct (as_dict a) as [alert|e]; [|eauto].
    cbn [mbind result_bind bind].
    destruct (dict_getitem _ esconstants.KEY_SURICATA_SIG) as [v|e]; [|eauto].
    cbn [mbind result_bind bind].
    destruct (hashable v) as [k|e]; [|eauto].
    cbn [mbind result_bind bind]. right.
    exists k, (dict_set alert esconstants.KEY_ES_TIMESTAMP JNull), TypeError.
    split; [reflexivity|]. unfold hit_hour, dict_getitem.
    now rewrite dict_get_set_same.
  - left.
    assert (E : dict_getitem d esconstants.KEY_SURICATA_ALERT = Raise KeyError)
      by (unfold dict_getitem; now rewrite Hd).
    rewrite E. eauto.
  - left.
    assert (E : dict_getitem d esconstants.KEY_SURICATA_ALERT =
                Ok (JObj alert))
      by (unfold dict_getitem; now rewrite Hd).
    rewrite E. cbn [mbind result_bind bind as_dict].
    unfold dict_getitem. rewrite dict_get_set_other by discriminate.
    rewrite Hs. eauto.
Qed.

(** The munge function of the type of a counted, malformed record
    raises. *)
Lemma munge_raises (hits_day : groups) (recs : list (hkey * dict))
    (logtype : string) (hit : dict) :
  (forall k, filed_under k recs <> [] ->
             groups_get hits_day k = Some (filed_under k recs)) ->
  In hit (counted recs logtype) ->
  malformed logtype hit ->
  exists munge e,
    _LOGTYPE_MUNGE parse_hour int_of_str (KStr logtype) = Some munge /\
    munge hits_day = Raise e.
Proof.
  intros Hget Hin Hbad. unfold counted in Hin. cbv zeta in Hin.
  assert (Hgroup : forall l, In hit l -> l <> []).
  { intros l Hl E. rewrite E in Hl. destruct Hl. }
  destruct (String.eqb_spec logtype esconstants.KEY_OSSEC_TYPE) as [->|Ho].
  { cbn [orb] in Hin.
    exists (_munge_ossec parse_hour int_of_str). 
    destruct (grouped_counts_raise
                (filed_under (KStr esconstants.KEY_OSSEC_TYPE) recs)
                esconstants.KEY_OSSEC_RULE hit Hin) as [e He].
    { apply malformed_plain; [discriminate|].
      destruct Hbad as [H|H]; [now left|right; exact H]. }
    exists e. split; [reflexivity|]. unfold _munge_ossec, groups_getitem.
    rewrite (Hget _ (Hgroup _ Hin)). cbn [mbind result_bind bind].
    exact He. }
  destruct (String.eqb_spec logtype esconstants.KEY_SYSLOG_TYPE) as [->|Hs].
  { cbn [orb] in Hin.
    exists (_munge_syslog parse_hour int_of_str).
    destruct (grouped_counts_raise
                (filed_under (KStr esconstants.KEY_SYSLOG_TYPE) recs)
                esconstants.KEY_SYSLOG_SEV hit Hin) as [e He].
    { apply malformed_plain; [discriminate|].
      destruct Hbad as [H|H]; [now left|right; exact H]. }
    exists e. split; [reflexivity|]. unfold _munge_syslog, groups_getitem.
    rewrite (Hget _ (Hgroup _ Hin)). cbn [mbind result_bind bind].
    exact He. }
  cbn [orb] in Hin.
  destruct (String.eqb_spec logtype esconstants.KEY_SURICATA_TYPE)
    as [->|Hx]; [|destruct Hin].
  destruct (filed_under (KStr esconstants.KEY_SURICATA_TYPE) recs)
    as [|first rest] eqn:Eg; [destruct Hin|].
  destruct (is_alert first) eqn:Ea; [|destruct Hin].
  exists (_munge_suricata parse_hour int_of_str).
  destruct (grouped_counts_raise (List.filter is_alert (first :: rest))
              esconstants.KEY_SURICATA_SIG hit Hin
              (malformed_alert hit Hbad)) as [e He].
  exists e. split; [reflexivity|]. unfold _munge_suricata, groups_getitem.
  rewrite (Hget (KStr esconstants.KEY_SURICATA_TYPE)), Eg
    by (rewrite Eg; discriminate).
  cbn [mbind result_bind bind].
  rewrite (collect_alerts_alert_first first rest Ea). exact He.
Qed.

(** C6, as amended.  No record is left out for being malformed.  A record
    of the day without a type makes [_count_day] raise.  When every record
    has its type, a record that the day counts (any record of ossec or of
    syslog, and an alert of suricata when the first suricata record is an
    alert) and that has no timestamp or no subtype key makes [_count_day]
    raise as well: the day gives no vector at all, the malformed record is
    fatal to its normalization. *)
Theorem malformed_record_is_fatal (result_data : dict) (source : list dict) :
  search_hits result_data = Ok source ->
  (forall hit,
     In hit source -> lacks hit esconstants.KEY_ES_TYPE ->
     exists e, _count_day parse_hour int_of_str result_data = Raise e) /\
  (forall recs logtype hit,
     mapM (keyed esconstants.KEY_ES_TYPE) source = Ok recs ->
     In hit (counted recs logtype) ->
     malformed logtype hit ->
     exists e, _count_day parse_hour int_of_str result_data = Raise e).
Proof.
  intros Hsource. unfold _count_day. rewrite Hsource.
  cbn [mbind result_bind bind]. split.
  { intros hit Hin (d & Hd & Hnone).
    destruct (hits_by_key_keyed_raise esconstants.KEY_ES_TYPE source hit
                KeyError Hin) as [e ->]; [|eauto].
    unfold keyed. rewrite Hd. cbn [mbind result_bind bind].
    change (String.eqb esconstants.KEY_ES_TYPE esconstants.KEY_SURICATA_SIG)
      with false.
    cbn [mbind result_bind bind]. unfold dict_getitem. now rewrite Hnone. }
  intros recs logtype hit Hrecs Hin Hbad.
  rewrite (hits_by_key_filed _ source recs Hrecs).
  cbn [mbind result_bind bind].
  set (hits_day := fold_left (fun g r => groups_add g (fst r) (snd r))
                             recs []).
  assert (Hget : forall k, filed_under k recs <> [] ->
                           groups_get hits_day k = Some (filed_under k recs)).
  { intros k Hk. destruct (filed_fold recs []) as (Hget & _).
    cbv zeta in Hget. unfold hits_day. rewrite Hget. cbn [groups_get].
    destruct (filed_under k recs); [congruence|reflexivity]. }
  destruct (munge_raises hits_day recs logtype hit Hget Hin Hbad)
    as (munge & e & Hmunge & Hrun).
  assert (Hgroup : filed_under (KStr logtype) recs <> []).
  { intros E. unfold counted in Hin. cbv zeta in Hin. rewrite E in Hin.
    destruct (_ || _)%bool; [destruct Hin|].
    destruct (String.eqb _ _); destruct Hin. }
  apply (fold_left_raises (count_day_body parse_hour int_of_str hits_day)
           hits_day (KStr logtype, filed_under (KStr logtype) recs));
    [reflexivity|exact (groups_get_In _ _ _ (Hget _ Hgroup))|].
  intros acc. unfold count_day_body. cbn [mbind result_bind bind fst].
  rewrite Hmunge, Hrun. eauto.
Qed.

End Fatal.

Lemma malformed_record_is_fatal_witness :
  (exists e, _count_day iso_hour decimal day_without_type = Raise e) /\
  (exists e, _count_day iso_hour decimal day_without_rule = Raise e) /\
  (exists e, _count_day iso_hour decimal day_without_timestamp = Raise e) /\
  (exists e, _count_day iso_hour decimal alert_without_signature = Raise e).
Proof.
  split; [|split; [|split]].
  - apply (proj1 (malformed_record_is_fatal iso_hour decimal day_without_type
             [ [("_id", JStr "1"); ("_source", JObj ossec_good)];
               [("_id", JStr "2"); ("_source", JObj ossec_no_type)] ]
             eq_refl)
             [("_id", JStr "2"); ("_source", JObj ossec_no_type)]).
    + right. left. reflexivity.
    + exists ossec_no_type. split; reflexivity.
  - apply (proj2 (malformed_record_is_fatal iso_hour decimal day_without_rule
             [ [("_id", JStr "1"); ("_source", JObj ossec_good)];
               [("_id", JStr "2"); ("_source", JObj ossec_no_rule)] ]
             eq_refl)
             [(KStr "ossec", ossec_good); (KStr "ossec", ossec_no_rule)]
             "ossec" ossec_no_rule).
    + reflexivity.
    + right. left. reflexivity.
    + right. exists ossec_no_rule. split; reflexivity.
  - apply (proj2 (malformed_record_is_fatal iso_hour decimal
             day_without_timestamp
             [ [("_id", JStr "1"); ("_source", JObj ossec_good)];
               [("_id", JStr "2"); ("_source", JObj ossec_no_timestamp)] ]
             eq_refl)
             [(KStr "ossec", ossec_good); (KStr "ossec", ossec_no_timestamp)]
             "ossec" ossec_no_timestamp).
    + reflexivity.
    + right. left. reflexivity.
    + left. exists ossec_no_timestamp. split; reflexivity.
  - pose (good := [("type", JStr "suricata");
                   ("@timestamp", JStr "2015-03-24T09:15:03.000Z");
                   ("event_type", JStr "alert");
                   ("alert", JObj [("signature_id", JNum 2010935)])]).
    pose (bad := [("type", JStr "suricata");
                  ("@timestamp", JStr "2015-03-24T09:16:00.000Z");
                  ("event_type", JStr "alert");
                  ("alert", JObj [("severity", JNum 1)])]).
    apply (proj2 (malformed_record_is_fatal iso_hour decimal
             alert_without_signature
             [ [("_id", JStr "1"); ("_source", JObj good)];
               [("_id", JStr "2"); ("_source", JObj bad)] ]
             eq_refl)
             [(KStr "suricata", good); (KStr "suricata", bad)]
             "suricata" bad).
    + reflexivity.
    + right. left. reflexivity.
    + right. right. exists bad, [("severity", JNum 1)].
      repeat split; reflexivity.
Defined.

(** A record the day does not count is left out, malformed or not: a
    record of a type without munge function and a suricata flow record,
    both without timestamp, leave the vectors of the day as they are. *)
Lemma uncounted_record_is_left_out :
  _count_day iso_hour decimal day_with_unlisted_type =
    Ok [(KStr "ossec", [repeat 0%Z 9 ++ [1%Z] ++ repeat 0%Z 14 ++ [5501%Z]])]
  /\ _count_day iso_hour decimal day_with_flow_record =
    Ok [(KStr "suricata",
         [repeat 0%Z 9 ++ [1%Z] ++ repeat 0%Z 14 ++ [2010935%Z]])].
Proof. split; vm_compute; reflexivity. Qed.
